(** * fluxcli: the resource synchronization layer (package k8s) and the
      resource table view (package ui), embedded in Rocq.

    Part I holds the definitions, translated function by function from
    [pkg/k8s] (the fetchers and the mutation operations) and from
    [pkg/ui/resource_view.go]; Part II holds the lemmas and theorems. *)

From Stdlib Require Import ZArith String Ascii List Bool Lia DecimalString Reals Lra.
From Stdlib Require Import Floats.SpecFloat.
From stdpp Require Import base option list strings gmap.

Local Open Scope string_scope.
Local Open Scope Z_scope.

(* ===================================================================== *)
(** * Part I: definitions                                                 *)
(* ===================================================================== *)

(** ** Go strings: byte sequences *)

(** [len(s)]: the number of bytes of [s]. *)
Definition len (s : string) : Z := Z.of_nat (String.length s).

(** [strings.Contains(s, substr)]. *)
Fixpoint Contains (s substr : string) : bool :=
  String.prefix substr s ||
  match s with
  | EmptyString => false
  | String _ s' => Contains s' substr
  end.

(** [s[:n]] for [0 <= n <= len(s)] (Go panics outside that range; the
    callers below guard the slice with a length test). *)
Definition slice_to (s : string) (n : nat) : string := String.substring 0 n s.

(** [fmt.Sprintf("%d", n)]. *)
Definition itoa (n : Z) : string := NilZero.string_of_int (Z.to_int n).

(** ** Go integers *)

Definition minInt64 : Z := - 2 ^ 63.
Definition maxInt64 : Z := 2 ^ 63 - 1.

(** Two's complement wrap-around of [int] (64 bits). *)
Definition wrap64 (z : Z) : Z := (z + 2 ^ 63) mod 2 ^ 64 - 2 ^ 63.

Definition add64 (a b : Z) : Z := wrap64 (a + b).
Definition sub64 (a b : Z) : Z := wrap64 (a - b).

(** Go's [/] on integers truncates toward zero; the divisor is never zero
    where it is used below. *)
Definition div64 (a b : Z) : Z := wrap64 (Z.quot a b).
Definition rem64 (a b : Z) : Z := Z.rem a b.

(** ** Go errors *)

(** An [error] value: either a status error produced by the API machinery
    (it knows whether its reason is NotFound) or an error built by
    [fmt.Errorf], which carries its formatted text and, for [%w], the error
    it wraps. *)
Inductive error : Type :=
| StatusError (reasonNotFound : bool) (msg : string)
| FmtError (msg : string)
| FmtWrap (msg : string) (wrapped : error).

(** [err.Error()]. *)
Definition Error (e : error) : string :=
  match e with
  | StatusError _ msg => msg
  | FmtError msg => msg
  | FmtWrap msg _ => msg
  end.

(** [errors.Unwrap(err)]. *)
Definition Unwrap (e : error) : option error :=
  match e with
  | FmtWrap _ w => Some w
  | _ => None
  end.

(** [apierrors.IsNotFound(err)]: looks through the chain of wrapped errors
    for a status error whose reason is NotFound. *)
Fixpoint IsNotFound (e : error) : bool :=
  match e with
  | StatusError nf _ => nf
  | FmtError _ => false
  | FmtWrap _ e' => IsNotFound e'
  end.

(** [client.IgnoreNotFound(err)]: nil when [err] is a not-found error. *)
Definition IgnoreNotFound (e : error) : option error :=
  if IsNotFound e then None else Some e.

(** [fmt.Errorf(prefix + "%w", err)]. *)
Definition Errorf_w (prefix : string) (e : error) : error :=
  FmtWrap (prefix +:+ Error e) e.

(** [fmt.Errorf(text)] with no wrapped error. *)
Definition Errorf (text : string) : error := FmtError text.

(** The test every fetcher applies to a failed list call:
<<
  isCRDMissing := client.IgnoreNotFound(err) == nil ||
      (errStr != "" && (
          strings.Contains(errStr, "no matches for kind") ||
          strings.Contains(errStr, "could not find the requested resource") ||
          strings.Contains(errStr, "the server could not find the requested resource")))
>> *)
Definition isCRDMissing (err : error) : bool :=
  let errStr := Error err in
  match IgnoreNotFound err with None => true | Some _ => false end
  || (negb (String.eqb errStr "")
      && (Contains errStr "no matches for kind"
          || Contains errStr "could not find the requested resource"
          || Contains errStr "the server could not find the requested resource")).

(** ** Time *)

(** A [time.Time] instant, in nanoseconds since the Unix epoch, and a
    [time.Duration], a 64-bit count of nanoseconds. *)
Definition Time : Type := Z.
Definition Duration : Type := Z.

Definition Nanosecond : Duration := 1.
Definition Second : Duration := 1000000000.
Definition Minute : Duration := 60 * Second.
Definition Hour : Duration := 60 * Minute.

(** [t.Sub(u)]: the difference, saturated to the range of [Duration]. *)
Definition Time_Sub (t u : Time) : Duration :=
  Z.max minInt64 (Z.min maxInt64 (t - u)).

(** ** The entity model (package k8s) *)

Definition ResourceType : Type := string.

Definition ResourceTypeGitRepository : ResourceType := "GitRepository".
Definition ResourceTypeHelmRepository : ResourceType := "HelmRepository".
Definition ResourceTypeKustomization : ResourceType := "Kustomization".
Definition ResourceTypeHelmRelease : ResourceType := "HelmRelease".

Record Condition : Type := mkCondition {
  Cond_Type : string;
  Cond_Status : string;
  Cond_Reason : string;
  Cond_Message : string;
  Cond_LastTransitionTime : Time
}.

Record Resource : Type := mkResource {
  Type_ : ResourceType;
  Name : string;
  Namespace : string;
  Ready : bool;
  Status : string;
  Message : string;
  Age : Duration;
  LastUpdate : Time;
  Conditions : list Condition;
  Suspended : bool;
  Source : string;
  Path : string;
  Revision : string;
  URL : string;
  Chart : string;
  Version : string
}.

(** ** The cluster objects the fetchers read *)

(** [metav1.Condition]; [metav1.ConditionTrue] is the string "True". *)
Record metav1_Condition : Type := mkMetaCondition {
  mc_Type : string;
  mc_Status : string;
  mc_Reason : string;
  mc_Message : string;
  mc_LastTransitionTime : Time
}.

Definition ConditionTrue : string := "True".

(** [metav1.ObjectMeta], with the fields this program reads or writes and
    the resource version the API server compares on update.  A nil
    annotation map is [None]. *)
Record ObjectMeta : Type := mkObjectMeta {
  om_Name : string;
  om_Namespace : string;
  om_CreationTimestamp : Time;
  om_ResourceVersion : string;
  om_Annotations : option (gmap string string)
}.

Record Artifact : Type := mkArtifact { art_Revision : string }.

(** [sourcev1.GitRepository]. *)
Record GitRepository : Type := mkGitRepository {
  gr_ObjectMeta : ObjectMeta;
  gr_Spec_Suspend : bool;
  gr_Spec_URL : string;
  gr_Status_Conditions : list metav1_Condition;
  gr_Status_Artifact : option Artifact
}.

(** [sourcev1beta2.HelmRepository] and [sourcev1.HelmRepository]: the two
    versions agree on every field the program touches. *)
Record HelmRepository : Type := mkHelmRepository {
  hrepo_ObjectMeta : ObjectMeta;
  hrepo_Spec_Suspend : bool;
  hrepo_Spec_URL : string;
  hrepo_Status_Conditions : list metav1_Condition
}.

(** [kustomizev1.Kustomization]. *)
Record Kustomization : Type := mkKustomization {
  ks_ObjectMeta : ObjectMeta;
  ks_Spec_Suspend : bool;
  ks_Spec_Path : string;
  ks_Spec_SourceRef_Kind : string;
  ks_Spec_SourceRef_Name : string;
  ks_Status_Conditions : list metav1_Condition;
  ks_Status_LastAppliedRevision : string
}.

(** [helmv2.HelmChartTemplate], the chart template of a release, with the
    fields of its [Spec] that the program reads. *)
Record HelmChartTemplate : Type := mkHelmChartTemplate {
  hct_Spec_Chart : string;
  hct_Spec_Version : string;
  hct_Spec_SourceRef_Kind : string;
  hct_Spec_SourceRef_Name : string
}.

(** [helmv2.HelmRelease] (v2beta1).  [Spec.Chart] is a pointer to the
    chart template; it is nil, [None], in a release that names its chart
    through [spec.chartRef]. *)
Record HelmRelease : Type := mkHelmRelease {
  hr_ObjectMeta : ObjectMeta;
  hr_Spec_Suspend : bool;
  hr_Spec_Chart : option HelmChartTemplate;
  hr_Status_Conditions : list metav1_Condition;
  hr_Status_LastAppliedRevision : string
}.

(** The Go object types handed to the client: kind and API version. *)
Variant GVK : Type :=
| GitRepository_v1
| HelmRepository_v1beta2
| HelmRepository_v1
| Kustomization_v1
| HelmRelease_v2beta1.

Definition Object (g : GVK) : Type :=
  match g with
  | GitRepository_v1 => GitRepository
  | HelmRepository_v1beta2 => HelmRepository
  | HelmRepository_v1 => HelmRepository
  | Kustomization_v1 => Kustomization
  | HelmRelease_v2beta1 => HelmRelease
  end.

(** ** The client *)

Variant Context : Type := Background.

Variant ListOption : Type := InNamespace (namespace : string).

Record NamespacedName : Type := mkNamespacedName {
  key_Namespace : string;
  key_Name : string
}.

(** What a call on the underlying client can do: return, fail with an
    error, or panic. *)
Variant reply (A : Type) : Type :=
| Returns (a : A)
| Fails (e : error)
| Panics (r : string).
Arguments Returns {A} a.
Arguments Fails {A} e.
Arguments Panics {A} r.

(** The controller-runtime [client.Client] interface, over a cluster state
    [St]; a nil context is passed through as [None]. *)
Record K8sClient (St : Type) : Type := mkK8sClient {
  api_List : forall g : GVK, option Context -> list ListOption -> St ->
             reply (list (Object g)) * St;
  api_Get : forall g : GVK, option Context -> NamespacedName -> St ->
            reply (Object g) * St;
  api_Update : forall g : GVK, option Context -> Object g -> St ->
               reply unit * St
}.
Arguments api_List {St} _ g _ _ _.
Arguments api_Get {St} _ g _ _ _.
Arguments api_Update {St} _ g _ _ _.

(** The [Client] struct of package k8s embeds a [client.Client], which may
    be a nil interface value. *)
Record Client (St : Type) : Type := mkClient {
  Client_Client : option (K8sClient St)
}.
Arguments Client_Client {St} _.
Arguments mkClient {St} _.

(** The calls issued on the underlying client, in order. *)
Inductive Call : Type :=
| CallList (g : GVK) (ctx : option Context) (opts : list ListOption)
| CallGet (g : GVK) (ctx : option Context) (key : NamespacedName)
| CallUpdate (g : GVK) (ctx : option Context) (obj : Object g).

(** ** Formatting a time as RFC 3339, in UTC *)

(** [n] in decimal, left-padded with zeros to [width] digits, behind a
    minus sign when negative (the [appendInt] of package time). *)
Fixpoint pad_zeros (k : nat) (s : string) : string :=
  match k with
  | O => s
  | S k' => pad_zeros k' ("0" +:+ s)
  end.

Definition appendInt (n : Z) (width : nat) : string :=
  let digits := itoa (Z.abs n) in
  let padded := pad_zeros (width - String.length digits)%nat digits in
  if n <? 0 then "-" +:+ padded else padded.

(** The civil date (year, month, day) of a day count since 1970-01-01 in
    the proleptic Gregorian calendar. *)
Definition civil_from_days (days : Z) : Z * Z * Z :=
  let z := days + 719468 in
  let era := z / 146097 in
  let doe := z - era * 146097 in
  let yoe := (doe - doe / 1460 + doe / 36524 - doe / 146096) / 365 in
  let y := yoe + era * 400 in
  let doy := doe - (365 * yoe + yoe / 4 - yoe / 100) in
  let mp := (5 * doy + 2) / 153 in
  let d := doy - (153 * mp + 2) / 5 + 1 in
  let m := if mp <? 10 then mp + 3 else mp - 9 in
  (if m <=? 2 then y + 1 else y, m, d).

(** [t.UTC().Format(time.RFC3339)]: layout "2006-01-02T15:04:05Z07:00",
    whose zone is the letter Z in UTC; fractions of a second are dropped. *)
Definition Format_RFC3339_UTC (t : Time) : string :=
  let secs := t / Second in
  let days := secs / 86400 in
  let sod := secs mod 86400 in
  let '(y, m, d) := civil_from_days days in
  appendInt y 4 +:+ "-" +:+ appendInt m 2 +:+ "-" +:+ appendInt d 2 +:+ "T" +:+
  appendInt (sod / 3600) 2 +:+ ":" +:+ appendInt (sod mod 3600 / 60) 2 +:+ ":" +:+
  appendInt (sod mod 60) 2 +:+ "Z".

(** ** The synchronization layer *)

(** What running a Go function can do: come back with its results, or
    panic. *)
Variant outcome (A : Type) : Type :=
| Done (a : A)
| Panicked (r : string).
Arguments Done {A} a.
Arguments Panicked {A} r.

(** The text of the run-time panic on a nil pointer or nil interface. *)
Definition nilDereference : string :=
  "runtime error: invalid memory address or nil pointer dereference".

Section Sync.

(** The cluster behind the client is a state [St]; [now] is [time.Now()],
    reading (and possibly advancing) the clock that is part of it. *)
Variable St : Type.
Variable now : St -> Time * St.

(** The world a function of the layer runs in: the cluster state and the
    calls it has issued on the underlying client so far. *)
Record World : Type := mkWorld {
  w_state : St;
  w_calls : list Call
}.

Definition M (A : Type) : Type := World -> outcome A * World.

#[global] Instance M_ret : MRet M := fun A a w => (Done a, w).
#[global] Instance M_bind : MBind M := fun A B f m w =>
  match m w with
  | (Done a, w') => f a w'
  | (Panicked r, w') => (Panicked r, w')
  end.

Definition panic {A : Type} (r : string) : M A := fun w => (Panicked r, w).

(** [recover()] in a deferred function that turns the panic value [r]
    into the result [h r]. *)
Definition recovering {A : Type} (h : string -> A) (m : M A) : M A := fun w =>
  match m w with
  | (Done a, w') => (Done a, w')
  | (Panicked r, w') => (Done (h r), w')
  end.

Definition time_Now : M Time := fun w =>
  let '(t, s) := now (w_state w) in (Done t, mkWorld s (w_calls w)).

(** [time.Since(t)] is [time.Now().Sub(t)]. *)
Definition time_Since (t : Time) : M Duration :=
  n ← time_Now; mret (Time_Sub n t).

(** Reading through a pointer: a nil pointer panics. *)
Definition deref {A : Type} (p : option A) : M A :=
  match p with
  | Some a => mret a
  | None => panic nilDereference
  end.

(** Selecting the embedded client through a [*Client]: a nil pointer and
    a nil embedded interface both panic at the call. *)
Definition embedded (c : option (Client St)) : M (K8sClient St) :=
  match c with
  | None => panic nilDereference
  | Some c' =>
      match Client_Client c' with
      | None => panic nilDereference
      | Some k => mret k
      end
  end.

(** One call on the underlying client: it is logged, the cluster state
    moves, and the reply comes back as a value or as an error. *)
Definition issue {A : Type} (call : Call) (f : St -> reply A * St)
  : M (A + error) := fun w =>
  let '(r, s) := f (w_state w) in
  let w' := mkWorld s (w_calls w ++ [call]) in
  match r with
  | Returns a => (Done (inl a), w')
  | Fails e => (Done (inr e), w')
  | Panics r => (Panicked r, w')
  end.

(** [c.List(ctx, list, opts...)], the promoted method: on success [list]
    holds the items. *)
Definition Client_List (c : option (Client St)) (g : GVK) (ctx : option Context)
    (opts : list ListOption) : M (list (Object g) + error) :=
  k ← embedded c;
  issue (CallList g ctx opts) (api_List k g ctx opts).

(** [c.Get(ctx, key, obj)]: on success [obj] holds the fetched object. *)
Definition Client_Get (c : option (Client St)) (g : GVK) (ctx : option Context)
    (key : NamespacedName) : M (Object g + error) :=
  k ← embedded c;
  issue (CallGet g ctx key) (api_Get k g ctx key).

(** [c.Update(ctx, obj)]. *)
Definition Client_Update (c : option (Client St)) (g : GVK) (ctx : option Context)
    (obj : Object g) : M (unit + error) :=
  k ← embedded c;
  issue (CallUpdate g ctx obj) (api_Update k g ctx obj).

(** [safeList] wraps [c.List] with panic recovery. *)
Definition safeList (c : option (Client St)) (g : GVK) (ctx : option Context)
    (opts : list ListOption) : M (list (Object g) + error) :=
  recovering
    (fun r => inr (Errorf ("panic in kubernetes client list operation: " +:+ r)))
    (Client_List c g ctx opts).

(** The list options every fetcher builds from the namespace. *)
Definition listOptions (namespace : string) : list ListOption :=
  if negb (String.eqb namespace "") then
    if (0 <? len namespace) && negb (String.eqb namespace "<nil>")
    then [InNamespace namespace]
    else []
  else [].

(** *** Building a [Resource] *)

(** The copy of a cluster condition appended to [resource.Conditions]. *)
Definition copyCondition (cond : metav1_Condition) : Condition :=
  {| Cond_Type := mc_Type cond;
     Cond_Status := mc_Status cond;
     Cond_Reason := mc_Reason cond;
     Cond_Message := mc_Message cond;
     Cond_LastTransitionTime := mc_LastTransitionTime cond |}.

(** [resource.Conditions = append(resource.Conditions, c)]. *)
Definition appendCondition (c : Condition) (r : Resource) : Resource :=
  mkResource (Type_ r) (Name r) (Namespace r) (Ready r) (Status r) (Message r)
    (Age r) (LastUpdate r) (Conditions r ++ [c]) (Suspended r) (Source r)
    (Path r) (Revision r) (URL r) (Chart r) (Version r).

(** The three assignments [resource.Ready = ..], [resource.Status = ..],
    [resource.Message = ..]. *)
Definition setReadiness (ready : bool) (status message : string) (r : Resource)
  : Resource :=
  mkResource (Type_ r) (Name r) (Namespace r) ready status message
    (Age r) (LastUpdate r) (Conditions r) (Suspended r) (Source r)
    (Path r) (Revision r) (URL r) (Chart r) (Version r).

Definition setSource (source : string) (r : Resource) : Resource :=
  mkResource (Type_ r) (Name r) (Namespace r) (Ready r) (Status r) (Message r)
    (Age r) (LastUpdate r) (Conditions r) (Suspended r) source
    (Path r) (Revision r) (URL r) (Chart r) (Version r).

Definition setRevision (revision : string) (r : Resource) : Resource :=
  mkResource (Type_ r) (Name r) (Namespace r) (Ready r) (Status r) (Message r)
    (Age r) (LastUpdate r) (Conditions r) (Suspended r) (Source r)
    (Path r) revision (URL r) (Chart r) (Version r).

(** The composite literal every fetcher starts from; the fields it does
    not name are zero.  [time.Since] is evaluated before [time.Now]. *)
Definition newResource (type : ResourceType) (meta : ObjectMeta) (suspend : bool)
    (source path url chart version : string) : M Resource :=
  age ← time_Since (om_CreationTimestamp meta);
  lastUpdate ← time_Now;
  mret {| Type_ := type; Name := om_Name meta; Namespace := om_Namespace meta;
          Ready := false; Status := ""; Message := "";
          Age := age; LastUpdate := lastUpdate; Conditions := [];
          Suspended := suspend; Source := source; Path := path; Revision := "";
          URL := url; Chart := chart; Version := version |}.

(** The status loop of ListGitRepositories, ListKustomizations and
    ListHelmReleases:
<<
for _, cond := range conditions {
    resource.Conditions = append(resource.Conditions, Condition{...})
    if cond.Type == "Ready" {
        resource.Ready = cond.Status == metav1.ConditionTrue
        resource.Status = cond.Reason
        resource.Message = cond.Message
    }
}
>> *)
Definition parseStatusStep (resource : Resource) (cond : metav1_Condition)
  : Resource :=
  let resource := appendCondition (copyCondition cond) resource in
  if String.eqb (mc_Type cond) "Ready" then
    setReadiness (String.eqb (mc_Status cond) ConditionTrue)
                 (mc_Reason cond) (mc_Message cond) resource
  else resource.

Definition parseStatus (conditions : list metav1_Condition) (resource : Resource)
  : Resource :=
  fold_left parseStatusStep conditions resource.

(** The status code of ListHelmRepositories, the same on the v1beta2 path
    and on the v1 path:
<<
for _, cond := range repo.Status.Conditions {
    resource.Conditions = append(resource.Conditions, Condition{...})
}
if len(repo.Status.Conditions) > 0 {
    lastCond := repo.Status.Conditions[len(repo.Status.Conditions)-1]
    resource.Status = string(lastCond.Status)
    resource.Message = lastCond.Message
    resource.Ready = lastCond.Status == metav1.ConditionTrue
}
>> *)
Definition parseStatusLast (conditions : list metav1_Condition)
    (resource : Resource) : Resource :=
  let resource :=
    fold_left (fun r cond => appendCondition (copyCondition cond) r)
              conditions resource in
  match last conditions with
  | Some lastCond =>
      setReadiness (String.eqb (mc_Status lastCond) ConditionTrue)
                   (mc_Status lastCond) (mc_Message lastCond) resource
  | None => resource
  end.

Definition gitRepositoryResource (repo : GitRepository) : M Resource :=
  resource ← newResource ResourceTypeGitRepository (gr_ObjectMeta repo)
               (gr_Spec_Suspend repo) "" "" (gr_Spec_URL repo) "" "";
  let resource := parseStatus (gr_Status_Conditions repo) resource in
  let resource :=
    match gr_Status_Artifact repo with
    | Some a => setRevision (art_Revision a) resource
    | None => resource
    end in
  mret resource.

Definition helmRepositoryResource (repo : HelmRepository) : M Resource :=
  resource ← newResource ResourceTypeHelmRepository (hrepo_ObjectMeta repo)
               (hrepo_Spec_Suspend repo) "" "" (hrepo_Spec_URL repo) "" "";
  mret (parseStatusLast (hrepo_Status_Conditions repo) resource).

Definition kustomizationResource (ks : Kustomization) : M Resource :=
  resource ← newResource ResourceTypeKustomization (ks_ObjectMeta ks)
               (ks_Spec_Suspend ks) "" (ks_Spec_Path ks) "" "" "";
  let resource :=
    if String.eqb (ks_Spec_SourceRef_Kind ks) "GitRepository"
    then setSource (ks_Spec_SourceRef_Name ks) resource else resource in
  let resource := parseStatus (ks_Status_Conditions ks) resource in
  let resource :=
    if negb (String.eqb (ks_Status_LastAppliedRevision ks) "")
    then setRevision (ks_Status_LastAppliedRevision ks) resource else resource in
  mret resource.

(** The body of the loop of ListHelmReleases.  The composite literal
    reads [hr.Spec.Chart.Spec.Chart] through the pointer [hr.Spec.Chart],
    after the two calls on the clock that stand before it: on a nil
    pointer it panics there, outside [safeList]. *)
Definition helmReleaseResource (hr : HelmRelease) : M Resource :=
  age ← time_Since (om_CreationTimestamp (hr_ObjectMeta hr));
  lastUpdate ← time_Now;
  chart ← deref (hr_Spec_Chart hr);
  let resource :=
    {| Type_ := ResourceTypeHelmRelease;
       Name := om_Name (hr_ObjectMeta hr); Namespace := om_Namespace (hr_ObjectMeta hr);
       Ready := false; Status := ""; Message := "";
       Age := age; LastUpdate := lastUpdate; Conditions := [];
       Suspended := hr_Spec_Suspend hr; Source := ""; Path := ""; Revision := "";
       URL := ""; Chart := hct_Spec_Chart chart; Version := hct_Spec_Version chart |} in
  let resource :=
    if String.eqb (hct_Spec_SourceRef_Kind chart) "HelmRepository"
    then setSource (hct_Spec_SourceRef_Name chart) resource else resource in
  let resource := parseStatus (hr_Status_Conditions hr) resource in
  let resource :=
    if negb (String.eqb (hr_Status_LastAppliedRevision hr) "")
    then setRevision (hr_Status_LastAppliedRevision hr) resource else resource in
  mret resource.

(** [for _, item := range items { ...; resources = append(resources, resource) }]. *)
Fixpoint forEach {A : Type} (f : A -> M Resource) (items : list A)
  : M (list Resource) :=
  match items with
  | [] => mret []
  | item :: rest =>
      resource ← f item;
      resources ← forEach f rest;
      mret (resource :: resources)
  end.

(** *** The fetchers *)

(** A fetcher returns Go's pair [([]Resource, error)]: the resources with
    a nil error, or an error. *)
Definition ListGitRepositories (c : option (Client St)) (ctx : option Context)
    (namespace : string) : M (list Resource + error) :=
  let opts := listOptions namespace in
  r ← safeList c GitRepository_v1 ctx opts;
  match r with
  | inr err =>
      if isCRDMissing err then mret (inl [])
      else mret (inr (Errorf_w "failed to list GitRepositories: " err))
  | inl items =>
      resources ← forEach gitRepositoryResource items;
      mret (inl resources)
  end.

Definition ListHelmRepositories (c : option (Client St)) (ctx : option Context)
    (namespace : string) : M (list Resource + error) :=
  match c with
  | None => mret (inr (Errorf "kubernetes client is nil"))
  | Some c' =>
  match Client_Client c' with
  | None => mret (inr (Errorf "embedded kubernetes client is nil"))
  | Some _ =>
  match ctx with
  | None => mret (inr (Errorf "context is nil"))
  | Some _ =>
    let opts := listOptions namespace in
    r ← safeList c HelmRepository_v1beta2 ctx opts;
    match r with
    | inr listErr =>
        if isCRDMissing listErr then
          rV1 ← safeList c HelmRepository_v1 ctx opts;
          match rV1 with
          | inr errV1 =>
              if isCRDMissing errV1 then mret (inl [])
              else mret (inr (FmtWrap
                     ("failed to list HelmRepositories (tried v1beta2 and v1): v1beta2="
                      +:+ Error listErr +:+ ", v1=" +:+ Error errV1) listErr))
          | inl helmReposV1 =>
              resources ← forEach helmRepositoryResource helmReposV1;
              mret (inl resources)
          end
        else mret (inr (Errorf_w "failed to list HelmRepositories (v1beta2): " listErr))
    | inl helmRepos =>
        resources ← forEach helmRepositoryResource helmRepos;
        mret (inl resources)
    end
  end end end.

Definition ListKustomizations (c : option (Client St)) (ctx : option Context)
    (namespace : string) : M (list Resource + error) :=
  let opts := listOptions namespace in
  r ← safeList c Kustomization_v1 ctx opts;
  match r with
  | inr err =>
      if isCRDMissing err then mret (inl [])
      else mret (inr (Errorf_w "failed to list Kustomizations: " err))
  | inl items =>
      resources ← forEach kustomizationResource items;
      mret (inl resources)
  end.

Definition ListHelmReleases (c : option (Client St)) (ctx : option Context)
    (namespace : string) : M (list Resource + error) :=
  let opts := listOptions namespace in
  r ← safeList c HelmRelease_v2beta1 ctx opts;
  match r with
  | inr err =>
      if isCRDMissing err then mret (inl [])
      else mret (inr (Errorf_w "failed to list HelmReleases: " err))
  | inl items =>
      resources ← forEach helmReleaseResource items;
      mret (inl resources)
  end.

(** *** The mutation operations *)

(** The first switch of updateSuspendStatus and of ReconcileResource
    picks the Go type of the object; [None] is its default case. *)
Definition objectFor (resourceType : ResourceType) : option GVK :=
  if String.eqb resourceType ResourceTypeGitRepository then Some GitRepository_v1
  else if String.eqb resourceType ResourceTypeHelmRepository then Some HelmRepository_v1beta2
  else if String.eqb resourceType ResourceTypeKustomization then Some Kustomization_v1
  else if String.eqb resourceType ResourceTypeHelmRelease then Some HelmRelease_v2beta1
  else None.

(** The second switch of updateSuspendStatus: [x.Spec.Suspend = suspend]
    on the object under its own type (the type assertion of each case
    succeeds, the first switch having made the object of that type). *)
Definition setSuspend (g : GVK) (suspend : bool) : Object g -> Object g :=
  match g with
  | GitRepository_v1 => fun repo =>
      mkGitRepository (gr_ObjectMeta repo) suspend (gr_Spec_URL repo)
        (gr_Status_Conditions repo) (gr_Status_Artifact repo)
  | HelmRepository_v1beta2 | HelmRepository_v1 => fun repo =>
      mkHelmRepository (hrepo_ObjectMeta repo) suspend (hrepo_Spec_URL repo)
        (hrepo_Status_Conditions repo)
  | Kustomization_v1 => fun ks =>
      mkKustomization (ks_ObjectMeta ks) suspend (ks_Spec_Path ks)
        (ks_Spec_SourceRef_Kind ks) (ks_Spec_SourceRef_Name ks)
        (ks_Status_Conditions ks) (ks_Status_LastAppliedRevision ks)
  | HelmRelease_v2beta1 => fun hr =>
      mkHelmRelease (hr_ObjectMeta hr) suspend (hr_Spec_Chart hr)
        (hr_Status_Conditions hr) (hr_Status_LastAppliedRevision hr)
  end.

Definition getSuspend (g : GVK) : Object g -> bool :=
  match g with
  | GitRepository_v1 => gr_Spec_Suspend
  | HelmRepository_v1beta2 | HelmRepository_v1 => hrepo_Spec_Suspend
  | Kustomization_v1 => ks_Spec_Suspend
  | HelmRelease_v2beta1 => hr_Spec_Suspend
  end.

Definition getObjectMeta (g : GVK) : Object g -> ObjectMeta :=
  match g with
  | GitRepository_v1 => gr_ObjectMeta
  | HelmRepository_v1beta2 | HelmRepository_v1 => hrepo_ObjectMeta
  | Kustomization_v1 => ks_ObjectMeta
  | HelmRelease_v2beta1 => hr_ObjectMeta
  end.

Definition setObjectMeta (g : GVK) (meta : ObjectMeta) : Object g -> Object g :=
  match g with
  | GitRepository_v1 => fun repo =>
      mkGitRepository meta (gr_Spec_Suspend repo) (gr_Spec_URL repo)
        (gr_Status_Conditions repo) (gr_Status_Artifact repo)
  | HelmRepository_v1beta2 | HelmRepository_v1 => fun repo =>
      mkHelmRepository meta (hrepo_Spec_Suspend repo) (hrepo_Spec_URL repo)
        (hrepo_Status_Conditions repo)
  | Kustomization_v1 => fun ks =>
      mkKustomization meta (ks_Spec_Suspend ks) (ks_Spec_Path ks)
        (ks_Spec_SourceRef_Kind ks) (ks_Spec_SourceRef_Name ks)
        (ks_Status_Conditions ks) (ks_Status_LastAppliedRevision ks)
  | HelmRelease_v2beta1 => fun hr =>
      mkHelmRelease meta (hr_Spec_Suspend hr) (hr_Spec_Chart hr)
        (hr_Status_Conditions hr) (hr_Status_LastAppliedRevision hr)
  end.

(** [obj.GetAnnotations()] and [obj.SetAnnotations(annotations)]. *)
Definition GetAnnotations (g : GVK) (obj : Object g) : option (gmap string string) :=
  om_Annotations (getObjectMeta g obj).

Definition SetAnnotations (g : GVK) (annotations : option (gmap string string))
    (obj : Object g) : Object g :=
  let meta := getObjectMeta g obj in
  setObjectMeta g
    (mkObjectMeta (om_Name meta) (om_Namespace meta) (om_CreationTimestamp meta)
                  (om_ResourceVersion meta) annotations) obj.

(** A mutation returns Go's [error]: [None] is nil. *)
Definition updateSuspendStatus (c : option (Client St)) (ctx : option Context)
    (resourceType : ResourceType) (name namespace : string) (suspend : bool)
  : M (option error) :=
  match objectFor resourceType with
  | None => mret (Some (Errorf ("unsupported resource type: " +:+ resourceType)))
  | Some g =>
      let key := {| key_Name := name; key_Namespace := namespace |} in
      r ← Client_Get c g ctx key;
      match r with
      | inr err =>
          mret (Some (Errorf_w ("failed to get " +:+ resourceType +:+ "/" +:+ name +:+ ": ") err))
      | inl obj =>
          let obj := setSuspend g suspend obj in
          r ← Client_Update c g ctx obj;
          match r with
          | inr err =>
              mret (Some (Errorf_w ("failed to update " +:+ resourceType +:+ "/" +:+ name +:+ ": ") err))
          | inl _ => mret None
          end
      end
  end.

Definition SuspendResource (c : option (Client St)) (ctx : option Context)
    (resourceType : ResourceType) (name namespace : string) : M (option error) :=
  updateSuspendStatus c ctx resourceType name namespace true.

Definition ResumeResource (c : option (Client St)) (ctx : option Context)
    (resourceType : ResourceType) (name namespace : string) : M (option error) :=
  updateSuspendStatus c ctx resourceType name namespace false.

Definition reconcileAnnotation : string := "reconcile.fluxcd.io/requestedAt".

Definition ReconcileResource (c : option (Client St)) (ctx : option Context)
    (resourceType : ResourceType) (name namespace : string) : M (option error) :=
  match objectFor resourceType with
  | None => mret (Some (Errorf ("unsupported resource type: " +:+ resourceType)))
  | Some g =>
      let key := {| key_Name := name; key_Namespace := namespace |} in
      r ← Client_Get c g ctx key;
      match r with
      | inr err =>
          mret (Some (Errorf_w ("failed to get " +:+ resourceType +:+ "/" +:+ name +:+ ": ") err))
      | inl obj =>
          let annotations :=
            match GetAnnotations g obj with
            | None => ∅
            | Some annotations => annotations
            end in
          t ← time_Now;
          let annotations := <[reconcileAnnotation := Format_RFC3339_UTC t]> annotations in
          let obj := SetAnnotations g (Some annotations) obj in
          r ← Client_Update c g ctx obj;
          match r with
          | inr err =>
              mret (Some (Errorf_w ("failed to update " +:+ resourceType +:+ "/" +:+ name +:+ ": ") err))
          | inl _ => mret None
          end
      end
  end.

End Sync.

(** ** float64 arithmetic *)

(** Go's [float64] is IEEE 754 binary64; its operations are the ones of
    [SpecFloat] at precision 53 and exponent bound 1024, rounding to
    nearest, ties to even. *)
Definition float64 : Type := spec_float.

Definition prec64 : Z := 53.
Definition emax64 : Z := 1024.

(** The conversion [float64(n)] of an integer. *)
Definition float64_of_int (n : Z) : float64 := binary_normalize prec64 emax64 n 0 false.

Definition float64_add : float64 -> float64 -> float64 := SFadd prec64 emax64.
Definition float64_div : float64 -> float64 -> float64 := SFdiv prec64 emax64.

(** The conversion [int(f)]: the fraction is discarded (truncation toward
    zero).  For a value outside the range of [int] the result depends on
    the machine; the amd64 instruction gives the smallest integer.  No
    value of that kind arises from a [Duration]. *)
Definition int_of_float64 (f : float64) : Z :=
  match f with
  | S754_zero _ => 0
  | S754_finite s m e =>
      let a := Z.shiftl (Z.pos m) e in
      let n := if s then - a else a in
      if (minInt64 <=? n) && (n <=? maxInt64) then n else minInt64
  | _ => minInt64
  end.

(** The methods of [time.Duration]:
<<
  func (d Duration) Seconds() float64 {
      sec := d / Second
      nsec := d % Second
      return float64(sec) + float64(nsec)/1e9
  }
>>
    and likewise [Minutes] with [60*1e9] and [Hours] with [60*60*1e9]. *)
Definition Duration_Seconds (d : Duration) : float64 :=
  let sec := div64 d Second in
  let nsec := rem64 d Second in
  float64_add (float64_of_int sec) (float64_div (float64_of_int nsec) (float64_of_int 1000000000)).

Definition Duration_Minutes (d : Duration) : float64 :=
  let min := div64 d Minute in
  let nsec := rem64 d Minute in
  float64_add (float64_of_int min) (float64_div (float64_of_int nsec) (float64_of_int 60000000000)).

Definition Duration_Hours (d : Duration) : float64 :=
  let hour := div64 d Hour in
  let nsec := rem64 d Hour in
  float64_add (float64_of_int hour) (float64_div (float64_of_int nsec) (float64_of_int 3600000000000)).

(** ** The resource view (package ui) *)

(** The part of [config.Config] the view reads. *)
Record Config : Type := mkConfig {
  UI_ColumnsName : Z;
  UI_ColumnsStatus : Z;
  UI_ShowNamespace : bool
}.

(** [table.Column], [table.Row] and the fields of [table.Model] that the
    view sets and reads. *)
Record Column : Type := mkColumn { Title : string; Width : Z }.

Definition Row : Type := list string.

Record table_Model : Type := mkTable {
  tbl_columns : list Column;
  tbl_rows : list Row;
  tbl_cursor : Z;
  tbl_height : Z
}.

(** The text of the run-time panic on an index outside a slice. *)
Definition indexOutOfRange : string := "runtime error: index out of range".

(** Running one step after another: a panic of the first step is the
    panic of the whole. *)
Definition andThen {A B : Type} (o : outcome A) (f : A -> outcome B) : outcome B :=
  match o with
  | Done a => f a
  | Panicked r => Panicked r
  end.

(** A row can be rendered when it has no more cells than the table has
    columns: rendering a row looks up the column of each of its cells. *)
Definition fits (c : list Column) (row : Row) : bool :=
  (length row <=? length c)%nat.

(** [UpdateViewport], which every setter of the widget ends with,
    renders rows of the table again; it panics on a row that cannot be
    rendered.  The widget renders the rows its viewport reaches from the
    cursor; here every row the table holds is checked.  So a table that
    this function accepts is rendered by the widget whatever its
    viewport, and one that it refuses makes the widget panic when a row
    that does not fit is in the viewport, as the first row of a table
    whose cursor has not moved is. *)
Definition table_UpdateViewport (t : table_Model) : outcome table_Model :=
  if forallb (fits (tbl_columns t)) (tbl_rows t) then Done t
  else Panicked indexOutOfRange.

Definition table_SetColumns (c : list Column) (t : table_Model) : outcome table_Model :=
  table_UpdateViewport (mkTable c (tbl_rows t) (tbl_cursor t) (tbl_height t)).

Definition table_SetRows (r : list Row) (t : table_Model) : outcome table_Model :=
  table_UpdateViewport (mkTable (tbl_columns t) r (tbl_cursor t) (tbl_height t)).

Definition table_SetHeight (h : Z) (t : table_Model) : outcome table_Model :=
  table_UpdateViewport (mkTable (tbl_columns t) (tbl_rows t) (tbl_cursor t) h).

Definition table_Cursor (t : table_Model) : Z := tbl_cursor t.

Record ResourceView : Type := mkResourceView {
  config : Config;
  table : table_Model;
  resources : list Resource;
  resourceType : ResourceType;
  width : Z;
  height : Z
}.

Definition withTable (t : table_Model) (v : ResourceView) : ResourceView :=
  mkResourceView (config v) t (resources v) (resourceType v) (width v) (height v).

(** [formatAge] formats a duration as a human-readable age string. *)
Definition formatAge (d : Duration) : string :=
  if d <? Minute then
    itoa (int_of_float64 (Duration_Seconds d)) +:+ "s"
  else if d <? Hour then
    itoa (int_of_float64 (Duration_Minutes d)) +:+ "m"
  else if d <? 24 * Hour then
    itoa (int_of_float64 (Duration_Hours d)) +:+ "h"
  else
    itoa (int_of_float64 (float64_div (Duration_Hours d) (float64_of_int 24))) +:+ "d".

(** The ellipsis appended to a truncated cell: U+2026, three bytes. *)
Definition ellipsis : string := "…".

(** The status cell of a row:
<<
  status := resource.Status
  if status == "" { status = "Unknown" }
  if resource.Suspended { status = "Suspended" }
  if len(status) > 12 { status = status[:9] + "…" }
>> *)
Definition statusCell (resource : Resource) : string :=
  let status := Status resource in
  let status := if String.eqb status "" then "Unknown" else status in
  let status := if Suspended resource then "Suspended" else status in
  if len status >? 12 then slice_to status 9 +:+ ellipsis else status.

(** [createTableRow] creates a table row for a resource. *)
Definition createTableRow (v : ResourceView) (resource : Resource) : Row :=
  let name := Name resource in
  let name :=
    if UI_ShowNamespace (config v) && negb (String.eqb (Namespace resource) "")
    then Namespace resource +:+ "/" +:+ Name resource else name in
  let ready := if Ready resource then "True" else "False" in
  let status := statusCell resource in
  let age := formatAge (Age resource) in
  let message := Message resource in
  let message :=
    if len message >? 35 then slice_to message 32 +:+ ellipsis else message in
  if String.eqb (resourceType v) ResourceTypeGitRepository
     || String.eqb (resourceType v) ResourceTypeHelmRepository then
    [name; ready; status; age; message; URL resource]
  else if String.eqb (resourceType v) ResourceTypeKustomization then
    let source := Source resource in
    let source :=
      if negb (String.eqb (Path resource) "")
      then source +:+ "/" +:+ Path resource else source in
    [name; ready; status; age; message; source]
  else if String.eqb (resourceType v) ResourceTypeHelmRelease then
    let chart := Chart resource in
    let chart :=
      if negb (String.eqb (Version resource) "")
      then chart +:+ ":" +:+ Version resource else chart in
    [name; ready; status; age; message; chart]
  else
    [name; ready; status; age; message].

(** [updateTable] updates the table with current resources. *)
Definition updateTable (v : ResourceView) : outcome ResourceView :=
  let rows := map (createTableRow v) (resources v) in
  andThen (table_SetRows rows (table v)) (fun t => Done (withTable t v)).

(** The test on a column title that both loops of updateTableColumns make. *)
Definition isFlexTitle (col : Column) : bool :=
  String.eqb (Title col) "Message" || String.eqb (Title col) "URL"
  || String.eqb (Title col) "Source/Path".

(** The first loop of updateTableColumns, on [(totalFixedWidth, flexColumns)]. *)
Definition countColumn (acc : Z * Z) (col : Column) : Z * Z :=
  let '(totalFixedWidth, flexColumns) := acc in
  if isFlexTitle col then (totalFixedWidth, add64 flexColumns 1)
  else (add64 totalFixedWidth (Width col), flexColumns).

(** The second loop of updateTableColumns:
<<
  for _, col := range baseColumns {
      if col.Title == "Message" || col.Title == "URL" || col.Title == "Source/Path" {
          col.Width = flexWidth
      }
  }
>>
    The range clause copies each element of the slice into the loop
    variable [col]; the assignment changes that copy, and the slice
    [baseColumns], the state threaded through the loop, is never written. *)
Definition flexStep (flexWidth : Z) (baseColumns : list Column) (col : Column)
  : list Column :=
  let col := if isFlexTitle col then mkColumn (Title col) flexWidth else col in
  baseColumns.

(** [updateTableColumns] updates table columns based on resource type and
    width. *)
Definition updateTableColumns (v : ResourceView) : outcome ResourceView :=
  let baseColumns :=
    [ mkColumn "Name" (UI_ColumnsName (config v));
      mkColumn "Ready" 8;
      mkColumn "Status" (UI_ColumnsStatus (config v));
      mkColumn "Age" 10;
      mkColumn "Message" 35 ] in
  let baseColumns :=
    if String.eqb (resourceType v) ResourceTypeGitRepository then
      (baseColumns ++ [mkColumn "URL" 40])%list
    else if String.eqb (resourceType v) ResourceTypeHelmRepository then
      (baseColumns ++ [mkColumn "URL" 40])%list
    else if String.eqb (resourceType v) ResourceTypeKustomization then
      (baseColumns ++ [mkColumn "Source/Path" 30])%list
    else if String.eqb (resourceType v) ResourceTypeHelmRelease then
      (baseColumns ++ [mkColumn "Chart" 25])%list
    else baseColumns in
  let baseColumns :=
    if width v >? 0 then
      let '(totalFixedWidth, flexColumns) := fold_left countColumn baseColumns (0, 0) in
      if flexColumns >? 0 then
        let availableWidth := sub64 (sub64 (width v) totalFixedWidth) 10 in
        let flexWidth := div64 availableWidth flexColumns in
        if flexWidth >? 20 then
          fold_left (flexStep flexWidth) baseColumns baseColumns
        else baseColumns
      else baseColumns
    else baseColumns in
  andThen (table_SetColumns baseColumns (table v)) (fun t => Done (withTable t v)).

(** [SetResources] sets the resources to display. *)
Definition SetResources (rs : list Resource) (v : ResourceView) : outcome ResourceView :=
  let v := mkResourceView (config v) (table v) rs (resourceType v) (width v) (height v) in
  andThen (updateTableColumns v) updateTable.

(** [SetResourceType] sets the current resource type. *)
Definition SetResourceType (rt : ResourceType) (v : ResourceView)
  : outcome ResourceView :=
  let v := mkResourceView (config v) (table v) (resources v) rt (width v) (height v) in
  andThen (updateTableColumns v) updateTable.

(** [SetSize] sets the view dimensions. *)
Definition SetSize (w h : Z) (v : ResourceView) : outcome ResourceView :=
  let v := mkResourceView (config v) (table v) (resources v) (resourceType v) w h in
  andThen (table_SetHeight (sub64 h 2) (table v)) (fun t =>
  updateTableColumns (withTable t v)).

(** [NewResourceView] creates a new resource view.  The table it makes
    holds no row, so nothing is rendered that could panic. *)
Definition NewResourceView (cfg : Config) : ResourceView :=
  let columns :=
    [ mkColumn "Name" (UI_ColumnsName cfg);
      mkColumn "Ready" 8;
      mkColumn "Status" (UI_ColumnsStatus cfg);
      mkColumn "Age" 10;
      mkColumn "Message" 40 ] in
  {| config := cfg;
     table := mkTable columns [] 0 10;
     resources := [];
     resourceType := ResourceTypeGitRepository;
     width := 0;
     height := 0 |}.

(** [GetSelectedResource] returns the currently selected resource: a
    pointer to [v.resources[cursor]], or nil. *)
Definition GetSelectedResource (v : ResourceView) : option Resource :=
  let cursor := table_Cursor (table v) in
  if (cursor >=? 0) && (cursor <? Z.of_nat (length (resources v))) then
    resources v !! Z.to_nat cursor
  else None.

(** ** An in-memory cluster, to run the layer on concrete inputs *)

(** For each object type the API server either serves a collection or
    answers every request on it with a fixed error (the kind is not
    installed) or a panic of the client.  An update is refused when the
    resource version of the written object is stale. *)
Record Fake : Type := mkFake {
  fake_clock : Time;
  fake_GitRepository : reply (list GitRepository);
  fake_HelmRepository_v1beta2 : reply (list HelmRepository);
  fake_HelmRepository_v1 : reply (list HelmRepository);
  fake_Kustomization : reply (list Kustomization);
  fake_HelmRelease : reply (list HelmRelease)
}.

Definition fake_served (g : GVK) : Fake -> reply (list (Object g)) :=
  match g with
  | GitRepository_v1 => fake_GitRepository
  | HelmRepository_v1beta2 => fake_HelmRepository_v1beta2
  | HelmRepository_v1 => fake_HelmRepository_v1
  | Kustomization_v1 => fake_Kustomization
  | HelmRelease_v2beta1 => fake_HelmRelease
  end.

Definition fake_serve (g : GVK) : list (Object g) -> Fake -> Fake :=
  match g with
  | GitRepository_v1 => fun l s =>
      mkFake (fake_clock s) (Returns l) (fake_HelmRepository_v1beta2 s)
             (fake_HelmRepository_v1 s) (fake_Kustomization s) (fake_HelmRelease s)
  | HelmRepository_v1beta2 => fun l s =>
      mkFake (fake_clock s) (fake_GitRepository s) (Returns l)
             (fake_HelmRepository_v1 s) (fake_Kustomization s) (fake_HelmRelease s)
  | HelmRepository_v1 => fun l s =>
      mkFake (fake_clock s) (fake_GitRepository s) (fake_HelmRepository_v1beta2 s)
             (Returns l) (fake_Kustomization s) (fake_HelmRelease s)
  | Kustomization_v1 => fun l s =>
      mkFake (fake_clock s) (fake_GitRepository s) (fake_HelmRepository_v1beta2 s)
             (fake_HelmRepository_v1 s) (Returns l) (fake_HelmRelease s)
  | HelmRelease_v2beta1 => fun l s =>
      mkFake (fake_clock s) (fake_GitRepository s) (fake_HelmRepository_v1beta2 s)
             (fake_HelmRepository_v1 s) (fake_Kustomization s) (Returns l)
  end.

Definition hasKey (g : GVK) (key : NamespacedName) (obj : Object g) : bool :=
  String.eqb (om_Name (getObjectMeta g obj)) (key_Name key)
  && String.eqb (om_Namespace (getObjectMeta g obj)) (key_Namespace key).

Definition keyOf (g : GVK) (obj : Object g) : NamespacedName :=
  {| key_Namespace := om_Namespace (getObjectMeta g obj);
     key_Name := om_Name (getObjectMeta g obj) |}.

Definition selected (g : GVK) (opts : list ListOption) (obj : Object g) : bool :=
  forallb (fun o => match o with
                    | InNamespace ns => String.eqb (om_Namespace (getObjectMeta g obj)) ns
                    end) opts.

(** The double quote character, as a string. *)
Definition quote : string := String (Ascii.ascii_of_nat 34) EmptyString.

Definition notFound (key : NamespacedName) : error :=
  StatusError true (quote +:+ key_Name key +:+ quote +:+ " not found").

Definition conflict : error :=
  StatusError false "the object has been modified; please apply your changes to the latest version and try again".

Definition fake_List (g : GVK) (ctx : option Context) (opts : list ListOption)
    (s : Fake) : reply (list (Object g)) * Fake :=
  match fake_served g s with
  | Returns items => (Returns (List.filter (selected g opts) items), s)
  | Fails e => (Fails e, s)
  | Panics r => (Panics r, s)
  end.

Definition fake_Get (g : GVK) (ctx : option Context) (key : NamespacedName)
    (s : Fake) : reply (Object g) * Fake :=
  match fake_served g s with
  | Returns items =>
      match List.find (hasKey g key) items with
      | Some obj => (Returns obj, s)
      | None => (Fails (notFound key), s)
      end
  | Fails e => (Fails e, s)
  | Panics r => (Panics r, s)
  end.

Definition fake_Update (g : GVK) (ctx : option Context) (obj : Object g)
    (s : Fake) : reply unit * Fake :=
  match fake_served g s with
  | Returns items =>
      match List.find (hasKey g (keyOf g obj)) items with
      | Some old =>
          if String.eqb (om_ResourceVersion (getObjectMeta g old))
                        (om_ResourceVersion (getObjectMeta g obj))
          then (Returns tt,
                fake_serve g (map (fun o => if hasKey g (keyOf g obj) o then obj else o) items) s)
          else (Fails conflict, s)
      | None => (Fails (notFound (keyOf g obj)), s)
      end
  | Fails e => (Fails e, s)
  | Panics r => (Panics r, s)
  end.

Definition fakeClient : K8sClient Fake :=
  {| api_List := fake_List; api_Get := fake_Get; api_Update := fake_Update |}.

(** The clock of the in-memory cluster moves by one second at each reading. *)
Definition fake_now (s : Fake) : Time * Fake :=
  (fake_clock s,
   mkFake (fake_clock s + Second) (fake_GitRepository s) (fake_HelmRepository_v1beta2 s)
          (fake_HelmRepository_v1 s) (fake_Kustomization s) (fake_HelmRelease s)).

Definition noMatches (kind version : string) : error :=
  StatusError false ("no matches for kind " +:+ quote +:+ kind +:+ quote +:+ " in version "
                     +:+ quote +:+ version +:+ quote).

(** A condition as the controllers write it. *)
Definition cond (type status reason message : string) : metav1_Condition :=
  mkMetaCondition type status reason message 1700000000000000000.

(** A Helm repository whose last fetch failed; its Ready condition comes
    first and is not the last one of the list. *)
Definition failingHelmRepository : HelmRepository :=
  {| hrepo_ObjectMeta := mkObjectMeta "podinfo" "flux-system" 1690000000000000000 "41" None;
     hrepo_Spec_Suspend := false;
     hrepo_Spec_URL := "https://stefanprodan.github.io/podinfo";
     hrepo_Status_Conditions :=
       [ cond "Ready" "False" "IndexationFailed" "failed to fetch index";
         cond "ArtifactInStorage" "True" "Succeeded" "stored artifact";
         cond "FetchFailed" "True" "IndexationFailed" "failed to fetch index" ] |}.

Definition sampleGitRepository : GitRepository :=
  {| gr_ObjectMeta := mkObjectMeta "flux-system" "flux-system" 1690000000000000000 "7"
                        (Some {[ "owner" := "platform" ]});
     gr_Spec_Suspend := false;
     gr_Spec_URL := "ssh://git@example.com/fleet";
     gr_Status_Conditions :=
       [ cond "Ready" "True" "Succeeded" "stored artifact for revision main@sha1:abc" ];
     gr_Status_Artifact := Some (mkArtifact "main@sha1:abc") |}.

(** A cluster with the source controller installed at v1 and v1beta2 only
    for HelmRepository, and no kustomize or helm controller. *)
Definition sampleCluster : Fake :=
  {| fake_clock := 1700000000000000000;
     fake_GitRepository := Returns [sampleGitRepository];
     fake_HelmRepository_v1beta2 := Returns [failingHelmRepository];
     fake_HelmRepository_v1 := Fails (noMatches "HelmRepository" "source.toolkit.fluxcd.io/v1");
     fake_Kustomization := Fails (noMatches "Kustomization" "kustomize.toolkit.fluxcd.io/v1");
     fake_HelmRelease := Fails (StatusError false "helmreleases.helm.toolkit.fluxcd.io is forbidden") |}.

Definition sampleClient : option (Client Fake) := Some (mkClient (Some fakeClient)).

Definition startWorld (s : Fake) : World Fake := mkWorld Fake s [].

(** ** Notions used to state the properties *)

(** [sub] occurs in [s]. *)
Definition occursIn (sub s : string) : Prop :=
  exists pre post, s = pre +:+ sub +:+ post.

(** The phrases of the API server that the fetchers look for. *)
Definition kindNotInstalledPhrases : list string :=
  [ "no matches for kind";
    "could not find the requested resource";
    "the server could not find the requested resource" ].

(** What [safeList] makes of the reply of the underlying client: a panic
    comes back as an error. *)
Definition listResult {A : Type} (r : reply A) : A + error :=
  match r with
  | Returns a => inl a
  | Fails e => inr e
  | Panics r => inr (Errorf ("panic in kubernetes client list operation: " +:+ r))
  end.

(** A computation that issues no call on the client and does not panic. *)
Definition quiet {St A : Type} (m : M St A) : Prop :=
  forall w, exists a w', m w = (Done a, w') /\ w_calls St w' = w_calls St w.

(** A computation that issues no call on the client, and that panics, if
    it does, on a nil pointer. *)
Definition calm {St A : Type} (m : M St A) : Prop :=
  forall w, exists out w',
    m w = (out, w') /\ w_calls St w' = w_calls St w /\
    ((exists a, out = Done a) \/ out = Panicked nilDereference).

(** The object carries a condition of type "Ready" with status "True". *)
Definition carriesReadyTrue (conditions : list metav1_Condition) : Prop :=
  exists c, In c conditions /\ mc_Type c = "Ready" /\ mc_Status c = "True".

Definition isReadyCondition (c : metav1_Condition) : bool :=
  String.eqb (mc_Type c) "Ready".

(** The label behind the status cell, before truncation. *)
Definition statusLabel (resource : Resource) : string :=
  if Suspended resource then "Suspended"
  else if String.eqb (Status resource) "" then "Unknown"
  else Status resource.

(** The number of characters of a string, as
    [utf8.RuneCountInString] counts them in well-formed UTF-8: the bytes
    that do not continue a character. *)
Definition isContinuationByte (a : ascii) : bool :=
  (128 <=? nat_of_ascii a)%nat && (nat_of_ascii a <? 192)%nat.

Fixpoint characters (s : string) : nat :=
  match s with
  | EmptyString => O
  | String a s' => ((if isContinuationByte a then 0 else 1) + characters s')%nat
  end.

(** A string of ASCII bytes only. *)
Fixpoint isASCII (s : string) : bool :=
  match s with
  | EmptyString => true
  | String a s' => (nat_of_ascii a <? 128)%nat && isASCII s'
  end.

(** [obj'] is [obj] with the suspend flag [suspend]: every other field,
    taken one by one, is as in [obj]. *)
Definition sameButSuspend (g : GVK) (suspend : bool) : Object g -> Object g -> Prop :=
  match g with
  | GitRepository_v1 => fun obj obj' =>
      gr_Spec_Suspend obj' = suspend /\
      gr_ObjectMeta obj' = gr_ObjectMeta obj /\
      gr_Spec_URL obj' = gr_Spec_URL obj /\
      gr_Status_Conditions obj' = gr_Status_Conditions obj /\
      gr_Status_Artifact obj' = gr_Status_Artifact obj
  | HelmRepository_v1beta2 | HelmRepository_v1 => fun obj obj' =>
      hrepo_Spec_Suspend obj' = suspend /\
      hrepo_ObjectMeta obj' = hrepo_ObjectMeta obj /\
      hrepo_Spec_URL obj' = hrepo_Spec_URL obj /\
      hrepo_Status_Conditions obj' = hrepo_Status_Conditions obj
  | Kustomization_v1 => fun obj obj' =>
      ks_Spec_Suspend obj' = suspend /\
      ks_ObjectMeta obj' = ks_ObjectMeta obj /\
      ks_Spec_Path obj' = ks_Spec_Path obj /\
      ks_Spec_SourceRef_Kind obj' = ks_Spec_SourceRef_Kind obj /\
      ks_Spec_SourceRef_Name obj' = ks_Spec_SourceRef_Name obj /\
      ks_Status_Conditions obj' = ks_Status_Conditions obj /\
      ks_Status_LastAppliedRevision obj' = ks_Status_LastAppliedRevision obj
  | HelmRelease_v2beta1 => fun obj obj' =>
      hr_Spec_Suspend obj' = suspend /\
      hr_ObjectMeta obj' = hr_ObjectMeta obj /\
      hr_Spec_Chart obj' = hr_Spec_Chart obj /\
      hr_Status_Conditions obj' = hr_Status_Conditions obj /\
      hr_Status_LastAppliedRevision obj' = hr_Status_LastAppliedRevision obj
  end.

(** The annotations of an object, read from the metadata field of its
    type. *)
Definition annotationsOf (g : GVK) : Object g -> option (gmap string string) :=
  match g with
  | GitRepository_v1 => fun obj => om_Annotations (gr_ObjectMeta obj)
  | HelmRepository_v1beta2 | HelmRepository_v1 => fun obj =>
      om_Annotations (hrepo_ObjectMeta obj)
  | Kustomization_v1 => fun obj => om_Annotations (ks_ObjectMeta obj)
  | HelmRelease_v2beta1 => fun obj => om_Annotations (hr_ObjectMeta obj)
  end.

(** Two metadata records that agree on all but the annotations. *)
Definition sameMetaButAnnotations (meta meta' : ObjectMeta) : Prop :=
  om_Name meta' = om_Name meta /\
  om_Namespace meta' = om_Namespace meta /\
  om_CreationTimestamp meta' = om_CreationTimestamp meta /\
  om_ResourceVersion meta' = om_ResourceVersion meta.

(** [obj'] is [obj] but for its annotations: every other field, taken
    one by one, is as in [obj]. *)
Definition sameButAnnotations (g : GVK) : Object g -> Object g -> Prop :=
  match g with
  | GitRepository_v1 => fun obj obj' =>
      sameMetaButAnnotations (gr_ObjectMeta obj) (gr_ObjectMeta obj') /\
      gr_Spec_Suspend obj' = gr_Spec_Suspend obj /\
      gr_Spec_URL obj' = gr_Spec_URL obj /\
      gr_Status_Conditions obj' = gr_Status_Conditions obj /\
      gr_Status_Artifact obj' = gr_Status_Artifact obj
  | HelmRepository_v1beta2 | HelmRepository_v1 => fun obj obj' =>
      sameMetaButAnnotations (hrepo_ObjectMeta obj) (hrepo_ObjectMeta obj') /\
      hrepo_Spec_Suspend obj' = hrepo_Spec_Suspend obj /\
      hrepo_Spec_URL obj' = hrepo_Spec_URL obj /\
      hrepo_Status_Conditions obj' = hrepo_Status_Conditions obj
  | Kustomization_v1 => fun obj obj' =>
      sameMetaButAnnotations (ks_ObjectMeta obj) (ks_ObjectMeta obj') /\
      ks_Spec_Suspend obj' = ks_Spec_Suspend obj /\
      ks_Spec_Path obj' = ks_Spec_Path obj /\
      ks_Spec_SourceRef_Kind obj' = ks_Spec_SourceRef_Kind obj /\
      ks_Spec_SourceRef_Name obj' = ks_Spec_SourceRef_Name obj /\
      ks_Status_Conditions obj' = ks_Status_Conditions obj /\
      ks_Status_LastAppliedRevision obj' = ks_Status_LastAppliedRevision obj
  | HelmRelease_v2beta1 => fun obj obj' =>
      sameMetaButAnnotations (hr_ObjectMeta obj) (hr_ObjectMeta obj') /\
      hr_Spec_Suspend obj' = hr_Spec_Suspend obj /\
      hr_Spec_Chart obj' = hr_Spec_Chart obj /\
      hr_Status_Conditions obj' = hr_Status_Conditions obj /\
      hr_Status_LastAppliedRevision obj' = hr_Status_LastAppliedRevision obj
  end.

(** ** The RFC 3339 form of an instant, as the calendar gives it *)

(** The decimal digit of a number below ten, and a number in two and in
    four digits. *)
Definition digit (n : Z) : ascii := ascii_of_nat (48 + Z.to_nat n).

Definition twoDigits (n : Z) : string :=
  String (digit (n / 10)) (String (digit (n mod 10)) EmptyString).

Definition fourDigits (n : Z) : string :=
  String (digit (n / 1000)) (String (digit (n / 100 mod 10)) (twoDigits (n mod 100))).

(** The Gregorian calendar: leap years, the length of a month, and the
    date that follows a date. *)
Definition isLeapYear (y : Z) : bool :=
  (y mod 4 =? 0) && (negb (y mod 100 =? 0) || (y mod 400 =? 0)).

Definition daysInMonth (y m : Z) : Z :=
  if m =? 2 then (if isLeapYear y then 29 else 28)
  else if (m =? 4) || (m =? 6) || (m =? 9) || (m =? 11) then 30
  else 31.

Definition nextDate (date : Z * Z * Z) : Z * Z * Z :=
  let '(y, m, d) := date in
  if d <? daysInMonth y m then (y, m, d + 1)
  else if m <? 12 then (y, m + 1, 1)
  else (y + 1, 1, 1).

(** The date [n] days after 1 January 1970. *)
Definition dateOfDay (n : nat) : Z * Z * Z := Nat.iter n nextDate (1970, 1, 1).

(** The instant [t], that many nanoseconds after the start of 1 January
    1970 in UTC, written as RFC 3339 asks: year-month-day, the letter T,
    hour:minute:second of the day, and Z for UTC. *)
Definition rfc3339_utc (t : Time) : string :=
  let seconds := t / 1000000000 in
  let '(y, m, d) := dateOfDay (Z.to_nat (seconds / 86400)) in
  let inDay := seconds mod 86400 in
  fourDigits y +:+ "-" +:+ twoDigits m +:+ "-" +:+ twoDigits d +:+ "T" +:+
  twoDigits (inDay / 3600) +:+ ":" +:+ twoDigits (inDay / 60 mod 60) +:+ ":" +:+
  twoDigits (inDay mod 60) +:+ "Z".

(** A check, by evaluation, of the date that the formatter computes for
    the day [n] and for the day after it. *)
Definition date_ok (n : Z) : bool :=
  let '(y, m, d) := civil_from_days n in
  let '(y', m', d') := civil_from_days (n + 1) in
  let '(y'', m'', d'') := nextDate (y, m, d) in
  (1970 <=? y) && (y <=? 2262) && (1 <=? m) && (m <=? 12) && (1 <=? d) && (d <=? 31)
  && (y' =? y'') && (m' =? m'') && (d' =? d'').

(** The same check on [count] days in a row, from the day [n] on. *)
Fixpoint dates_ok (n : Z) (count : nat) : bool :=
  match count with
  | O => true
  | S count' => date_ok n && dates_ok (n + 1) count'
  end.

(** ** Real values of floats *)

(** The properties of [float64] code are stated on the real numbers the
    floats stand for. *)
Section FloatValues.

Local Open Scope R_scope.

(** The power of two [2^e], for any integer [e]. *)
Definition bpow (e : Z) : R := powerRZ 2 e.

(** The value of a float; an infinity stands for [2^1024], just above
    every finite float, and a NaN for zero. *)
Definition B2R (f : float64) : R :=
  match f with
  | S754_finite s m e => (if s then -1 else 1) * (IZR (Z.pos m) * bpow e)
  | S754_infinity s => (if s then -1 else 1) * bpow 1024
  | _ => 0
  end.

(** The floats that are not negative and not a NaN. *)
Definition nonneg (f : float64) : Prop :=
  match f with
  | S754_zero false | S754_finite false _ _ | S754_infinity false => True
  | _ => False
  end.

(** A location tells where a fraction [d] of a unit in the last place
    lies: on the lower grid point, below, on or above the middle. *)
Definition inbetween_loc (d : R) (l : location) : Prop :=
  match l with
  | loc_Exact => d = 0
  | loc_Inexact Lt => 0 < d < / 2
  | loc_Inexact Eq => d = / 2
  | loc_Inexact Gt => / 2 < d < 1
  end.

(** A shift record with mantissa [m] stands for a real [x] in [[m, m+1)]
    at the location the record gives. *)
Definition rec_ok (mrs : shr_record) (x : R) : Prop :=
  (0 <= shr_m mrs)%Z /\ inbetween_loc (x - IZR (shr_m mrs)) (loc_of_shr_record mrs).

(** The input of [binary_round_aux] for the exact value [(m + d) * 2^e]:
    the exponent is not above the one of the format at that magnitude. *)
Definition valid_input (m e : Z) (l : location) (d : R) : Prop :=
  (0 <= m)%Z /\ inbetween_loc d l /\ (e <= fexp 53 1024 (Zdigits2 m + e))%Z.

End FloatValues.

(** The second half of [binary_round_aux]: renormalisation after rounding,
    and the overflow test. *)
Definition finish64 (m2 e1 : Z) : float64 :=
  let '(mrs, e2) := shr_fexp 53 1024 m2 e1 loc_Exact in
  match shr_m mrs with
  | Z0 => S754_zero false
  | Z.pos m => if (e2 <=? 1024 - 53)%Z then S754_finite false m e2 else S754_infinity false
  | _ => S754_nan
  end.

Definition overflows (m2 e1 : Z) : bool :=
  (0 <? m2)%Z && (971 <? (if (m2 =? 2 ^ 53)%Z then e1 + 1 else e1))%Z.

(** A positive finite float whose value is below [2^1024]. *)
Definition pos_finite (f : float64) : bool :=
  match f with
  | S754_finite false m e => (Zdigits2 (Z.pos m) + e <=? 1024)%Z
  | _ => false
  end.

(** ** The age formatter, as the specification words it *)

(** The count of whole units, on integers: seconds below a minute, minutes
    below an hour, hours below a day, days from then on. *)
Definition formatAge_spec (d : Duration) : string :=
  if d <? Minute then itoa (d / Second) +:+ "s"
  else if d <? Hour then itoa (d / Minute) +:+ "m"
  else if d <? 24 * Hour then itoa (d / Hour) +:+ "h"
  else itoa (d / (24 * Hour)) +:+ "d".

(** The float that [Seconds], [Minutes] and [Hours] return for a duration
    of [count] whole units of [unit] nanoseconds and [nsec] more. *)
Definition unitsOf (unit count nsec : Z) : float64 :=
  float64_add (float64_of_int count)
              (float64_div (float64_of_int nsec) (float64_of_int unit)).

(** What formatAge prints from that float: its integer part, or for days
    the integer part of its quotient by 24. *)
Definition printed (days : bool) (x : float64) : Z :=
  if days then int_of_float64 (float64_div x (float64_of_int 24))
  else int_of_float64 x.

(** A check, by evaluation, that for [count] whole units the printed
    number is [expected] at no remainder, at a remainder of one
    nanosecond and at the remainder [nmax], all floats on the way being
    positive and finite. *)
Definition tier_ok (days : bool) (unit nmax expected count : Z) : bool :=
  let fu := float64_of_int unit in
  let fc := float64_of_int count in
  let q1 := float64_div (float64_of_int 1) fu in
  let qmax := float64_div (float64_of_int nmax) fu in
  let lo := float64_add fc q1 in
  let hi := float64_add fc qmax in
  let f24 := float64_of_int 24 in
  (0 <=? expected) && (1 <=? nmax) && (0 <=? count)
  && pos_finite fu && pos_finite (float64_of_int 1) && pos_finite (float64_of_int nmax)
  && pos_finite q1 && pos_finite qmax && pos_finite lo && pos_finite hi
  && (match fc with S754_zero false => true | _ => pos_finite fc end)
  && (if days then pos_finite f24 && pos_finite (float64_div lo f24)
                   && pos_finite (float64_div hi f24)
      else true)
  && (printed days (unitsOf unit count 0) =? expected)
  && (printed days lo =? expected)
  && (printed days hi =? expected).

(** The integers [lo, lo + 1, ..., lo + n - 1]. *)
Definition zrange (lo : Z) (n : nat) : list Z :=
  map (fun i => lo + Z.of_nat i) (seq 0 n).

(** ** Events (package k8s) *)

(** [t.Add(d)] and [t.Before(u)] on instants. *)
Definition Time_Add (t : Time) (d : Duration) : Time := t + d.
Definition Time_Before (t u : Time) : bool := t <? u.

(** [corev1.Event]: the API version of the object it is about and the two
    timestamps, which GetEvents reads, and what identifies and describes
    the event. *)
Record Event : Type := mkEvent {
  ev_ObjectMeta : ObjectMeta;
  ev_InvolvedObject_APIVersion : string;
  ev_InvolvedObject_Kind : string;
  ev_InvolvedObject_Name : string;
  ev_Reason : string;
  ev_Message : string;
  ev_FirstTimestamp : Time;
  ev_LastTimestamp : Time
}.

(** The typed clientset that [c.CoreV1()] selects, reduced to the call
    GetEvents makes on it: [Events(namespace).List(ctx, metav1.ListOptions{})]. *)
Record CoreV1Client (St : Type) : Type := mkCoreV1Client {
  events_List : string -> option Context -> St -> reply (list Event) * St
}.
Arguments events_List {St} _ _ _ _.

(** The test on the API version of the involved object. *)
Definition isFluxAPIVersion (apiVersion : string) : bool :=
  String.eqb apiVersion "source.toolkit.fluxcd.io/v1"
  || String.eqb apiVersion "source.toolkit.fluxcd.io/v1beta2"
  || String.eqb apiVersion "kustomize.toolkit.fluxcd.io/v1"
  || String.eqb apiVersion "helm.toolkit.fluxcd.io/v2beta1"
  || String.eqb apiVersion "helm.toolkit.fluxcd.io/v2".

(** The body of the loop of GetEvents, on the slice [fluxEvents]:
<<
  if event.FirstTimestamp.Time.Before(oneHourAgo) &&
     event.LastTimestamp.Time.Before(oneHourAgo) {
      continue
  }
  apiVersion := event.InvolvedObject.APIVersion
  if apiVersion == ... {
      fluxEvents = append(fluxEvents, event)
  }
>> *)
Definition filterStep (oneHourAgo : Time) (fluxEvents : list Event) (event : Event)
  : list Event :=
  if Time_Before (ev_FirstTimestamp event) oneHourAgo
     && Time_Before (ev_LastTimestamp event) oneHourAgo
  then fluxEvents
  else
    let apiVersion := ev_InvolvedObject_APIVersion event in
    if isFluxAPIVersion apiVersion then (fluxEvents ++ [event])%list else fluxEvents.

Section SyncEvents.

Variable St : Type.
Variable now : St -> Time * St.

(** The call on the clientset, which is not the client whose calls the
    world logs; a nil clientset panics at the call. *)
Definition Events_List (core : option (CoreV1Client St)) (namespace : string)
    (ctx : option Context) : M St (list Event + error) := fun w =>
  match core with
  | None => (Panicked nilDereference, w)
  | Some cs =>
      let '(r, s) := events_List cs namespace ctx (w_state St w) in
      let w' := mkWorld St s (w_calls St w) in
      match r with
      | Returns a => (Done (inl a), w')
      | Fails e => (Done (inr e), w')
      | Panics r => (Panicked r, w')
      end
  end.

(** [GetEvents] returns Kubernetes events related to FluxCD resources.
    The clientset of the [Client] is the argument [core]. *)
Definition GetEvents (core : option (CoreV1Client St)) (ctx : option Context)
    (namespace : string) : M St (list Event + error) :=
  n ← time_Now St now;
  let oneHourAgo := Time_Add n (-1 * Hour) in
  r ← Events_List core namespace ctx;
  match r with
  | inr err => mret (inr (Errorf_w "failed to list events: " err))
  | inl items => mret (inl (fold_left (filterStep oneHourAgo) items []))
  end.

End SyncEvents.

(** ** Key handling (package ui) *)

(** [tea.KeyType]: the key types that Update names, and [KeyOther] for
    every other one.  [tea.KeyMsg] is the struct [tea.Key]. *)
Variant KeyType : Type :=
| KeyRunes | KeyUp | KeyDown | KeyLeft | KeyRight | KeyPgUp | KeyPgDown
| KeyHome | KeyEnd | KeyEnter | KeySpace | KeyOther (code : Z).

Record KeyMsg : Type := mkKeyMsg {
  key_Type : KeyType;
  key_Runes : string;
  key_Alt : bool;
  key_Paste : bool
}.

(** A [tea.Msg]: a key message, or a value of any other type. *)
Variant Msg : Type :=
| MsgKey (k : KeyMsg)
| MsgOther.

(** The literal [tea.KeyMsg{Type: t}]. *)
Definition keyOfType (t : KeyType) : Msg := MsgKey (mkKeyMsg t "" false false).

Section KeyHandling.

(** The table widget and the names of the keys belong to the libraries;
    Update is embedded over what they provide: [table.Model.Update],
    [GotoTop], [GotoBottom] and [tea.KeyMsg.String].  A nil [tea.Cmd] is
    [None]. *)
Variable Cmd : Type.
Variable table_Update : Msg -> table_Model -> table_Model * option Cmd.
Variable table_GotoTop : table_Model -> table_Model.
Variable table_GotoBottom : table_Model -> table_Model.
Variable KeyMsg_String : KeyMsg -> string.

(** [v.table, cmd = v.table.Update(msg)]. *)
Definition forward (msg : Msg) (v : ResourceView) : ResourceView * option Cmd :=
  let '(t, cmd) := table_Update msg (table v) in (withTable t v, cmd).

(** [if len(v.resources) > 0 { v.table.GotoTop() }], and likewise for
    the bottom; [cmd] stays nil. *)
Definition gotoTop (v : ResourceView) : ResourceView * option Cmd :=
  if 0 <? Z.of_nat (length (resources v))
  then (withTable (table_GotoTop (table v)) v, None) else (v, None).

Definition gotoBottom (v : ResourceView) : ResourceView * option Cmd :=
  if 0 <? Z.of_nat (length (resources v))
  then (withTable (table_GotoBottom (table v)) v, None) else (v, None).

(** The case "M":
<<
  if len(v.resources) > 0 {
      middle := len(v.resources) / 2
      for i := 0; i < middle; i++ {
          v.table, _ = v.table.Update(tea.KeyMsg{Type: tea.KeyDown})
      }
  }
>> *)
Definition gotoMiddle (v : ResourceView) : ResourceView * option Cmd :=
  if 0 <? Z.of_nat (length (resources v)) then
    let middle := div64 (Z.of_nat (length (resources v))) 2 in
    (withTable (Nat.iter (Z.to_nat middle)
                         (fun t => fst (table_Update (keyOfType KeyDown) t))
                         (table v)) v, None)
  else (v, None).

(** [Update] handles messages for the resource view. *)
Definition Update (msg : Msg) (v : ResourceView) : ResourceView * option Cmd :=
  match msg with
  | MsgKey k =>
      match key_Type k with
      | KeyDown | KeyUp | KeyLeft | KeyRight | KeyPgDown | KeyPgUp => forward msg v
      | KeyHome => gotoTop v
      | KeyEnd => gotoBottom v
      | KeyEnter | KeySpace => (v, None)
      | _ =>
          let s := KeyMsg_String k in
          if String.eqb s "j" then forward (keyOfType KeyDown) v
          else if String.eqb s "k" then forward (keyOfType KeyUp) v
          else if String.eqb s "ctrl+d" then forward (keyOfType KeyPgDown) v
          else if String.eqb s "ctrl+u" then forward (keyOfType KeyPgUp) v
          else if String.eqb s "g" then gotoTop v
          else if String.eqb s "G" then gotoBottom v
          else if String.eqb s "H" then gotoTop v
          else if String.eqb s "M" then gotoMiddle v
          else if String.eqb s "L" then gotoBottom v
          else (v, None)
      end
  | MsgOther => (v, None)
  end.

End KeyHandling.

(** ** More notions used to state the properties *)

(** The condition of type "Ready" that the status loop reads last, if
    there is one. *)
Definition readyCondition (conditions : list metav1_Condition) : option metav1_Condition :=
  last (List.filter isReadyCondition conditions).

(** What ListGitRepositories makes of one GitRepository. *)
Definition ofGitRepository (repo : GitRepository) (r : Resource) : Prop :=
  Type_ r = ResourceTypeGitRepository /\
  Name r = om_Name (gr_ObjectMeta repo) /\
  Namespace r = om_Namespace (gr_ObjectMeta repo) /\
  Suspended r = gr_Spec_Suspend repo /\
  URL r = gr_Spec_URL repo /\
  Conditions r = map copyCondition (gr_Status_Conditions repo) /\
  Revision r = match gr_Status_Artifact repo with
               | Some a => art_Revision a
               | None => ""
               end /\
  Source r = "" /\ Path r = "" /\ Chart r = "" /\ Version r = "" /\
  (Ready r, Status r, Message r) =
    match readyCondition (gr_Status_Conditions repo) with
    | Some c => (String.eqb (mc_Status c) "True", mc_Reason c, mc_Message c)
    | None => (false, "", "")
    end.

(** What ListKustomizations makes of one Kustomization. *)
Definition ofKustomization (ks : Kustomization) (r : Resource) : Prop :=
  Type_ r = ResourceTypeKustomization /\
  Name r = om_Name (ks_ObjectMeta ks) /\
  Namespace r = om_Namespace (ks_ObjectMeta ks) /\
  Suspended r = ks_Spec_Suspend ks /\
  Path r = ks_Spec_Path ks /\
  Source r = (if String.eqb (ks_Spec_SourceRef_Kind ks) "GitRepository"
              then ks_Spec_SourceRef_Name ks else "") /\
  Conditions r = map copyCondition (ks_Status_Conditions ks) /\
  Revision r = ks_Status_LastAppliedRevision ks /\
  URL r = "" /\ Chart r = "" /\ Version r = "" /\
  (Ready r, Status r, Message r) =
    match readyCondition (ks_Status_Conditions ks) with
    | Some c => (String.eqb (mc_Status c) "True", mc_Reason c, mc_Message c)
    | None => (false, "", "")
    end.

(** What ListHelmReleases makes of one HelmRelease. *)
Definition ofHelmRelease (hr : HelmRelease) (r : Resource) : Prop :=
  Type_ r = ResourceTypeHelmRelease /\
  Name r = om_Name (hr_ObjectMeta hr) /\
  Namespace r = om_Namespace (hr_ObjectMeta hr) /\
  Suspended r = hr_Spec_Suspend hr /\
  (exists chart,
     hr_Spec_Chart hr = Some chart /\
     Chart r = hct_Spec_Chart chart /\
     Version r = hct_Spec_Version chart /\
     Source r = (if String.eqb (hct_Spec_SourceRef_Kind chart) "HelmRepository"
                 then hct_Spec_SourceRef_Name chart else "")) /\
  Conditions r = map copyCondition (hr_Status_Conditions hr) /\
  Revision r = hr_Status_LastAppliedRevision hr /\
  URL r = "" /\ Path r = "" /\
  (Ready r, Status r, Message r) =
    match readyCondition (hr_Status_Conditions hr) with
    | Some c => (String.eqb (mc_Status c) "True", mc_Reason c, mc_Message c)
    | None => (false, "", "")
    end.

(** What ListHelmRepositories makes of one HelmRepository, of either
    version. *)
Definition ofHelmRepository (repo : HelmRepository) (r : Resource) : Prop :=
  Type_ r = ResourceTypeHelmRepository /\
  Name r = om_Name (hrepo_ObjectMeta repo) /\
  Namespace r = om_Namespace (hrepo_ObjectMeta repo) /\
  Suspended r = hrepo_Spec_Suspend repo /\
  URL r = hrepo_Spec_URL repo /\
  Conditions r = map copyCondition (hrepo_Status_Conditions repo) /\
  Revision r = "" /\ Source r = "" /\ Path r = "" /\ Chart r = "" /\ Version r = "" /\
  (Ready r, Status r, Message r) =
    match last (hrepo_Status_Conditions repo) with
    | Some c => (String.eqb (mc_Status c) "True", mc_Status c, mc_Message c)
    | None => (false, "", "")
    end.

(** An event that GetEvents returns: about an object of a Flux API
    version, and seen first or last no earlier than [cutoff]. *)
Definition recentFluxEvent (cutoff : Time) (event : Event) : bool :=
  isFluxAPIVersion (ev_InvolvedObject_APIVersion event)
  && ((cutoff <=? ev_FirstTimestamp event) || (cutoff <=? ev_LastTimestamp event)).

(** The setters through which the program changes a view. *)
Variant ViewOp : Type :=
| OpSetResources (rs : list Resource)
| OpSetResourceType (rt : ResourceType)
| OpSetSize (w h : Z).

Definition applyOp (v : ResourceView) (op : ViewOp) : outcome ResourceView :=
  match op with
  | OpSetResources rs => SetResources rs v
  | OpSetResourceType rt => SetResourceType rt v
  | OpSetSize w h => SetSize w h v
  end.

(** The setters [ops], called one after the other on the view [v]. *)
Definition runOps (ops : list ViewOp) (v : ResourceView) : outcome ResourceView :=
  fold_left (fun o op => andThen o (fun v => applyOp v op)) ops (Done v).

(** One of the four resource types the view has a sixth column for. *)
Definition knownType (rt : ResourceType) : bool :=
  String.eqb rt "GitRepository" || String.eqb rt "HelmRepository"
  || String.eqb rt "Kustomization" || String.eqb rt "HelmRelease".

(** A setter that does not move the view to a type outside those four. *)
Definition knownOp (op : ViewOp) : bool :=
  match op with
  | OpSetResourceType rt => knownType rt
  | _ => true
  end.

(** The rows of the table are the rows of the resources of the view, in
    order, and every row has as many cells as the table has columns. *)
Definition rowsInStep (v : ResourceView) : Prop :=
  tbl_rows (table v) = map (createTableRow v) (resources v) /\
  Forall (fun row => length row = length (tbl_columns (table v))) (tbl_rows (table v)).

(** The columns that updateTableColumns hands to the table for a
    configuration, a resource type and a width: those it installs in a
    table that holds no row. *)
Definition columnsFor (cfg : Config) (rt : ResourceType) (w : Z) : list Column :=
  match updateTableColumns (mkResourceView cfg (mkTable [] [] 0 0) [] rt w 0) with
  | Done v => tbl_columns (table v)
  | Panicked _ => []
  end.

(** What a view displays: all of it but the cursor of the table. *)
Definition display (v : ResourceView)
  : Config * list Resource * ResourceType * Z * Z * list Column * list Row * Z :=
  (config v, resources v, resourceType v, width v, height v,
   tbl_columns (table v), tbl_rows (table v), tbl_height (table v)).

(** What is displayed once a setter has returned; nothing after a panic. *)
Definition displayed (o : outcome ResourceView)
  : option (Config * list Resource * ResourceType * Z * Z * list Column * list Row * Z) :=
  match o with
  | Done v => Some (display v)
  | Panicked _ => None
  end.

(** ** More of the in-memory cluster *)

Definition sampleKustomization : Kustomization :=
  {| ks_ObjectMeta := mkObjectMeta "apps" "flux-system" 1690000000000000000 "12" None;
     ks_Spec_Suspend := false;
     ks_Spec_Path := "./apps/production";
     ks_Spec_SourceRef_Kind := "GitRepository";
     ks_Spec_SourceRef_Name := "flux-system";
     ks_Status_Conditions :=
       [ cond "Ready" "True" "ReconciliationSucceeded" "Applied revision: main@sha1:abc" ];
     ks_Status_LastAppliedRevision := "main@sha1:abc" |}.

Definition sampleHelmRelease : HelmRelease :=
  {| hr_ObjectMeta := mkObjectMeta "podinfo" "apps" 1695000000000000000 "3" None;
     hr_Spec_Suspend := true;
     hr_Spec_Chart := Some (mkHelmChartTemplate "podinfo" "6.5.0" "HelmRepository" "podinfo");
     hr_Status_Conditions :=
       [ cond "Released" "True" "InstallSucceeded" "Helm install succeeded";
         cond "Ready" "False" "UpgradeFailed" "Helm upgrade failed: timed out" ];
     hr_Status_LastAppliedRevision := "6.4.0" |}.

(** The object as the API server keeps it after an update: the object
    written, under the resource version [rv] that the server gives it. *)
Definition stored (g : GVK) (rv : string) (obj : Object g) : Object g :=
  let meta := getObjectMeta g obj in
  setObjectMeta g
    (mkObjectMeta (om_Name meta) (om_Namespace meta) (om_CreationTimestamp meta)
                  rv (om_Annotations meta)) obj.

(** A client of the in-memory cluster whose server gives the object a
    new resource version at each update. *)
Definition nextVersion (rv : string) : string := rv +:+ ".1".

Definition versioning_Update (g : GVK) (ctx : option Context) (obj : Object g)
    (s : Fake) : reply unit * Fake :=
  match fake_served g s with
  | Returns items =>
      match List.find (hasKey g (keyOf g obj)) items with
      | Some old =>
          if String.eqb (om_ResourceVersion (getObjectMeta g old))
                        (om_ResourceVersion (getObjectMeta g obj))
          then (Returns tt,
                fake_serve g
                  (map (fun o => if hasKey g (keyOf g obj) o
                                 then stored g (nextVersion (om_ResourceVersion
                                                              (getObjectMeta g obj))) obj
                                 else o) items) s)
          else (Fails conflict, s)
      | None => (Fails (notFound (keyOf g obj)), s)
      end
  | Fails e => (Fails e, s)
  | Panics r => (Panics r, s)
  end.

Definition versioningClient : K8sClient Fake :=
  {| api_List := fake_List; api_Get := fake_Get; api_Update := versioning_Update |}.

(** A release made from a chart reference: it has no chart template. *)
Definition chartRefRelease : HelmRelease :=
  {| hr_ObjectMeta := mkObjectMeta "ingress" "apps" 1696000000000000000 "5" None;
     hr_Spec_Suspend := false;
     hr_Spec_Chart := None;
     hr_Status_Conditions :=
       [ cond "Ready" "True" "InstallSucceeded" "Helm install succeeded" ];
     hr_Status_LastAppliedRevision := "4.8.3" |}.

(** A cluster with every controller installed. *)
Definition servingCluster : Fake :=
  {| fake_clock := 1700000000000000000;
     fake_GitRepository := Returns [sampleGitRepository];
     fake_HelmRepository_v1beta2 := Returns [failingHelmRepository];
     fake_HelmRepository_v1 := Returns [failingHelmRepository];
     fake_Kustomization := Returns [sampleKustomization];
     fake_HelmRelease := Returns [sampleHelmRelease] |}.

(** The same cluster once a release made from a chart reference has been
    added to it. *)
Definition chartRefCluster : Fake :=
  {| fake_clock := 1700000000000000000;
     fake_GitRepository := Returns [sampleGitRepository];
     fake_HelmRepository_v1beta2 := Returns [failingHelmRepository];
     fake_HelmRepository_v1 := Returns [failingHelmRepository];
     fake_Kustomization := Returns [sampleKustomization];
     fake_HelmRelease := Returns [sampleHelmRelease; chartRefRelease] |}.

(** Four events: a recent one about a Kustomization, one about it that
    was last seen two hours before the clock of the cluster, a recent one
    about a Pod, and one about a GitRepository first seen a day before
    and last seen a minute before. *)
Definition eventAbout (name apiVersion kind : string) (first last : Time) : Event :=
  {| ev_ObjectMeta := mkObjectMeta name "flux-system" first "1" None;
     ev_InvolvedObject_APIVersion := apiVersion;
     ev_InvolvedObject_Kind := kind;
     ev_InvolvedObject_Name := "apps";
     ev_Reason := "ReconciliationSucceeded";
     ev_Message := "Reconciliation finished";
     ev_FirstTimestamp := first;
     ev_LastTimestamp := last |}.

Definition sampleEvents : list Event :=
  [ eventAbout "apps.1" "kustomize.toolkit.fluxcd.io/v1" "Kustomization"
      (1700000000000000000 - 10 * Minute) (1700000000000000000 - 10 * Minute);
    eventAbout "apps.2" "kustomize.toolkit.fluxcd.io/v1" "Kustomization"
      (1700000000000000000 - 3 * Hour) (1700000000000000000 - 2 * Hour);
    eventAbout "web.1" "v1" "Pod"
      (1700000000000000000 - Minute) (1700000000000000000 - Minute);
    eventAbout "fleet.1" "source.toolkit.fluxcd.io/v1" "GitRepository"
      (1700000000000000000 - 24 * Hour) (1700000000000000000 - Minute) ].

Definition sampleCoreV1 : CoreV1Client Fake :=
  {| events_List := fun _ _ s => (Returns sampleEvents, s) |}.

(** A table widget that moves its cursor by one row on Up and Down, and
    key names that are the runes of the key. *)
Definition sampleTableUpdate (msg : Msg) (t : table_Model) : table_Model * option unit :=
  match msg with
  | MsgKey k =>
      match key_Type k with
      | KeyDown => (mkTable (tbl_columns t) (tbl_rows t) (tbl_cursor t + 1) (tbl_height t), None)
      | KeyUp => (mkTable (tbl_columns t) (tbl_rows t) (tbl_cursor t - 1) (tbl_height t), None)
      | _ => (t, None)
      end
  | MsgOther => (t, None)
  end.

Definition sampleGoto (cursor : Z) (t : table_Model) : table_Model :=
  mkTable (tbl_columns t) (tbl_rows t) cursor (tbl_height t).

(** A view of one GitRepository. *)
Definition sampleResource : Resource :=
  {| Type_ := "GitRepository"; Name := "fleet"; Namespace := "flux-system";
     Ready := true; Status := "Succeeded"; Message := "stored artifact";
     Age := 26 * Hour; LastUpdate := 1700000000000000000; Conditions := [];
     Suspended := false; Source := ""; Path := ""; Revision := "main@sha1:abc";
     URL := "ssh://git@example.com/fleet"; Chart := ""; Version := "" |}.

(** A resource whose status has twelve characters, the first of them of
    two bytes. *)
Definition accentedResource : Resource :=
  {| Type_ := "Kustomization"; Name := "apps"; Namespace := "flux-system";
     Ready := false; Status := "äbcdefghijkl"; Message := "";
     Age := 26 * Hour; LastUpdate := 1700000000000000000; Conditions := [];
     Suspended := false; Source := "GitRepository/flux-system"; Path := "./apps";
     Revision := ""; URL := ""; Chart := ""; Version := "" |}.

Definition sampleView : ResourceView :=
  match SetResources [sampleResource] (NewResourceView (mkConfig 30 15 true)) with
  | Done v => v
  | Panicked _ => NewResourceView (mkConfig 30 15 true)
  end.


(* ===================================================================== *)
(** * Part II: lemmas and theorems                                        *)
(* ===================================================================== *)

(** ** Strings *)

Lemma append_nil (s : string) : "" +:+ s = s.
Proof. reflexivity. Qed.

Lemma append_cons (a : ascii) (s t : string) :
  String a s +:+ t = String a (s +:+ t).
Proof. reflexivity. Qed.

Lemma prefix_iff (p s : string) :
  String.prefix p s = true <-> exists post, s = p +:+ post.
Proof.
  revert s; induction p as [|a p IH]; intros s.
  - destruct s; simpl; split; eauto.
  - destruct s as [|b s]; cbn [String.prefix].
    + split; [discriminate | intros [post H]; discriminate].
    + destruct (Ascii.ascii_dec a b) as [->|Hab].
      * rewrite IH. split; intros [post H]; exists post;
          rewrite append_cons in *; congruence.
      * split; [discriminate | intros [post H]; rewrite append_cons in H; congruence].
Qed.

(** [Contains s sub] holds exactly when [sub] occurs in [s]. *)
Lemma Contains_iff (s sub : string) :
  Contains s sub = true <-> occursIn sub s.
Proof.
  unfold occursIn.
  induction s as [|a s IH]; cbn [Contains].
  - rewrite orb_false_r, prefix_iff. split.
    + intros [post H]. exists "", post. exact H.
    + intros [pre [post H]]. destruct pre; [eauto | discriminate].
  - rewrite orb_true_iff, IH, prefix_iff. split.
    + intros [[post H] | [pre [post H]]].
      * exists "", post. exact H.
      * exists (String a pre), post. rewrite append_cons. congruence.
    + intros [pre [post H]]. destruct pre as [|b pre].
      * left. eauto.
      * right. exists pre, post. rewrite append_cons in H. congruence.
Qed.

(** ** The error classifier *)

Lemma isCRDMissing_iff (err : error) :
  isCRDMissing err = true <->
  IsNotFound err = true \/
  exists phrase, In phrase kindNotInstalledPhrases /\ occursIn phrase (Error err).
Proof.
  unfold isCRDMissing, IgnoreNotFound, kindNotInstalledPhrases.
  destruct (IsNotFound err); cbn [orb].
  - split; auto.
  - destruct (String.eqb_spec (Error err) "") as [E|E]; cbn [negb andb].
    + rewrite E. split; [discriminate|].
      intros [H|[phrase [Hin Hocc]]]; [discriminate|].
      apply Contains_iff in Hocc.
      destruct Hin as [<-|[<-|[<-|[]]]]; discriminate.
    + rewrite !orb_true_iff, !Contains_iff. split.
      * intros [[H|H]|H]; right; eexists; (split; [|exact H]); simpl; auto.
      * intros [H|[phrase [Hin Hocc]]]; [discriminate|].
        destruct Hin as [<-|[<-|[<-|[]]]]; auto.
Qed.

(** ** Running the synchronization layer *)

Section SyncFacts.

Variable St : Type.
Variable now : St -> Time * St.

Lemma safeList_valid (k : K8sClient St) g ctx opts s calls :
  safeList St (Some (mkClient (Some k))) g ctx opts (mkWorld St s calls) =
  (Done (listResult (fst (api_List k g ctx opts s))),
   mkWorld St (snd (api_List k g ctx opts s)) (calls ++ [CallList g ctx opts])).
Proof.
  unfold safeList, recovering, Client_List, embedded, issue, mbind, M_bind, mret, M_ret.
  cbn. destruct (api_List k g ctx opts s) as [[a|e|r] s']; reflexivity.
Qed.

Lemma quiet_ret {A} (a : A) : quiet (mret a : M St A).
Proof. intros w. exists a, w. split; reflexivity. Qed.

Lemma quiet_bind {A B} (m : M St A) (f : A -> M St B) :
  quiet m -> (forall a, quiet (f a)) -> quiet (m ≫= f).
Proof.
  intros Hm Hf w. destruct (Hm w) as (a & w1 & E1 & C1).
  destruct (Hf a w1) as (b & w2 & E2 & C2).
  exists b, w2. unfold mbind, M_bind. rewrite E1, E2. split; congruence.
Qed.

Lemma quiet_time_Now : quiet (time_Now St now).
Proof.
  intros w. unfold time_Now. destruct (now (w_state St w)) as [t s].
  eexists _, _. split; reflexivity.
Qed.

Lemma quiet_newResource type meta suspend source path url chart version :
  quiet (newResource St now type meta suspend source path url chart version).
Proof.
  unfold newResource, time_Since.
  repeat (apply quiet_bind; [|intros ?]); try apply quiet_time_Now; apply quiet_ret.
Qed.

Lemma quiet_forEach {A} (f : A -> M St Resource) items :
  (forall a, quiet (f a)) -> quiet (forEach St f items).
Proof.
  intros Hf. induction items as [|a items IH]; cbn [forEach].
  - apply quiet_ret.
  - apply quiet_bind; [apply Hf|intros r].
    apply quiet_bind; [apply IH|intros rs]. apply quiet_ret.
Qed.

Lemma quiet_gitRepositoryResource repo : quiet (gitRepositoryResource St now repo).
Proof.
  unfold gitRepositoryResource.
  apply quiet_bind; [apply quiet_newResource|intros r; apply quiet_ret].
Qed.

Lemma quiet_helmRepositoryResource repo : quiet (helmRepositoryResource St now repo).
Proof.
  unfold helmRepositoryResource.
  apply quiet_bind; [apply quiet_newResource|intros r; apply quiet_ret].
Qed.

Lemma quiet_kustomizationResource ks : quiet (kustomizationResource St now ks).
Proof.
  unfold kustomizationResource.
  apply quiet_bind; [apply quiet_newResource|intros r; apply quiet_ret].
Qed.

Lemma calm_quiet {A} (m : M St A) : quiet m -> calm m.
Proof.
  intros Hm w. destruct (Hm w) as (a & w' & E & C).
  exists (Done a), w'. repeat split; eauto.
Qed.

Lemma calm_bind {A B} (m : M St A) (f : A -> M St B) :
  calm m -> (forall a, calm (f a)) -> calm (m ≫= f).
Proof.
  intros Hm Hf w. destruct (Hm w) as (out & w1 & E1 & C1 & [[a ->]| ->]).
  - destruct (Hf a w1) as (out2 & w2 & E2 & C2 & H2).
    exists out2, w2. unfold mbind, M_bind. rewrite E1, E2.
    split; [reflexivity|]. split; [congruence|exact H2].
  - exists (Panicked nilDereference), w1. unfold mbind, M_bind. rewrite E1.
    split; [reflexivity|]. split; [exact C1|now right].
Qed.

Lemma calm_deref {A} (p : option A) : calm (deref St p).
Proof.
  intros w. destruct p as [a|]; cbn.
  - exists (Done a), w. repeat split; eauto.
  - exists (Panicked nilDereference), w. repeat split; auto.
Qed.

Lemma calm_forEach {A} (f : A -> M St Resource) items :
  (forall a, calm (f a)) -> calm (forEach St f items).
Proof.
  intros Hf. induction items as [|a items IH]; cbn [forEach].
  - apply calm_quiet, quiet_ret.
  - apply calm_bind; [apply Hf|intros r].
    apply calm_bind; [apply IH|intros rs]. apply calm_quiet, quiet_ret.
Qed.

Lemma calm_helmReleaseResource hr : calm (helmReleaseResource St now hr).
Proof.
  unfold helmReleaseResource, time_Since.
  apply calm_bind; [|intros age].
  { apply calm_quiet.
    repeat (apply quiet_bind; [|intros ?]); try apply quiet_time_Now; apply quiet_ret. }
  apply calm_bind; [apply calm_quiet, quiet_time_Now|intros lastUpdate].
  apply calm_bind; [apply calm_deref|intros chart].
  apply calm_quiet, quiet_ret.
Qed.

End SyncFacts.

(** ** The fetchers: errors, fallback and the calls issued *)

Section FetcherFacts.

Variable St : Type.
Variable now : St -> Time * St.

Ltac run_forEach Hquiet :=
  let E := fresh "E" in
  let C := fresh "C" in
  match goal with
  | |- context [forEach St ?f ?l ?w] =>
      destruct (quiet_forEach St f l (Hquiet St now) w) as (? & ? & E & C);
      rewrite E; cbn [w_calls] in C
  end.

Ltac run_single_stage Hquiet :=
  cbv beta delta [ListGitRepositories ListKustomizations ListHelmReleases];
  cbv zeta; unfold mbind, M_bind;
  rewrite safeList_valid;
  match goal with
  | |- context [api_List ?k ?g ?ctx ?opts ?s] =>
      destruct (api_List k g ctx opts s) as [[?|?|?] ?]
  end;
  cbn [listResult fst snd];
  try run_forEach Hquiet;
  try match goal with |- context [isCRDMissing ?e] => destruct (isCRDMissing e) end;
  eexists _, _; (split; [reflexivity|]); split;
  first [assumption | reflexivity | eauto].

Lemma ListGitRepositories_valid (k : K8sClient St) ctx ns s calls :
  exists out w,
    ListGitRepositories St now (Some (mkClient (Some k))) ctx ns (mkWorld St s calls) = (out, w) /\
    w_calls St w = (calls ++ [CallList GitRepository_v1 ctx (listOptions ns)])%list /\
    match listResult (fst (api_List k GitRepository_v1 ctx (listOptions ns) s)) with
    | inr err =>
        out = Done (if isCRDMissing err then inl []
                    else inr (Errorf_w "failed to list GitRepositories: " err))
    | inl _ => exists rs, out = Done (inl rs)
    end.
Proof. run_single_stage quiet_gitRepositoryResource. Qed.

Lemma ListKustomizations_valid (k : K8sClient St) ctx ns s calls :
  exists out w,
    ListKustomizations St now (Some (mkClient (Some k))) ctx ns (mkWorld St s calls) = (out, w) /\
    w_calls St w = (calls ++ [CallList Kustomization_v1 ctx (listOptions ns)])%list /\
    match listResult (fst (api_List k Kustomization_v1 ctx (listOptions ns) s)) with
    | inr err =>
        out = Done (if isCRDMissing err then inl []
                    else inr (Errorf_w "failed to list Kustomizations: " err))
    | inl _ => exists rs, out = Done (inl rs)
    end.
Proof. run_single_stage quiet_kustomizationResource. Qed.

Lemma ListHelmReleases_valid (k : K8sClient St) ctx ns s calls :
  exists out w,
    ListHelmReleases St now (Some (mkClient (Some k))) ctx ns (mkWorld St s calls) = (out, w) /\
    w_calls St w = (calls ++ [CallList HelmRelease_v2beta1 ctx (listOptions ns)])%list /\
    match listResult (fst (api_List k HelmRelease_v2beta1 ctx (listOptions ns) s)) with
    | inr err =>
        out = Done (if isCRDMissing err then inl []
                    else inr (Errorf_w "failed to list HelmReleases: " err))
    | inl _ => (exists rs, out = Done (inl rs)) \/ out = Panicked nilDereference
    end.
Proof.
  unfold ListHelmReleases. cbv zeta. unfold mbind, M_bind.
  rewrite safeList_valid.
  destruct (api_List k HelmRelease_v2beta1 ctx (listOptions ns) s) as [[items|e|r] s'];
    cbn [listResult fst snd].
  - destruct (calm_forEach St (helmReleaseResource St now) items
                (calm_helmReleaseResource St now)
                (mkWorld St s' (calls ++ [CallList HelmRelease_v2beta1 ctx (listOptions ns)])))
      as (out & w' & E & C & [[rs ->]| ->]); rewrite E; cbn [w_calls] in C.
    + eexists _, _. split; [reflexivity|]. split; [exact C|]. left. eauto.
    + eexists _, _. split; [reflexivity|]. split; [exact C|]. now right.
  - destruct (isCRDMissing e); eexists _, _; (split; [reflexivity|]); split; reflexivity.
  - destruct (isCRDMissing _); eexists _, _; (split; [reflexivity|]); split; reflexivity.
Qed.

Lemma ListHelmRepositories_valid (k : K8sClient St) ctx0 ns s calls :
  let ctx := Some ctx0 in
  let opts := listOptions ns in
  let r1 := api_List k HelmRepository_v1beta2 ctx opts s in
  let r2 := api_List k HelmRepository_v1 ctx opts (snd r1) in
  exists out w,
    ListHelmRepositories St now (Some (mkClient (Some k))) ctx ns (mkWorld St s calls) = (out, w) /\
    match listResult (fst r1) with
    | inl _ =>
        w_calls St w = (calls ++ [CallList HelmRepository_v1beta2 ctx opts])%list /\
        exists rs, out = Done (inl rs)
    | inr e1 =>
        if isCRDMissing e1 then
          w_calls St w = (calls ++ [CallList HelmRepository_v1beta2 ctx opts;
                                    CallList HelmRepository_v1 ctx opts])%list /\
          match listResult (fst r2) with
          | inl _ => exists rs, out = Done (inl rs)
          | inr e2 =>
              out = Done (if isCRDMissing e2 then inl []
                          else inr (FmtWrap
                            ("failed to list HelmRepositories (tried v1beta2 and v1): v1beta2="
                             +:+ Error e1 +:+ ", v1=" +:+ Error e2) e1))
          end
        else
          w_calls St w = (calls ++ [CallList HelmRepository_v1beta2 ctx opts])%list /\
          out = Done (inr (Errorf_w "failed to list HelmRepositories (v1beta2): " e1))
    end.
Proof.
  cbv zeta. unfold ListHelmRepositories. cbn [Client_Client].
  unfold mbind, M_bind. rewrite safeList_valid.
  destruct (api_List k HelmRepository_v1beta2 (Some ctx0) (listOptions ns) s)
    as [[items|e1|r1] s1]; cbn [listResult fst snd].
  - run_forEach quiet_helmRepositoryResource.
    eexists _, _. split; [reflexivity|]. split; [assumption|eauto].
  - destruct (isCRDMissing e1).
    + rewrite safeList_valid, <- app_assoc. cbn [app].
      destruct (api_List k HelmRepository_v1 (Some ctx0) (listOptions ns) s1)
        as [[items|e2|r2] s2]; cbn [listResult fst snd].
      * run_forEach quiet_helmRepositoryResource.
        eexists _, _. split; [reflexivity|]. split; [assumption|eauto].
      * destruct (isCRDMissing e2); eexists _, _; split; reflexivity || (split; reflexivity).
      * destruct (isCRDMissing _); eexists _, _; split; reflexivity || (split; reflexivity).
    + eexists _, _. split; [reflexivity|]. split; reflexivity.
  - destruct (isCRDMissing _).
    + rewrite safeList_valid, <- app_assoc. cbn [app].
      destruct (api_List k HelmRepository_v1 (Some ctx0) (listOptions ns) s1)
        as [[items|e2|r2] s2]; cbn [listResult fst snd].
      * run_forEach quiet_helmRepositoryResource.
        eexists _, _. split; [reflexivity|]. split; [assumption|eauto].
      * destruct (isCRDMissing e2); eexists _, _; split; reflexivity || (split; reflexivity).
      * destruct (isCRDMissing _); eexists _, _; split; reflexivity || (split; reflexivity).
    + eexists _, _. split; [reflexivity|]. split; reflexivity.
Qed.

(** C2. Of the four fetchers only ListHelmRepositories answers a list
    call classified as "kind not installed" with a second call, on the
    fallback version v1, and it does so once: the calls it issues are
    the v1beta2 list alone, or the v1beta2 list followed by the v1 list.
    When the fallback is classified the same way the result is the
    empty sequence and no error.  A failure that is not classified so
    comes back wrapped with the kind (and version) in its text, after
    one call (first stage) or two (fallback stage).  The other three
    fetchers issue exactly one list call whatever its result. *)
Theorem fallback_only_for_HelmRepository (k : K8sClient St) ctx0 ns s calls :
  let c := Some (mkClient (Some k)) in
  let ctx := Some ctx0 in
  let opts := listOptions ns in
  let w0 := mkWorld St s calls in
  let r1 := api_List k HelmRepository_v1beta2 ctx opts s in
  let r2 := api_List k HelmRepository_v1 ctx opts (snd r1) in
  (exists out w,
     ListHelmRepositories St now c ctx ns w0 = (out, w) /\
     match listResult (fst r1) with
     | inl _ =>
         w_calls St w = (calls ++ [CallList HelmRepository_v1beta2 ctx opts])%list /\
         exists rs, out = Done (inl rs)
     | inr e1 =>
         if isCRDMissing e1 then
           w_calls St w = (calls ++ [CallList HelmRepository_v1beta2 ctx opts;
                                     CallList HelmRepository_v1 ctx opts])%list /\
           match listResult (fst r2) with
           | inl _ => exists rs, out = Done (inl rs)
           | inr e2 =>
               if isCRDMissing e2 then out = Done (inl [])
               else exists err,
                 out = Done (inr err) /\ Unwrap err = Some e1 /\
                 Error err =
                   "failed to list HelmRepositories (tried v1beta2 and v1): v1beta2="
                   +:+ Error e1 +:+ ", v1=" +:+ Error e2
           end
         else
           w_calls St w = (calls ++ [CallList HelmRepository_v1beta2 ctx opts])%list /\
           exists err,
             out = Done (inr err) /\ Unwrap err = Some e1 /\
             Error err = "failed to list HelmRepositories (v1beta2): " +:+ Error e1
     end) /\
  (exists out w,
     ListGitRepositories St now c ctx ns w0 = (out, w) /\
     w_calls St w = (calls ++ [CallList GitRepository_v1 ctx opts])%list) /\
  (exists out w,
     ListKustomizations St now c ctx ns w0 = (out, w) /\
     w_calls St w = (calls ++ [CallList Kustomization_v1 ctx opts])%list) /\
  (exists out w,
     ListHelmReleases St now c ctx ns w0 = (out, w) /\
     w_calls St w = (calls ++ [CallList HelmRelease_v2beta1 ctx opts])%list).
Proof.
  cbv zeta. repeat split.
  - destruct (ListHelmRepositories_valid k ctx0 ns s calls) as (out & w & E & H).
    exists out, w. split; [exact E|]. cbv zeta in H.
    destruct (listResult _.1) as [items|e1]; [exact H|].
    destruct (isCRDMissing e1).
    + destruct H as [C H]. split; [exact C|].
      destruct (listResult _.1) as [items|e2]; [exact H|].
      destruct (isCRDMissing e2); [exact H|].
      eexists. split; [exact H|]. split; reflexivity.
    + destruct H as [C H]. split; [exact C|].
      eexists. split; [exact H|]. split; reflexivity.
  - destruct (ListGitRepositories_valid k (Some ctx0) ns s calls) as (out & w & E & C & _).
    eauto.
  - destruct (ListKustomizations_valid k (Some ctx0) ns s calls) as (out & w & E & C & _).
    eauto.
  - destruct (ListHelmReleases_valid k (Some ctx0) ns s calls) as (out & w & E & C & _).
    eauto.
Qed.

(** C3. An error of a list call is classified as "kind not installed"
    exactly when the not-found predicate holds of it or its text
    contains one of the three fixed phrases.  At the deciding stage of
    a fetcher (the only list call of ListGitRepositories,
    ListKustomizations and ListHelmReleases, the fallback call of
    ListHelmRepositories) a classified error is recovered as the empty
    sequence; an error that is not classified comes back wrapping the
    error of the call, with the operation in its text. *)
Theorem kind_not_installed_classification (k : K8sClient St) ctx0 ns s calls :
  let c := Some (mkClient (Some k)) in
  let ctx := Some ctx0 in
  let opts := listOptions ns in
  let w0 := mkWorld St s calls in
  (forall err,
     isCRDMissing err = true <->
     IsNotFound err = true \/
     exists phrase, In phrase kindNotInstalledPhrases /\ occursIn phrase (Error err)) /\
  (forall e, listResult (fst (api_List k GitRepository_v1 ctx opts s)) = inr e ->
     fst (ListGitRepositories St now c ctx ns w0) =
     Done (if isCRDMissing e then inl []
           else inr (FmtWrap ("failed to list GitRepositories: " +:+ Error e) e))) /\
  (forall e, listResult (fst (api_List k Kustomization_v1 ctx opts s)) = inr e ->
     fst (ListKustomizations St now c ctx ns w0) =
     Done (if isCRDMissing e then inl []
           else inr (FmtWrap ("failed to list Kustomizations: " +:+ Error e) e))) /\
  (forall e, listResult (fst (api_List k HelmRelease_v2beta1 ctx opts s)) = inr e ->
     fst (ListHelmReleases St now c ctx ns w0) =
     Done (if isCRDMissing e then inl []
           else inr (FmtWrap ("failed to list HelmReleases: " +:+ Error e) e))) /\
  (forall e1, listResult (fst (api_List k HelmRepository_v1beta2 ctx opts s)) = inr e1 ->
     if isCRDMissing e1 then
       forall e2,
         listResult (fst (api_List k HelmRepository_v1 ctx opts
                            (snd (api_List k HelmRepository_v1beta2 ctx opts s)))) = inr e2 ->
         fst (ListHelmRepositories St now c ctx ns w0) =
         Done (if isCRDMissing e2 then inl []
               else inr (FmtWrap
                 ("failed to list HelmRepositories (tried v1beta2 and v1): v1beta2="
                  +:+ Error e1 +:+ ", v1=" +:+ Error e2) e1))
     else
       fst (ListHelmRepositories St now c ctx ns w0) =
       Done (inr (FmtWrap ("failed to list HelmRepositories (v1beta2): " +:+ Error e1) e1))).
Proof.
  cbv zeta. split; [exact isCRDMissing_iff|]. repeat split.
  - intros e He.
    destruct (ListGitRepositories_valid k (Some ctx0) ns s calls) as (out & w & E & _ & H).
    rewrite E, He in *. exact H.
  - intros e He.
    destruct (ListKustomizations_valid k (Some ctx0) ns s calls) as (out & w & E & _ & H).
    rewrite E, He in *. exact H.
  - intros e He.
    destruct (ListHelmReleases_valid k (Some ctx0) ns s calls) as (out & w & E & _ & H).
    rewrite E, He in *. exact H.
  - intros e1 He1.
    destruct (ListHelmRepositories_valid k ctx0 ns s calls) as (out & w & E & H).
    cbv zeta in H. rewrite E, He1 in *. cbn [fst].
    destruct (isCRDMissing e1).
    + intros e2 He2. rewrite He2 in H. apply H.
    + apply H.
Qed.

End FetcherFacts.

(** ** The mutation operations *)

Lemma append_assoc_string (a b c : string) : (a +:+ b) +:+ c = a +:+ (b +:+ c).
Proof.
  induction a as [|x a IH]; [reflexivity|].
  rewrite !append_cons, IH. reflexivity.
Qed.

Lemma Errorf_w_text (a rt name : string) (e : error) :
  Unwrap (Errorf_w (a +:+ rt +:+ "/" +:+ name +:+ ": ") e) = Some e /\
  Error (Errorf_w (a +:+ rt +:+ "/" +:+ name +:+ ": ") e) =
    a +:+ rt +:+ "/" +:+ name +:+ ": " +:+ Error e.
Proof.
  split; [reflexivity|]. unfold Errorf_w. cbn [Error].
  rewrite !append_assoc_string. reflexivity.
Qed.

(** *** The RFC 3339 form computed by the formatter is the one of the
    calendar *)

(** The days that begin before the clock of an int64 of nanoseconds
    runs out, in the year 2262. *)
Lemma dates_ok_int64 : dates_ok 0 (Z.to_nat 106752) = true.
Proof. vm_compute. reflexivity. Qed.

Lemma dates_ok_at count : forall start k,
  dates_ok start count = true -> start <= k < start + Z.of_nat count -> date_ok k = true.
Proof.
  induction count as [|count IH]; intros start k H Hk; [lia|].
  cbn [dates_ok] in H. apply andb_true_iff in H as [H0 H1].
  destruct (Z.eq_dec k start) as [->|Hne]; [exact H0|].
  apply (IH (start + 1)); [exact H1|lia].
Qed.

Lemma date_ok_at (n : nat) : Z.of_nat n <= 106751 -> date_ok (Z.of_nat n) = true.
Proof.
  intros Hn. apply (dates_ok_at (Z.to_nat 106752) 0); [exact dates_ok_int64|lia].
Qed.

Lemma civil_from_days_calendar (n : nat) :
  Z.of_nat n <= 106751 -> civil_from_days (Z.of_nat n) = dateOfDay n.
Proof.
  induction n as [|n IH]; intros Hn; [reflexivity|].
  pose proof (date_ok_at n ltac:(lia)) as Hok. unfold date_ok in Hok.
  change (dateOfDay (S n)) with (nextDate (dateOfDay n)).
  rewrite <- IH by lia.
  replace (Z.of_nat (S n)) with (Z.of_nat n + 1) by lia.
  destruct (civil_from_days (Z.of_nat n)) as [[y m] d].
  destruct (civil_from_days (Z.of_nat n + 1)) as [[y' m'] d'].
  destruct (nextDate (y, m, d)) as [[y'' m''] d''].
  rewrite !andb_true_iff, !Z.eqb_eq in Hok.
  destruct Hok as [[[_ ->] ->] ->]. reflexivity.
Qed.

Lemma civil_from_days_range (n : nat) y m d :
  Z.of_nat n <= 106751 -> civil_from_days (Z.of_nat n) = (y, m, d) ->
  1970 <= y <= 2262 /\ 1 <= m <= 12 /\ 1 <= d <= 31.
Proof.
  intros Hn E. pose proof (date_ok_at n Hn) as Hok. unfold date_ok in Hok.
  rewrite E in Hok.
  destruct (civil_from_days (Z.of_nat n + 1)) as [[y' m'] d'].
  destruct (nextDate (y, m, d)) as [[y'' m''] d''].
  rewrite !andb_true_iff, !Z.leb_le in Hok. lia.
Qed.

Lemma appendInt_twoDigits (n : Z) : 0 <= n <= 99 -> appendInt n 2 = twoDigits n.
Proof.
  intros Hn.
  assert (H : forallb (fun n => String.eqb (appendInt n 2) (twoDigits n))
                (map Z.of_nat (seq 0 100)) = true) by (vm_compute; reflexivity).
  rewrite forallb_forall in H. apply String.eqb_eq, H.
  replace n with (Z.of_nat (Z.to_nat n)) by lia. apply in_map, in_seq. lia.
Qed.

Lemma appendInt_fourDigits (n : Z) : 1970 <= n <= 2262 -> appendInt n 4 = fourDigits n.
Proof.
  intros Hn.
  assert (H : forallb (fun n => String.eqb (appendInt n 4) (fourDigits n))
                (map Z.of_nat (seq 1970 293)) = true) by (vm_compute; reflexivity).
  rewrite forallb_forall in H. apply String.eqb_eq, H.
  replace n with (Z.of_nat (Z.to_nat n)) by lia. apply in_map, in_seq. lia.
Qed.

Lemma Format_RFC3339_UTC_calendar (t : Time) :
  0 <= t <= 9223372036854775807 -> Format_RFC3339_UTC t = rfc3339_utc t.
Proof.
  intros Ht. unfold Format_RFC3339_UTC, rfc3339_utc, Second.
  set (secs := t / 1000000000).
  assert (Hsecs : 0 <= secs / 86400 <= 106751).
  { subst secs. clear -Ht. Z.div_mod_to_equations. lia. }
  set (n := Z.to_nat (secs / 86400)).
  assert (Hn : Z.of_nat n <= 106751) by (subst n; lia).
  replace (secs / 86400) with (Z.of_nat n) at 1 by (subst n; lia).
  pose proof (civil_from_days_range n) as Hrange.
  rewrite (civil_from_days_calendar n Hn) in *.
  destruct (dateOfDay n) as [[y m] d].
  destruct (Hrange y m d Hn eq_refl) as (Hy & Hm & Hd).
  assert (Hday : 0 <= secs mod 86400 < 86400) by (apply Z.mod_pos_bound; lia).
  set (inDay := secs mod 86400) in *.
  rewrite (appendInt_fourDigits y Hy), (appendInt_twoDigits m), (appendInt_twoDigits d) by lia.
  rewrite (appendInt_twoDigits (inDay / 3600)),
          (appendInt_twoDigits (inDay mod 3600 / 60)),
          (appendInt_twoDigits (inDay mod 60)).
  - replace (inDay mod 3600 / 60) with (inDay / 60 mod 60); [reflexivity|].
    clear -Hday. Z.div_mod_to_equations. lia.
  - clear -Hday. Z.div_mod_to_equations. lia.
  - clear -Hday. Z.div_mod_to_equations. lia.
  - clear -Hday. Z.div_mod_to_equations. lia.
Qed.

Section MutationFacts.

Variable St : Type.
Variable now : St -> Time * St.

Lemma Client_Get_valid (k : K8sClient St) g ctx key s calls :
  Client_Get St (Some (mkClient (Some k))) g ctx key (mkWorld St s calls) =
  (match fst (api_Get k g ctx key s) with
   | Returns obj => Done (inl obj)
   | Fails e => Done (inr e)
   | Panics r => Panicked r
   end,
   mkWorld St (snd (api_Get k g ctx key s)) (calls ++ [CallGet g ctx key])).
Proof.
  unfold Client_Get, embedded, issue, mbind, M_bind, mret, M_ret. cbn.
  destruct (api_Get k g ctx key s) as [[obj|e|r] s1]; reflexivity.
Qed.

Lemma Client_Update_valid (k : K8sClient St) g ctx obj s calls :
  Client_Update St (Some (mkClient (Some k))) g ctx obj (mkWorld St s calls) =
  (match fst (api_Update k g ctx obj s) with
   | Returns u => Done (inl u)
   | Fails e => Done (inr e)
   | Panics r => Panicked r
   end,
   mkWorld St (snd (api_Update k g ctx obj s)) (calls ++ [CallUpdate g ctx obj])).
Proof.
  unfold Client_Update, embedded, issue, mbind, M_bind, mret, M_ret. cbn.
  destruct (api_Update k g ctx obj s) as [[u|e|r] s1]; reflexivity.
Qed.

Lemma objectFor_supported rt g :
  objectFor rt = Some g ->
  (rt = ResourceTypeGitRepository /\ g = GitRepository_v1) \/
  (rt = ResourceTypeHelmRepository /\ g = HelmRepository_v1beta2) \/
  (rt = ResourceTypeKustomization /\ g = Kustomization_v1) \/
  (rt = ResourceTypeHelmRelease /\ g = HelmRelease_v2beta1).
Proof.
  unfold objectFor.
  repeat match goal with
         | |- context [String.eqb ?a ?b] => destruct (String.eqb_spec a b)
         end; intros H; inversion H; subst; auto 6.
Qed.

(** The first switch has a case for each of the four kinds. *)
Lemma objectFor_of_kind rt g :
  (rt = "GitRepository" /\ g = GitRepository_v1) \/
  (rt = "HelmRepository" /\ g = HelmRepository_v1beta2) \/
  (rt = "Kustomization" /\ g = Kustomization_v1) \/
  (rt = "HelmRelease" /\ g = HelmRelease_v2beta1) ->
  objectFor rt = Some g.
Proof. intros [[-> ->]|[[-> ->]|[[-> ->]|[-> ->]]]]; reflexivity. Qed.

(** Writing the suspend flag touches no other field: putting the old
    flag back gives the fetched object again. *)
Lemma setSuspend_frame g b (obj : Object g) :
  getSuspend g (setSuspend g b obj) = b /\
  setSuspend g (getSuspend g obj) (setSuspend g b obj) = obj /\
  getObjectMeta g (setSuspend g b obj) = getObjectMeta g obj.
Proof. destruct g; destruct obj; repeat split. Qed.

Lemma SetAnnotations_frame g a (obj : Object g) :
  GetAnnotations g (SetAnnotations g a obj) = a /\
  SetAnnotations g (GetAnnotations g obj) (SetAnnotations g a obj) = obj /\
  getSuspend g (SetAnnotations g a obj) = getSuspend g obj.
Proof.
  destruct g; destruct obj as [[] ?]; repeat split.
Qed.

(** Field by field: the object written by the second switch of
    updateSuspendStatus, and the one written by SetAnnotations. *)
Lemma setSuspend_fields g b (obj : Object g) :
  sameButSuspend g b obj (setSuspend g b obj).
Proof. destruct g; destruct obj; repeat split. Qed.

Lemma SetAnnotations_fields g a (obj : Object g) :
  sameButAnnotations g obj (SetAnnotations g a obj) /\
  annotationsOf g (SetAnnotations g a obj) = a /\
  annotationsOf g obj = GetAnnotations g obj.
Proof. destruct g; destruct obj as [[] ?]; repeat split. Qed.

(** C4. For each of the four kinds (GitRepository, HelmRepository,
    Kustomization, HelmRelease), suspend/resume issues one get and, when
    the get succeeds, one update of an object that has the requested
    suspend flag and, field by field, everything else as in the fetched
    object.  A failed get gives an error that wraps the error of the get,
    with "failed to get", the type and the name in its text, and no
    update; a failed update gives the same with "failed to update"; no
    call is repeated. *)
Theorem updateSuspendStatus_get_then_update (k : K8sClient St) ctx rt g name ns
    suspend s calls :
  (rt = "GitRepository" /\ g = GitRepository_v1) \/
  (rt = "HelmRepository" /\ g = HelmRepository_v1beta2) \/
  (rt = "Kustomization" /\ g = Kustomization_v1) \/
  (rt = "HelmRelease" /\ g = HelmRelease_v2beta1) ->
  let key := {| key_Namespace := ns; key_Name := name |} in
  exists out w,
    updateSuspendStatus St (Some (mkClient (Some k))) ctx rt name ns suspend
      (mkWorld St s calls) = (out, w) /\
    match api_Get k g ctx key s with
    | (Fails e, s1) =>
        (exists err,
           out = Done (Some err) /\ Unwrap err = Some e /\
           Error err = "failed to get " +:+ rt +:+ "/" +:+ name +:+ ": " +:+ Error e) /\
        w = mkWorld St s1 (calls ++ [CallGet g ctx key])
    | (Panics r, s1) =>
        out = Panicked r /\ w = mkWorld St s1 (calls ++ [CallGet g ctx key])
    | (Returns obj, s1) =>
        exists obj',
          sameButSuspend g suspend obj obj' /\
          w_calls St w = (calls ++ [CallGet g ctx key; CallUpdate g ctx obj'])%list /\
          match api_Update k g ctx obj' s1 with
          | (Returns _, s2) => out = Done None /\ w_state St w = s2
          | (Fails e, s2) =>
              (exists err,
                 out = Done (Some err) /\ Unwrap err = Some e /\
                 Error err =
                   "failed to update " +:+ rt +:+ "/" +:+ name +:+ ": " +:+ Error e) /\
              w_state St w = s2
          | (Panics r, s2) => out = Panicked r /\ w_state St w = s2
          end
    end.
Proof.
  intros Hkind key. pose proof (objectFor_of_kind rt g Hkind) as Hg.
  unfold updateSuspendStatus. rewrite Hg.
  unfold mbind, M_bind. rewrite Client_Get_valid. fold key.
  destruct (api_Get k g ctx key s) as [[obj|e|r] s1]; cbn [fst snd].
  - rewrite Client_Update_valid, <- app_assoc.
    destruct (api_Update k g ctx (setSuspend g suspend obj) s1) as [[[]|e|r] s2] eqn:Eu;
      cbn [fst snd]; eexists _, _; (split; [reflexivity|]);
      exists (setSuspend g suspend obj); (split; [apply setSuspend_fields|]);
      (split; [reflexivity|]); rewrite Eu; (split; [|reflexivity]).
    + reflexivity.
    + eexists. split; [reflexivity|]. apply Errorf_w_text.
    + reflexivity.
  - eexists _, _. split; [reflexivity|]. split; [|reflexivity].
    eexists. split; [reflexivity|]. apply Errorf_w_text.
  - eexists _, _. repeat split.
Qed.

(** C5. For each of the four kinds, ReconcileResource issues one get
    and, when it succeeds, reads the clock and issues one update of an
    object whose annotations hold, at the key
    "reconcile.fluxcd.io/requestedAt", the time read, every other
    annotation as it was, and whose other fields are, one by one, those
    of the fetched object.  The time is written in UTC and in RFC 3339
    form: for a clock reading between 1970 and the end of the range of
    an int64 of nanoseconds it is year-month-day, T,
    hour:minute:second and Z, with the date that the calendar gives.
    Get and update failures come back as in suspend/resume; no call is
    repeated. *)
Theorem ReconcileResource_sets_requestedAt (k : K8sClient St) ctx rt g name ns
    s calls :
  (rt = "GitRepository" /\ g = GitRepository_v1) \/
  (rt = "HelmRepository" /\ g = HelmRepository_v1beta2) \/
  (rt = "Kustomization" /\ g = Kustomization_v1) \/
  (rt = "HelmRelease" /\ g = HelmRelease_v2beta1) ->
  let key := {| key_Namespace := ns; key_Name := name |} in
  exists out w,
    ReconcileResource St now (Some (mkClient (Some k))) ctx rt name ns
      (mkWorld St s calls) = (out, w) /\
    match api_Get k g ctx key s with
    | (Fails e, s1) =>
        (exists err,
           out = Done (Some err) /\ Unwrap err = Some e /\
           Error err = "failed to get " +:+ rt +:+ "/" +:+ name +:+ ": " +:+ Error e) /\
        w = mkWorld St s1 (calls ++ [CallGet g ctx key])
    | (Panics r, s1) =>
        out = Panicked r /\ w = mkWorld St s1 (calls ++ [CallGet g ctx key])
    | (Returns obj, s1) =>
        let t := fst (now s1) in
        exists obj' new,
          sameButAnnotations g obj obj' /\
          annotationsOf g obj' = Some new /\
          new !! "reconcile.fluxcd.io/requestedAt" = Some (Format_RFC3339_UTC t) /\
          (0 <= t <= 9223372036854775807 -> Format_RFC3339_UTC t = rfc3339_utc t) /\
          (forall other, other <> "reconcile.fluxcd.io/requestedAt" ->
             new !! other = default ∅ (annotationsOf g obj) !! other) /\
          w_calls St w = (calls ++ [CallGet g ctx key; CallUpdate g ctx obj'])%list /\
          match api_Update k g ctx obj' (snd (now s1)) with
          | (Returns _, s2) => out = Done None /\ w_state St w = s2
          | (Fails e, s2) =>
              (exists err,
                 out = Done (Some err) /\ Unwrap err = Some e /\
                 Error err =
                   "failed to update " +:+ rt +:+ "/" +:+ name +:+ ": " +:+ Error e) /\
              w_state St w = s2
          | (Panics r, s2) => out = Panicked r /\ w_state St w = s2
          end
    end.
Proof.
  intros Hkind key. pose proof (objectFor_of_kind rt g Hkind) as Hg.
  unfold ReconcileResource. rewrite Hg.
  unfold mbind at 1, M_bind at 1. rewrite Client_Get_valid. fold key.
  destruct (api_Get k g ctx key s) as [[obj|e|r] s1]; cbn [fst snd].
  - unfold mbind at 1, M_bind at 1, time_Now at 1. cbn [w_state w_calls].
    destruct (now s1) as [t s1'] eqn:Enow. cbn [fst snd].
    unfold mbind, M_bind. rewrite Client_Update_valid, <- app_assoc.
    change (match GetAnnotations g obj with
            | Some annotations => annotations
            | None => ∅
            end) with (default ∅ (GetAnnotations g obj)).
    set (old := default ∅ (GetAnnotations g obj)).
    set (new := <[reconcileAnnotation := Format_RFC3339_UTC t]> old).
    destruct (SetAnnotations_fields g (Some new) obj) as (F1 & F2 & F3).
    assert (L1 : new !! "reconcile.fluxcd.io/requestedAt" = Some (Format_RFC3339_UTC t))
      by apply lookup_insert_eq.
    assert (L2 : forall other, other <> "reconcile.fluxcd.io/requestedAt" ->
                 new !! other = default ∅ (annotationsOf g obj) !! other).
    { intros other Hne. rewrite F3. apply lookup_insert_ne.
      unfold reconcileAnnotation. congruence. }
    destruct (api_Update k g ctx (SetAnnotations g (Some new) obj) s1') as [[[]|e|r] s2] eqn:Eu;
      cbn [fst snd]; eexists _, _; (split; [reflexivity|]);
      exists (SetAnnotations g (Some new) obj), new;
      (split; [exact F1|]); (split; [exact F2|]); (split; [exact L1|]);
      (split; [apply Format_RFC3339_UTC_calendar|]); (split; [exact L2|]);
      (split; [reflexivity|]); rewrite Eu; (split; [|reflexivity]).
    + reflexivity.
    + eexists. split; [reflexivity|]. apply Errorf_w_text.
    + reflexivity.
  - eexists _, _. split; [reflexivity|]. split; [|reflexivity].
    eexists. split; [reflexivity|]. apply Errorf_w_text.
  - eexists _, _. repeat split.
Qed.

(** The guards of ListHelmRepositories, the only function of the layer
    that has them. *)
Lemma ListHelmRepositories_guards ctx ns w :
  ListHelmRepositories St now None ctx ns w =
    (Done (inr (Errorf "kubernetes client is nil")), w) /\
  ListHelmRepositories St now (Some (mkClient None)) ctx ns w =
    (Done (inr (Errorf "embedded kubernetes client is nil")), w) /\
  (forall k, ListHelmRepositories St now (Some (mkClient (Some k))) None ns w =
    (Done (inr (Errorf "context is nil")), w)).
Proof. repeat split. Qed.

(** Without a client a mutation panics at its get: there is no guard and
    no recovery. *)
Lemma mutation_nil_client ctx rt g name ns suspend w :
  objectFor rt = Some g ->
  updateSuspendStatus St None ctx rt name ns suspend w = (Panicked nilDereference, w) /\
  ReconcileResource St now None ctx rt name ns w = (Panicked nilDereference, w).
Proof.
  intros Hg. unfold updateSuspendStatus, ReconcileResource. rewrite Hg. split; reflexivity.
Qed.

End MutationFacts.

(** ** The layer on the in-memory cluster *)

Lemma updateSuspendStatus_get_then_update_witness :
  let ctx := Some Background in
  let w0 := startWorld servingCluster in
  (exists w obj',
     updateSuspendStatus Fake sampleClient ctx "GitRepository" "flux-system" "flux-system"
       true w0 = (Done None, w) /\
     w_calls Fake w =
       [ CallGet GitRepository_v1 ctx (mkNamespacedName "flux-system" "flux-system");
         CallUpdate GitRepository_v1 ctx obj' ] /\
     gr_Spec_Suspend obj' = true /\ gr_Spec_URL obj' = "ssh://git@example.com/fleet") /\
  (exists w obj',
     updateSuspendStatus Fake sampleClient ctx "HelmRepository" "podinfo" "flux-system"
       true w0 = (Done None, w) /\
     w_calls Fake w =
       [ CallGet HelmRepository_v1beta2 ctx (mkNamespacedName "flux-system" "podinfo");
         CallUpdate HelmRepository_v1beta2 ctx obj' ] /\
     hrepo_Spec_Suspend obj' = true /\
     hrepo_Spec_URL obj' = "https://stefanprodan.github.io/podinfo") /\
  (exists w obj',
     updateSuspendStatus Fake sampleClient ctx "Kustomization" "apps" "flux-system"
       true w0 = (Done None, w) /\
     w_calls Fake w =
       [ CallGet Kustomization_v1 ctx (mkNamespacedName "flux-system" "apps");
         CallUpdate Kustomization_v1 ctx obj' ] /\
     ks_Spec_Suspend obj' = true /\ ks_Spec_Path obj' = "./apps/production") /\
  (exists w obj',
     updateSuspendStatus Fake sampleClient ctx "HelmRelease" "podinfo" "apps"
       false w0 = (Done None, w) /\
     w_calls Fake w =
       [ CallGet HelmRelease_v2beta1 ctx (mkNamespacedName "apps" "podinfo");
         CallUpdate HelmRelease_v2beta1 ctx obj' ] /\
     hr_Spec_Suspend obj' = false /\ hr_Status_LastAppliedRevision obj' = "6.4.0").
Proof.
  cbv zeta. repeat apply conj.
  - destruct (updateSuspendStatus_get_then_update Fake fakeClient (Some Background)
                "GitRepository" GitRepository_v1 "flux-system" "flux-system" true
                servingCluster [] (or_introl (conj eq_refl eq_refl))) as (out & w & E & H).
    cbn in H. destruct H as (obj' & F & C & H).
    destruct obj'; cbn in F; destruct F as (-> & -> & -> & -> & ->).
    cbn in H. destruct H as [-> _]. exists w. eexists. split; [exact E|]. split; [exact C|]. split; reflexivity.
  - destruct (updateSuspendStatus_get_then_update Fake fakeClient (Some Background)
                "HelmRepository" HelmRepository_v1beta2 "podinfo" "flux-system" true
                servingCluster [] (or_intror (or_introl (conj eq_refl eq_refl))))
      as (out & w & E & H).
    cbn in H. destruct H as (obj' & F & C & H).
    destruct obj'; cbn in F; destruct F as (-> & -> & -> & ->).
    cbn in H. destruct H as [-> _]. exists w. eexists. split; [exact E|]. split; [exact C|]. split; reflexivity.
  - destruct (updateSuspendStatus_get_then_update Fake fakeClient (Some Background)
                "Kustomization" Kustomization_v1 "apps" "flux-system" true
                servingCluster [] (or_intror (or_intror (or_introl (conj eq_refl eq_refl)))))
      as (out & w & E & H).
    cbn in H. destruct H as (obj' & F & C & H).
    destruct obj'; cbn in F; destruct F as (-> & -> & -> & -> & -> & -> & ->).
    cbn in H. destruct H as [-> _]. exists w. eexists. split; [exact E|]. split; [exact C|]. split; reflexivity.
  - destruct (updateSuspendStatus_get_then_update Fake fakeClient (Some Background)
                "HelmRelease" HelmRelease_v2beta1 "podinfo" "apps" false
                servingCluster [] (or_intror (or_intror (or_intror (conj eq_refl eq_refl)))))
      as (out & w & E & H).
    cbn in H. destruct H as (obj' & F & C & H).
    destruct obj'; cbn in F; destruct F as (-> & -> & -> & -> & ->).
    cbn in H. destruct H as [-> _]. exists w. eexists. split; [exact E|]. split; [exact C|]. split; reflexivity.
Defined.

Lemma ReconcileResource_sets_requestedAt_witness :
  let ctx := Some Background in
  let w0 := startWorld servingCluster in
  rfc3339_utc 1700000000000000000 = "2023-11-14T22:13:20Z" /\
  (exists w obj' new,
     ReconcileResource Fake fake_now sampleClient ctx "GitRepository" "flux-system"
       "flux-system" w0 = (Done None, w) /\
     w_calls Fake w =
       [ CallGet GitRepository_v1 ctx (mkNamespacedName "flux-system" "flux-system");
         CallUpdate GitRepository_v1 ctx obj' ] /\
     om_Annotations (gr_ObjectMeta obj') = Some new /\
     new !! "reconcile.fluxcd.io/requestedAt" = Some "2023-11-14T22:13:20Z" /\
     new !! "owner" = Some "platform" /\
     gr_Spec_URL obj' = "ssh://git@example.com/fleet") /\
  (exists w obj' new,
     ReconcileResource Fake fake_now sampleClient ctx "HelmRelease" "podinfo" "apps" w0
       = (Done None, w) /\
     w_calls Fake w =
       [ CallGet HelmRelease_v2beta1 ctx (mkNamespacedName "apps" "podinfo");
         CallUpdate HelmRelease_v2beta1 ctx obj' ] /\
     om_Annotations (hr_ObjectMeta obj') = Some new /\
     new !! "reconcile.fluxcd.io/requestedAt" = Some "2023-11-14T22:13:20Z" /\
     new !! "owner" = None /\
     hr_Spec_Suspend obj' = true).
Proof.
  cbv zeta. repeat apply conj.
  - vm_compute. reflexivity.
  - destruct (ReconcileResource_sets_requestedAt Fake fake_now fakeClient (Some Background)
                "GitRepository" GitRepository_v1 "flux-system" "flux-system"
                servingCluster [] (or_introl (conj eq_refl eq_refl))) as (out & w & E & H).
    cbn in H. destruct H as (obj' & new & F & A & L1 & _ & L2 & C & H).
    destruct obj' as [[] ? ? ? ?]; unfold sameMetaButAnnotations in F; cbn in F, A;
      destruct F as ((-> & -> & -> & ->) & -> & -> & -> & ->).
    cbn in H. destruct H as [-> _].
    exists w. eexists. exists new. split; [exact E|]. split; [exact C|].
    split; [exact A|]. split; [exact L1|]. split; [|reflexivity].
    rewrite (L2 "owner") by discriminate. vm_compute. reflexivity.
  - destruct (ReconcileResource_sets_requestedAt Fake fake_now fakeClient (Some Background)
                "HelmRelease" HelmRelease_v2beta1 "podinfo" "apps"
                servingCluster [] (or_intror (or_intror (or_intror (conj eq_refl eq_refl)))))
      as (out & w & E & H).
    cbn in H. destruct H as (obj' & new & F & A & L1 & _ & L2 & C & H).
    destruct obj' as [[] ? ? ? ?]; unfold sameMetaButAnnotations in F; cbn in F, A;
      destruct F as ((-> & -> & -> & ->) & -> & -> & -> & ->).
    cbn in H. destruct H as [-> _].
    exists w. eexists. exists new. split; [exact E|]. split; [exact C|].
    split; [exact A|]. split; [exact L1|]. split; [|reflexivity].
    rewrite (L2 "owner") by discriminate. vm_compute. reflexivity.
Defined.

(** ** Readiness *)

Lemma Ready_setRevision rev r : Ready (setRevision rev r) = Ready r.
Proof. reflexivity. Qed.

Lemma Ready_setSource src r : Ready (setSource src r) = Ready r.
Proof. reflexivity. Qed.

Lemma Ready_parseStatusStep r c :
  Ready (parseStatusStep r c) =
  if isReadyCondition c then String.eqb (mc_Status c) ConditionTrue else Ready r.
Proof.
  unfold parseStatusStep, isReadyCondition.
  destruct (String.eqb (mc_Type c) "Ready"); reflexivity.
Qed.

(** The status loop leaves in [Ready] the verdict of the last condition of
    type "Ready" it met. *)
Lemma Ready_parseStatus conditions r :
  Ready (parseStatus conditions r) =
  match last (List.filter isReadyCondition conditions) with
  | Some c => String.eqb (mc_Status c) ConditionTrue
  | None => Ready r
  end.
Proof.
  unfold parseStatus. revert r.
  induction conditions as [|c l IH]; intros r; cbn [fold_left List.filter].
  - reflexivity.
  - rewrite IH, Ready_parseStatusStep.
    destruct (isReadyCondition c); [|reflexivity].
    destruct (List.filter isReadyCondition l) as [|c' l'] eqn:E; [reflexivity|].
    change (last (c :: c' :: l')) with (last (c' :: l')).
    destruct (last (c' :: l')) eqn:E'; [reflexivity|].
    apply last_None in E'. discriminate.
Qed.

Lemma filter_ready_none conditions :
  (forall x, In x conditions -> isReadyCondition x = false) ->
  List.filter isReadyCondition conditions = [].
Proof.
  induction conditions as [|x l IH]; intros H; [reflexivity|].
  cbn [List.filter]. rewrite (H x) by (left; reflexivity).
  apply IH. intros y Hy. apply H. right. exact Hy.
Qed.

Lemma filter_ready_unique conditions c :
  NoDup (map mc_Type conditions) -> In c conditions -> isReadyCondition c = true ->
  List.filter isReadyCondition conditions = [c].
Proof.
  unfold isReadyCondition.
  induction conditions as [|c0 l IH]; intros Hnd Hin Hc; [destruct Hin|].
  cbn [map] in Hnd. apply NoDup_cons in Hnd as [Hnotin Hnd].
  assert (Hnone : forall x, In x l -> mc_Type x = mc_Type c0 -> False).
  { intros x Hx Hty. apply Hnotin. rewrite <- Hty.
    apply list_elem_of_In. apply in_map. exact Hx. }
  cbn [List.filter]. destruct Hin as [->|Hin].
  - rewrite Hc. f_equal. apply filter_ready_none.
    intros x Hx. unfold isReadyCondition.
    destruct (String.eqb_spec (mc_Type x) "Ready") as [Hty|Hty]; [|reflexivity].
    exfalso. apply (Hnone x Hx). apply String.eqb_eq in Hc. congruence.
  - destruct (String.eqb_spec (mc_Type c0) "Ready") as [H0|H0].
    + exfalso. apply (Hnone c Hin). apply String.eqb_eq in Hc. congruence.
    + apply IH; [exact Hnd | exact Hin | exact Hc].
Qed.

(** On an object whose conditions have distinct types (the API server
    keeps the list keyed by type), the status loop sets [Ready] exactly
    when the object carries "Ready" with status "True". *)
Lemma Ready_parseStatus_iff conditions r :
  NoDup (map mc_Type conditions) -> Ready r = false ->
  Ready (parseStatus conditions r) = true <-> carriesReadyTrue conditions.
Proof.
  intros Hnd Hr. rewrite Ready_parseStatus. unfold carriesReadyTrue. split.
  - destruct (last (List.filter isReadyCondition conditions)) as [c|] eqn:E;
      [|congruence].
    intros Hs. exists c.
    assert (Hin : In c (List.filter isReadyCondition conditions)).
    { apply list_elem_of_In. apply last_Some_elem_of. exact E. }
    apply filter_In in Hin as [Hin Hty].
    repeat split; [exact Hin | apply String.eqb_eq, Hty | apply String.eqb_eq, Hs].
  - intros (c & Hin & Hty & Hs).
    rewrite (filter_ready_unique conditions c Hnd Hin) by (apply String.eqb_eq, Hty).
    cbn. rewrite Hs. reflexivity.
Qed.

(** The status code of ListHelmRepositories looks at the last condition,
    whatever its type. *)
Lemma Ready_parseStatusLast conditions r :
  Ready (parseStatusLast conditions r) =
  match last conditions with
  | Some c => String.eqb (mc_Status c) ConditionTrue
  | None => Ready r
  end.
Proof.
  unfold parseStatusLast.
  destruct (last conditions) as [c|]; [reflexivity|].
  generalize r. induction conditions as [|c l IH]; intros r0; [reflexivity|].
  cbn [fold_left]. rewrite IH. reflexivity.
Qed.

Section ReadinessOfFetchedObjects.

Variable St : Type.
Variable now : St -> Time * St.

Lemma newResource_not_ready type meta suspend source path url chart version w :
  exists r w',
    newResource St now type meta suspend source path url chart version w = (Done r, w') /\
    Ready r = false.
Proof.
  unfold newResource, time_Since, time_Now, mbind, M_bind, mret, M_ret.
  destruct (now (w_state St w)) as [t1 s1]. cbn [w_state].
  destruct (now s1) as [t2 s2]. eexists _, _. split; reflexivity.
Qed.

Ltac run_builder :=
  unfold mbind, M_bind;
  match goal with
  | |- context [newResource St now ?ty ?m ?su ?so ?p ?u ?c ?v ?w] =>
      let E := fresh "E" in
      destruct (newResource_not_ready ty m su so p u c v w) as (? & ? & E & ?);
      rewrite E
  end;
  eexists _, _; (split; [reflexivity|]); intros ?;
  repeat match goal with
         | |- context [option_rect] => fail
         | |- context [match ?x with Some _ => _ | None => _ end] => destruct x
         | |- context [if ?b then _ else _] => destruct b
         end;
  rewrite ?Ready_setRevision; apply Ready_parseStatus_iff;
  rewrite ?Ready_setSource; assumption.

(** On the primary path of GitRepository, Kustomization and HelmRelease
    the resource is ready exactly when the object carries "Ready" with
    status "True". *)
Lemma gitRepositoryResource_Ready repo w :
  exists r w',
    gitRepositoryResource St now repo w = (Done r, w') /\
    (NoDup (map mc_Type (gr_Status_Conditions repo)) ->
     Ready r = true <-> carriesReadyTrue (gr_Status_Conditions repo)).
Proof. unfold gitRepositoryResource. run_builder. Qed.

Lemma kustomizationResource_Ready ks w :
  exists r w',
    kustomizationResource St now ks w = (Done r, w') /\
    (NoDup (map mc_Type (ks_Status_Conditions ks)) ->
     Ready r = true <-> carriesReadyTrue (ks_Status_Conditions ks)).
Proof. unfold kustomizationResource. run_builder. Qed.

Lemma helmReleaseResource_Ready hr chart w :
  hr_Spec_Chart hr = Some chart ->
  exists r w',
    helmReleaseResource St now hr w = (Done r, w') /\
    (NoDup (map mc_Type (hr_Status_Conditions hr)) ->
     Ready r = true <-> carriesReadyTrue (hr_Status_Conditions hr)).
Proof.
  intros Hchart.
  unfold helmReleaseResource, time_Since, time_Now, deref, mbind, M_bind, mret, M_ret.
  rewrite Hchart.
  destruct (now (w_state St w)) as [t1 s1]. cbn [w_state].
  destruct (now s1) as [t2 s2].
  eexists _, _. split; [reflexivity|]. intros Hnd.
  repeat match goal with
         | |- context [if ?b then _ else _] => destruct b
         end;
  rewrite ?Ready_setRevision; apply Ready_parseStatus_iff;
  rewrite ?Ready_setSource; (assumption || reflexivity).
Qed.

(** On both paths of HelmRepository it is ready exactly when the last
    condition of the list, of whatever type, has status "True". *)
Lemma helmRepositoryResource_Ready repo w :
  exists r w',
    helmRepositoryResource St now repo w = (Done r, w') /\
    Ready r = match last (hrepo_Status_Conditions repo) with
              | Some c => String.eqb (mc_Status c) ConditionTrue
              | None => false
              end.
Proof.
  unfold helmRepositoryResource, mbind, M_bind.
  match goal with
  | |- context [newResource St now ?ty ?m ?su ?so ?p ?u ?c ?v ?w] =>
      destruct (newResource_not_ready ty m su so p u c v w) as (r0 & w' & E & H0)
  end.
  rewrite E. eexists _, _. split; [reflexivity|].
  rewrite Ready_parseStatusLast, H0. reflexivity.
Qed.

End ReadinessOfFetchedObjects.

(** C1, at a HelmRepository whose fetch is failing.  The object carries
    "Ready" with status "False" and nothing of type "Ready" with status
    "True", and the fetcher, on its primary v1beta2 path, reports it
    ready: it reads the status of the last condition of the list.  In the
    other direction an object that carries "Ready"/"True" followed by a
    condition with another status is reported not ready.  The fetchers of
    the three other kinds look for the condition of type "Ready". *)
Theorem HelmRepository_ready_is_last_condition :
  (exists r w,
     ListHelmRepositories Fake fake_now sampleClient (Some Background) ""
       (startWorld sampleCluster) = (Done (inl [r]), w) /\
     w_calls Fake w = [CallList HelmRepository_v1beta2 (Some Background) []] /\
     Ready r = true /\ Status r = "True" /\
     ~ carriesReadyTrue (hrepo_Status_Conditions failingHelmRepository)) /\
  (let conditions := [ cond "Ready" "True" "Succeeded" "stored artifact";
                       cond "Reconciling" "False" "Done" "" ] in
   forall r0, Ready (parseStatusLast conditions r0) = false /\ carriesReadyTrue conditions).
Proof.
  split.
  - eexists _, _. split; [vm_compute; reflexivity|].
    repeat split.
    intros (c & Hin & Hty & Hst).
    cbn in Hin. destruct Hin as [<-|[<-|[<-|[]]]]; discriminate.
  - intros r0. split; [reflexivity|].
    eexists. split; [left; reflexivity|]. split; reflexivity.
Qed.

(** ** Nil client and nil context *)

(** C9, at a nil client and at a nil context.  SuspendResource,
    ResumeResource and ReconcileResource on a nil client panic with the
    run-time nil dereference: nothing checks the handle first.
    ListGitRepositories, ListKustomizations and ListHelmReleases on a nil
    client return the text of that same panic, recovered inside safeList,
    and on a nil context they issue the list call with the nil context.
    Only ListHelmRepositories checks both before any call. *)
Theorem nil_guards_only_in_ListHelmRepositories :
  let ctx := Some Background in
  let w0 := startWorld sampleCluster in
  let recovered :=
    Errorf ("panic in kubernetes client list operation: " +:+ nilDereference) in
  SuspendResource Fake None ctx "GitRepository" "flux-system" "flux-system" w0
    = (Panicked nilDereference, w0) /\
  ResumeResource Fake None ctx "GitRepository" "flux-system" "flux-system" w0
    = (Panicked nilDereference, w0) /\
  ReconcileResource Fake fake_now None ctx "GitRepository" "flux-system" "flux-system" w0
    = (Panicked nilDereference, w0) /\
  ListGitRepositories Fake fake_now None ctx "" w0
    = (Done (inr (Errorf_w "failed to list GitRepositories: " recovered)), w0) /\
  ListKustomizations Fake fake_now None ctx "" w0
    = (Done (inr (Errorf_w "failed to list Kustomizations: " recovered)), w0) /\
  ListHelmReleases Fake fake_now None ctx "" w0
    = (Done (inr (Errorf_w "failed to list HelmReleases: " recovered)), w0) /\
  w_calls Fake (snd (ListGitRepositories Fake fake_now sampleClient None "" w0))
    = [CallList GitRepository_v1 None []] /\
  w_calls Fake (snd (ListKustomizations Fake fake_now sampleClient None "" w0))
    = [CallList Kustomization_v1 None []] /\
  w_calls Fake (snd (ListHelmReleases Fake fake_now sampleClient None "" w0))
    = [CallList HelmRelease_v2beta1 None []] /\
  w_calls Fake (snd (SuspendResource Fake sampleClient None
                       "GitRepository" "flux-system" "flux-system" w0))
    = [ CallGet GitRepository_v1 None (mkNamespacedName "flux-system" "flux-system");
        CallUpdate GitRepository_v1 None (setSuspend GitRepository_v1 true sampleGitRepository) ] /\
  ListHelmRepositories Fake fake_now None ctx "" w0
    = (Done (inr (Errorf "kubernetes client is nil")), w0) /\
  ListHelmRepositories Fake fake_now sampleClient None "" w0
    = (Done (inr (Errorf "context is nil")), w0).
Proof. cbv zeta. repeat split. Qed.

(** ** The table view *)

Lemma flexStep_keeps_slice flexWidth (cols baseColumns : list Column) :
  fold_left (flexStep flexWidth) cols baseColumns = baseColumns.
Proof. induction cols as [|c cols IH]; [reflexivity | exact IH]. Qed.

(** The columns that updateTableColumns installs do not depend on the
    width of the view. *)
Lemma SetSize_columns_ignore_width (v : ResourceView) (w w' h h' : Z) a b :
  SetSize w h v = Done a -> SetSize w' h' v = Done b ->
  tbl_columns (table a) = tbl_columns (table b).
Proof.
  unfold SetSize, updateTableColumns, table_SetColumns, table_SetHeight,
    table_UpdateViewport.
  cbn [config resourceType width table withTable tbl_columns tbl_rows tbl_cursor tbl_height].
  repeat match goal with
         | |- context [fold_left (flexStep ?f) ?c ?b] =>
             rewrite (flexStep_keeps_slice f c b)
         | |- context [let '(_, _) := ?p in _] => destruct p
         | |- context [if ?b then _ else _] => destruct b
         end;
  cbn [andThen config resourceType width table withTable tbl_columns tbl_rows];
  repeat match goal with
         | |- context [if ?b then _ else _] => destruct b
         end;
  cbn [andThen];
  intros Ha Hb; try discriminate;
  injection Ha as <-; injection Hb as <-; reflexivity.
Qed.

(** C6, at a wide viewport.  For a view of GitRepository resources with
    name and status columns of 30 and 15 units, resized to a width of 200,
    the width the flexible columns should take is
    max(20, (200 - 63 - 10) / 2) = 63, above the floor of 20.  The
    resize returns and leaves Message at 35 and URL at 40: the loop that
    assigns the computed width writes to a copy of each column. *)
Theorem SetSize_does_not_apply_flex_width :
  exists v,
    SetSize 200 40 (NewResourceView (mkConfig 30 15 true)) = Done v /\
    width v = 200 /\
    Z.max 20 ((200 - (30 + 8 + 15 + 10) - 10) / 2) = 63 /\
    tbl_columns (table v) =
      [ mkColumn "Name" 30; mkColumn "Ready" 8; mkColumn "Status" 15;
        mkColumn "Age" 10; mkColumn "Message" 35; mkColumn "URL" 40 ].
Proof. eexists. split; [reflexivity|]. repeat split. Qed.

Lemma characters_ASCII (s : string) :
  isASCII s = true -> characters s = String.length s.
Proof.
  induction s as [|a s IH]; [reflexivity|].
  cbn [isASCII characters String.length]. intros H.
  apply andb_true_iff in H as [Ha Hs]. rewrite (IH Hs).
  unfold isContinuationByte.
  apply Nat.ltb_lt in Ha.
  destruct (Nat.leb_spec 128 (nat_of_ascii a)) as [H128|H128]; [lia|reflexivity].
Qed.

(** C7, in bytes.  The status cell of a row is built from the label
    "Suspended" for a suspended resource, otherwise from the status, or
    "Unknown" when the status is empty.  A label of at most 12 bytes is
    the cell; a longer one is cut to its first 9 bytes, followed by the
    ellipsis, the three bytes 226, 128, 166 of U+2026.  So a status of 15
    bytes is shown as its first 9 bytes and the ellipsis, and one of 12
    bytes as it is.  In a label of ASCII characters only, bytes and
    characters are the same. *)
Theorem status_cell_rule (v : ResourceView) (r : Resource) :
  let label := if Suspended r then "Suspended"
               else if String.eqb (Status r) "" then "Unknown"
               else Status r in
  createTableRow v r !! 2%nat = Some (statusCell r) /\
  ((String.length label <= 12)%nat -> statusCell r = label) /\
  ((12 < String.length label)%nat ->
   statusCell r = String.substring 0 9 label +:+ "…") /\
  "…" = String (ascii_of_nat 226) (String (ascii_of_nat 128)
          (String (ascii_of_nat 166) EmptyString)) /\
  (Suspended r = false -> String.length (Status r) = 15%nat ->
   statusCell r = String.substring 0 9 (Status r) +:+ "…") /\
  (Suspended r = false -> String.length (Status r) = 12%nat ->
   statusCell r = Status r) /\
  (isASCII label = true -> characters label = String.length label).
Proof.
  cbv zeta.
  assert (Hcell : statusCell r =
    (if (String.length (statusLabel r) <=? 12)%nat then statusLabel r
     else String.substring 0 9 (statusLabel r) +:+ "…")).
  { unfold statusCell, statusLabel, len, slice_to, ellipsis.
    destruct (Suspended r); [reflexivity|].
    destruct (String.eqb (Status r) ""); [reflexivity|].
    destruct (Nat.leb_spec (String.length (Status r)) 12) as [H|H];
      destruct (Z.gtb_spec (Z.of_nat (String.length (Status r))) 12) as [H'|H'];
      try reflexivity; lia. }
  change (if Suspended r then "Suspended"
          else if String.eqb (Status r) "" then "Unknown" else Status r)
    with (statusLabel r).
  split; [|split; [|split; [|split; [reflexivity|split; [|split]]]]].
  - unfold createTableRow.
    repeat match goal with
           | |- context [if ?b then _ else _] => destruct b
           end; reflexivity.
  - intros Hl. rewrite Hcell.
    destruct (Nat.leb_spec (String.length (statusLabel r)) 12); [reflexivity|lia].
  - intros Hl. rewrite Hcell.
    destruct (Nat.leb_spec (String.length (statusLabel r)) 12); [lia|reflexivity].
  - intros Hs Hl. rewrite Hcell. unfold statusLabel. rewrite Hs.
    destruct (String.eqb_spec (Status r) "") as [E|E].
    + rewrite E in Hl. discriminate.
    + rewrite Hl. reflexivity.
  - intros Hs Hl. rewrite Hcell. unfold statusLabel. rewrite Hs.
    destruct (String.eqb_spec (Status r) "") as [E|E].
    + rewrite E in Hl. discriminate.
    + rewrite Hl. reflexivity.
  - apply characters_ASCII.
Qed.

(** C7, as worded, at a status of twelve characters.  The status
    "äbcdefghijkl" has 12 characters and 13 bytes, its first character
    taking two; the cell is not the status but "äbcdefgh…", the first 9
    bytes and the ellipsis: the length tested and the cut are in bytes. *)
Lemma status_cell_counts_bytes :
  Status accentedResource = "äbcdefghijkl" /\
  Suspended accentedResource = false /\
  characters (Status accentedResource) = 12%nat /\
  String.length (Status accentedResource) = 13%nat /\
  statusCell accentedResource = "äbcdefgh…" /\
  statusCell accentedResource <> Status accentedResource.
Proof. repeat split. discriminate. Qed.

Lemma lookup_is_nth_error {A : Type} (l : list A) (i : nat) :
  l !! i = nth_error l i.
Proof.
  revert i. induction l as [|x l IH]; intros [|i]; try reflexivity. apply IH.
Qed.

(** C10. GetSelectedResource returns the resource at the cursor when the
    cursor is an index of the resource sequence, and nil otherwise: on an
    empty sequence, on a negative cursor and on a cursor past the last
    row.  No index outside the sequence is read. *)
Theorem GetSelectedResource_in_bounds (v : ResourceView) :
  let cursor := table_Cursor (table v) in
  let n := Z.of_nat (length (resources v)) in
  (0 <= cursor < n ->
   exists r, GetSelectedResource v = Some r /\
             nth_error (resources v) (Z.to_nat cursor) = Some r) /\
  (~ (0 <= cursor < n) -> GetSelectedResource v = None) /\
  (resources v = [] -> GetSelectedResource v = None) /\
  (n <= cursor -> GetSelectedResource v = None).
Proof.
  cbv zeta. unfold GetSelectedResource.
  destruct (Z.geb_spec (table_Cursor (table v)) 0) as [H0|H0];
    destruct (Z.ltb_spec (table_Cursor (table v)) (Z.of_nat (length (resources v))))
      as [H1|H1]; cbn [andb]; repeat split; intros H; try reflexivity; try lia.
  - destruct (nth_error (resources v) (Z.to_nat (table_Cursor (table v)))) as [r|] eqn:E.
    + exists r. split; [|reflexivity]. rewrite <- E. apply lookup_is_nth_error.
    + apply nth_error_None in E. lia.
  - rewrite H in H1. cbn in H1. lia.
Qed.

(** ** float64: rounding is monotone *)

Section FloatFacts.

Local Open Scope R_scope.

Lemma bpow_gt_0 e : 0 < bpow e.
Proof. apply powerRZ_lt; lra. Qed.

Lemma bpow_add a b : bpow (a + b) = bpow a * bpow b.
Proof. apply powerRZ_add; lra. Qed.

Lemma bpow_IZR k : (0 <= k)%Z -> bpow k = IZR (2 ^ k).
Proof.
  intros Hk. unfold bpow. destruct k as [|p|p]; [reflexivity| |lia].
  symmetry. apply Zpower_pos_powerRZ.
Qed.

Lemma bpow_0 : bpow 0 = 1.
Proof. reflexivity. Qed.

Lemma bpow_1 : bpow 1 = 2.
Proof. unfold bpow. simpl. lra. Qed.

Lemma bpow_succ e : bpow (e + 1) = 2 * bpow e.
Proof. rewrite bpow_add, bpow_1. lra. Qed.

Lemma bpow_ge_1 k : (0 <= k)%Z -> 1 <= bpow k.
Proof.
  intros Hk. rewrite bpow_IZR by exact Hk. apply IZR_le.
  pose proof (Z.pow_pos_nonneg 2 k ltac:(lia) Hk). lia.
Qed.

Lemma bpow_le a b : (a <= b)%Z -> bpow a <= bpow b.
Proof.
  intros H. replace b with (a + (b - a))%Z by lia. rewrite bpow_add.
  pose proof (bpow_gt_0 a). pose proof (bpow_ge_1 (b - a) ltac:(lia)). nra.
Qed.

Lemma bpow_lt a b : (a < b)%Z -> bpow a < bpow b.
Proof.
  intros H. replace b with (a + 1 + (b - a - 1))%Z by lia.
  rewrite bpow_add, bpow_succ.
  pose proof (bpow_gt_0 a). pose proof (bpow_ge_1 (b - a - 1) ltac:(lia)). nra.
Qed.

Lemma bpow_lt_inv a b : bpow a < bpow b -> (a < b)%Z.
Proof.
  intros H. destruct (Z_lt_le_dec a b) as [Hlt|Hle]; [exact Hlt|].
  apply bpow_le in Hle. lra.
Qed.

Lemma bpow_sub a b : bpow (a - b) = bpow a / bpow b.
Proof.
  pose proof (bpow_gt_0 b).
  replace a with ((a - b) + b)%Z at 2 by lia. rewrite bpow_add. field. lra.
Qed.

(** The number of binary digits. *)
Lemma digits2_pos_size p : digits2_pos p = Pos.size p.
Proof. induction p; simpl; congruence. Qed.

Lemma Zdigits2_bounds m :
  (0 < m)%Z -> (2 ^ (Zdigits2 m - 1) <= m < 2 ^ Zdigits2 m)%Z.
Proof.
  destruct m as [|p|p]; try lia. intros _. cbn [Zdigits2].
  rewrite digits2_pos_size.
  pose proof (Pos.size_gt p) as Hgt. pose proof (Pos.size_le p) as Hle.
  apply Pos2Z.pos_lt_pos in Hgt. apply Pos2Z.pos_le_pos in Hle.
  rewrite Pos2Z.inj_pow in Hgt, Hle. change (Z.pos p~0) with (2 * Z.pos p)%Z in Hle.
  split; [|exact Hgt].
  replace (Z.pos (Pos.size p)) with (Z.pos (Pos.size p) - 1 + 1)%Z in Hle by lia.
  rewrite Z.pow_add_r in Hle by lia. change (2 ^ 1)%Z with 2%Z in Hle. lia.
Qed.

Lemma Zdigits2_pos m : (0 < m)%Z -> (0 < Zdigits2 m)%Z.
Proof. destruct m; cbn; lia. Qed.

Lemma Zdigits2_bounds_R m :
  (0 < m)%Z -> bpow (Zdigits2 m - 1) <= IZR m < bpow (Zdigits2 m).
Proof.
  intros Hm. pose proof (Zdigits2_bounds m Hm) as [H1 H2].
  pose proof (Zdigits2_pos m Hm).
  rewrite !bpow_IZR by lia. split; [apply IZR_le|apply IZR_lt]; assumption.
Qed.

(** A number between two consecutive powers of two determines the exponent. *)
Lemma mag_le a b x y :
  bpow (a - 1) <= x -> y < bpow b -> x <= y -> (a <= b)%Z.
Proof.
  intros Hx Hy Hxy. destruct (Z_le_gt_dec a b) as [H|H]; [exact H|].
  assert (bpow b <= bpow (a - 1)) by (apply bpow_le; lia). lra.
Qed.

Lemma inbetween_loc_bounds d l : inbetween_loc d l -> 0 <= d < 1.
Proof. destruct l as [|[]]; cbn; lra. Qed.

Lemma IZR_xO p : IZR (Z.pos p~0) = 2 * IZR (Z.pos p).
Proof. change (Z.pos p~0) with (2 * Z.pos p)%Z. rewrite mult_IZR. reflexivity. Qed.

Lemma IZR_xI p : IZR (Z.pos p~1) = 2 * IZR (Z.pos p) + 1.
Proof. change (Z.pos p~1) with (2 * Z.pos p + 1)%Z. rewrite plus_IZR, mult_IZR. reflexivity. Qed.

Lemma shr_1_ok mrs x : rec_ok mrs x -> rec_ok (shr_1 mrs) (x / 2).
Proof.
  destruct mrs as [m r s]. unfold rec_ok. cbn [shr_m].
  intros [Hm H].
  destruct m as [|[p|p|]|p]; try lia;
    destruct r, s; cbn [shr_1 shr_m loc_of_shr_record orb inbetween_loc] in *;
    try rewrite (IZR_xO p) in H; try rewrite (IZR_xI p) in H;
    (split; [lia|]); lra.
Qed.

Lemma iter_shr_1_ok p : forall mrs x,
  rec_ok mrs x -> rec_ok (SpecFloat.iter_pos shr_1 p mrs) (x / bpow (Z.pos p)).
Proof.
  induction p as [p IH|p IH|]; intros mrs x H; cbn [SpecFloat.iter_pos].
  - apply shr_1_ok in H. apply IH in H. apply IH in H.
    replace (x / bpow (Z.pos p~1)) with (x / 2 / bpow (Z.pos p) / bpow (Z.pos p)); [exact H|].
    replace (Z.pos p~1) with (1 + (Z.pos p + Z.pos p))%Z by lia.
    rewrite !bpow_add, bpow_1. pose proof (bpow_gt_0 (Z.pos p)). field. lra.
  - apply IH in H. apply IH in H.
    replace (x / bpow (Z.pos p~0)) with (x / bpow (Z.pos p) / bpow (Z.pos p)); [exact H|].
    replace (Z.pos p~0) with (Z.pos p + Z.pos p)%Z by lia.
    rewrite !bpow_add. pose proof (bpow_gt_0 (Z.pos p)). field. lra.
  - apply shr_1_ok in H. rewrite bpow_1. exact H.
Qed.

Lemma shr_ok mrs e n x :
  rec_ok mrs x -> (0 <= n)%Z ->
  snd (shr mrs e n) = (e + n)%Z /\ rec_ok (fst (shr mrs e n)) (x / bpow n).
Proof.
  intros H Hn. destruct n as [|p|p]; try lia; cbn [shr fst snd].
  - split; [lia|]. rewrite bpow_0. replace (x / 1) with x by field. exact H.
  - split; [reflexivity|]. apply iter_shr_1_ok, H.
Qed.

Lemma rec_ok_of_loc m l d :
  (0 <= m)%Z -> inbetween_loc d l -> rec_ok (shr_record_of_loc m l) (IZR m + d).
Proof.
  intros Hm H. unfold rec_ok.
  replace (shr_m (shr_record_of_loc m l)) with m by (destruct l as [|[]]; reflexivity).
  replace (loc_of_shr_record (shr_record_of_loc m l)) with l by (destruct l as [|[]]; reflexivity).
  split; [exact Hm|]. replace (IZR m + d - IZR m) with d by ring. exact H.
Qed.

Lemma fexp64_eq e : fexp 53 1024 e = Z.max (e - 53) (-1074).
Proof. reflexivity. Qed.

Lemma shr_fexp_ok m e l d :
  (0 <= m)%Z -> inbetween_loc d l -> (e <= fexp 53 1024 (Zdigits2 m + e))%Z ->
  snd (shr_fexp 53 1024 m e l) = fexp 53 1024 (Zdigits2 m + e) /\
  rec_ok (fst (shr_fexp 53 1024 m e l))
         ((IZR m + d) * bpow e / bpow (fexp 53 1024 (Zdigits2 m + e))).
Proof.
  intros Hm Hd He. unfold shr_fexp.
  set (n := (fexp 53 1024 (Zdigits2 m + e) - e)%Z).
  destruct (shr_ok (shr_record_of_loc m l) e n (IZR m + d)
              (rec_ok_of_loc m l d Hm Hd) ltac:(lia)) as [H1 H2].
  split; [rewrite H1; lia|].
  replace ((IZR m + d) * bpow e / bpow (fexp 53 1024 (Zdigits2 m + e)))
    with ((IZR m + d) / bpow n); [exact H2|].
  replace (fexp 53 1024 (Zdigits2 m + e)) with (e + n)%Z by lia.
  rewrite bpow_add. pose proof (bpow_gt_0 e). pose proof (bpow_gt_0 n). field. lra.
Qed.

Lemma binary_round_aux_finish m e l :
  binary_round_aux 53 1024 false m e l =
  finish64 (round_nearest_even (shr_m (fst (shr_fexp 53 1024 m e l)))
                               (loc_of_shr_record (fst (shr_fexp 53 1024 m e l))))
           (snd (shr_fexp 53 1024 m e l)).
Proof.
  unfold binary_round_aux, finish64.
  destruct (shr_fexp 53 1024 m e l) as [mrs e1]. reflexivity.
Qed.

Lemma shr_nonpos mrs e n : (n <= 0)%Z -> shr mrs e n = (mrs, e).
Proof. destruct n; [reflexivity|lia|reflexivity]. Qed.

Lemma Zdigits2_le_53 m : (0 <= m < 2 ^ 53)%Z -> (Zdigits2 m <= 53)%Z.
Proof.
  intros [H0 H1]. destruct (Z.eq_dec m 0%Z) as [->|Hne]; [cbn; lia|].
  pose proof (Zdigits2_bounds m ltac:(lia)) as [H2 _].
  pose proof (Zdigits2_pos m ltac:(lia)).
  assert (2 ^ (Zdigits2 m - 1) < 2 ^ 53)%Z as Hlt by lia.
  apply Z.pow_lt_mono_r_iff in Hlt; lia.
Qed.

Lemma finish64_spec m2 e1 :
  (0 <= m2 <= 2 ^ 53)%Z -> (-1074 <= e1)%Z ->
  nonneg (finish64 m2 e1) /\
  B2R (finish64 m2 e1) = if overflows m2 e1 then bpow 1024 else IZR m2 * bpow e1.
Proof.
  intros Hm He. unfold finish64, overflows, shr_fexp.
  destruct (Z.eq_dec m2 (2 ^ 53)%Z) as [->|Hne].
  - (* the rounding carried into a 54th digit *)
    replace (fexp 53 1024 (Zdigits2 (2 ^ 53) + e1) - e1)%Z with 1%Z
      by (change (Zdigits2 (2 ^ 53)) with 54%Z; rewrite fexp64_eq; lia).
    cbn [shr shr_record_of_loc SpecFloat.iter_pos fst snd].
    change (shr_1 {| shr_m := 2 ^ 53; shr_r := false; shr_s := false |})
      with {| shr_m := 2 ^ 52; shr_r := false; shr_s := false |}.
    cbn [shr_m]. change (2 ^ 52)%Z with (Z.pos (2 ^ 52)).
    change (0 <? 2 ^ 53)%Z with true. change (2 ^ 53 =? 2 ^ 53)%Z with true.
    cbn [andb]. change (1024 - 53)%Z with 971%Z.
    destruct (Z.leb_spec (e1 + 1)%Z 971%Z) as [H|H];
      destruct (Z.ltb_spec 971%Z (e1 + 1)%Z) as [H'|H']; try lia; cbn [nonneg B2R].
    + split; [exact I|]. rewrite bpow_succ.
      change (IZR (Z.pos (2 ^ 52))) with (IZR (2 ^ 52)).
      replace (IZR (2 ^ 53)) with (2 * IZR (2 ^ 52)); [ring|].
      rewrite <- mult_IZR. reflexivity.
    + split; [exact I|]. ring.
  - assert (Hd : (Zdigits2 m2 <= 53)%Z) by (apply Zdigits2_le_53; lia).
    rewrite shr_nonpos by (rewrite fexp64_eq; lia).
    replace (shr_m (shr_record_of_loc m2 loc_Exact)) with m2 by reflexivity.
    replace (m2 =? 2 ^ 53)%Z with false by (symmetry; apply Z.eqb_neq, Hne).
    change (1024 - 53)%Z with 971%Z.
    destruct m2 as [|p|p]; try lia.
    + cbn. split; [exact I|]. ring.
    + change (0 <? Z.pos p)%Z with true. cbn [andb].
      destruct (Z.leb_spec e1 971%Z) as [H|H];
        destruct (Z.ltb_spec 971%Z e1) as [H'|H']; try lia; cbn [nonneg B2R];
        (split; [exact I|]); ring.
Qed.

Lemma round_nearest_even_between m l :
  (m <= round_nearest_even m l <= m + 1)%Z.
Proof.
  unfold round_nearest_even. destruct l as [|[]]; try lia.
  destruct (Z.even m); lia.
Qed.

Lemma round_nearest_even_mono m l x m' l' x' :
  inbetween_loc (x - IZR m) l -> inbetween_loc (x' - IZR m') l' -> x <= x' ->
  (round_nearest_even m l <= round_nearest_even m' l')%Z.
Proof.
  intros H H' Hx.
  pose proof (inbetween_loc_bounds _ _ H) as B.
  pose proof (inbetween_loc_bounds _ _ H') as B'.
  assert (Hm : (m <= m')%Z).
  { assert (IZR m < IZR (m' + 1)) by (rewrite plus_IZR; lra).
    apply lt_IZR in H0. lia. }
  pose proof (round_nearest_even_between m l).
  pose proof (round_nearest_even_between m' l').
  destruct (Z.eq_dec m m') as [<-|Hne]; [|lia].
  unfold round_nearest_even.
  destruct l as [|[]], l' as [|[]]; cbn [inbetween_loc] in H, H';
    try lia; try (destruct (Z.even m); lia); exfalso; lra.
Qed.

Lemma round_facts m e l d :
  valid_input m e l d ->
  let X := (IZR m + d) * bpow e in
  let mag := (Zdigits2 m + e)%Z in
  let e1 := fexp 53 1024 mag in
  exists m1 l1,
    binary_round_aux 53 1024 false m e l = finish64 (round_nearest_even m1 l1) e1 /\
    (0 <= m1 < 2 ^ 53)%Z /\
    inbetween_loc (X / bpow e1 - IZR m1) l1 /\
    X < bpow mag /\
    ((-1074 < e1)%Z -> bpow (mag - 1) <= X).
Proof.
  intros (Hm & Hd & He) X mag e1.
  destruct (shr_fexp_ok m e l d Hm Hd He) as [E1 [Hm1 Hl1]].
  fold mag in E1, Hl1. fold e1 in E1, Hl1. fold X in Hl1.
  pose proof (bpow_gt_0 e) as Pe. pose proof (bpow_gt_0 e1) as Pe1.
  pose proof (inbetween_loc_bounds _ _ Hd) as Bd.
  assert (HX : X < bpow mag).
  { unfold mag. rewrite bpow_add. unfold X.
    destruct (Z.eq_dec m 0%Z) as [->|Hne].
    - cbn [Zdigits2]. rewrite bpow_0. nra.
    - pose proof (Zdigits2_bounds m ltac:(lia)) as [_ H2].
      pose proof (Zdigits2_pos m ltac:(lia)).
      assert (IZR (m + 1) <= bpow (Zdigits2 m))
        by (rewrite bpow_IZR by lia; apply IZR_le; lia).
      rewrite plus_IZR in H0. nra. }
  assert (HX' : (-1074 < e1)%Z -> bpow (mag - 1) <= X).
  { intros H1. unfold mag. destruct (Z.eq_dec m 0%Z) as [->|Hne].
    - exfalso. unfold e1, mag in *. cbn [Zdigits2] in *.
      rewrite fexp64_eq in *. lia.
    - replace (Zdigits2 m + e - 1)%Z with ((Zdigits2 m - 1) + e)%Z by lia.
      rewrite bpow_add. unfold X.
      pose proof (Zdigits2_bounds_R m ltac:(lia)) as [H2 _].
      pose proof (bpow_gt_0 (Zdigits2 m - 1)). nra. }
  exists (shr_m (fst (shr_fexp 53 1024 m e l))),
         (loc_of_shr_record (fst (shr_fexp 53 1024 m e l))).
  split; [rewrite binary_round_aux_finish, E1; reflexivity|].
  pose proof (inbetween_loc_bounds _ _ Hl1) as B1.
  repeat split; try assumption.
  (* the shifted mantissa has at most 53 digits *)
  apply lt_IZR. rewrite <- bpow_IZR by lia.
  assert (X / bpow e1 < bpow 53); [|lra].
  assert (bpow mag <= bpow (53 + e1))
    by (apply bpow_le; unfold e1; rewrite fexp64_eq; lia).
  rewrite bpow_add in H.
  apply Rmult_lt_reg_r with (bpow e1); [exact Pe1|].
  unfold Rdiv. rewrite Rmult_assoc, Rinv_l by lra. lra.
Qed.

Lemma no_overflow_bound m2 e1 :
  (0 <= m2 <= 2 ^ 53)%Z -> overflows m2 e1 = false -> IZR m2 * bpow e1 <= bpow 1024.
Proof.
  intros Hm Hov. unfold overflows in Hov.
  pose proof (bpow_gt_0 e1) as Pe.
  destruct (Z.ltb_spec 0%Z m2) as [Hpos|Hz]; cbn [andb] in Hov.
  - assert (IZR m2 <= bpow 53) by (rewrite bpow_IZR by lia; apply IZR_le; lia).
    destruct (Z.eqb_spec m2 (2 ^ 53)%Z) as [->|Hne];
      apply Z.ltb_ge in Hov.
    + assert (bpow (53 + e1) <= bpow 1024) by (apply bpow_le; lia).
      rewrite bpow_add in H0. rewrite <- bpow_IZR by lia. lra.
    + assert (bpow (53 + e1) <= bpow 1024) by (apply bpow_le; lia).
      rewrite bpow_add in H0. nra.
  - replace m2 with 0%Z by lia. pose proof (bpow_gt_0 1024). lra.
Qed.

(** Rounding is monotone: of two exact values the smaller rounds to the
    smaller float. *)
Lemma round_mono m e l d m' e' l' d' :
  valid_input m e l d -> valid_input m' e' l' d' ->
  (IZR m + d) * bpow e <= (IZR m' + d') * bpow e' ->
  nonneg (binary_round_aux 53 1024 false m e l) /\
  nonneg (binary_round_aux 53 1024 false m' e' l') /\
  B2R (binary_round_aux 53 1024 false m e l) <=
  B2R (binary_round_aux 53 1024 false m' e' l').
Proof.
  intros V V' HXX.
  destruct (round_facts m e l d V) as (m1 & l1 & E & Hm1 & Hl1 & Hhi & Hlo).
  destruct (round_facts m' e' l' d' V') as (m1' & l1' & E' & Hm1' & Hl1' & Hhi' & Hlo').
  cbv zeta in *.
  set (X := (IZR m + d) * bpow e) in *. set (X' := (IZR m' + d') * bpow e') in *.
  set (mag := (Zdigits2 m + e)%Z) in *. set (mag' := (Zdigits2 m' + e')%Z) in *.
  set (e1 := fexp 53 1024 mag) in *. set (e1' := fexp 53 1024 mag') in *.
  set (m2 := round_nearest_even m1 l1) in *.
  set (m2' := round_nearest_even m1' l1') in *.
  pose proof (round_nearest_even_between m1 l1) as B. fold m2 in B.
  pose proof (round_nearest_even_between m1' l1') as B'. fold m2' in B'.
  assert (G : (-1074 <= e1)%Z) by (unfold e1; rewrite fexp64_eq; lia).
  assert (G' : (-1074 <= e1')%Z) by (unfold e1'; rewrite fexp64_eq; lia).
  destruct (finish64_spec m2 e1 ltac:(lia) G) as [N F].
  destruct (finish64_spec m2' e1' ltac:(lia) G') as [N' F'].
  rewrite E, E'. split; [exact N|]. split; [exact N'|]. rewrite F, F'.
  pose proof (bpow_gt_0 e1) as P1. pose proof (bpow_gt_0 e1') as P1'.
  (* the exponents are ordered *)
  assert (K1 : (e1 <= e1')%Z).
  { destruct (Z.eq_dec e1 (-1074)%Z) as [->|Hn]; [exact G'|].
    assert (Hmag : (mag <= mag')%Z) by (apply (mag_le mag mag' X X'); auto; apply Hlo; lia).
    unfold e1, e1'. rewrite !fexp64_eq. lia. }
  (* at equal exponents the rounded mantissas are ordered *)
  assert (K2 : e1 = e1' -> (m2 <= m2')%Z).
  { intros Heq. apply (round_nearest_even_mono m1 l1 (X / bpow e1) m1' l1' (X' / bpow e1'));
      [exact Hl1|exact Hl1'|].
    rewrite <- Heq. unfold Rdiv. apply Rmult_le_compat_r; [|exact HXX].
    apply Rlt_le, Rinv_0_lt_compat, P1. }
  (* at a larger exponent the mantissa is normal *)
  assert (K3 : (e1 < e1')%Z -> (2 ^ 52 <= m2')%Z).
  { intros Hlt. assert (Hn : (-1074 < e1')%Z) by lia. specialize (Hlo' Hn).
    assert (Hme : mag' = (53 + e1')%Z) by (unfold e1' in *; rewrite fexp64_eq in *; lia).
    rewrite Hme in Hlo'. replace (53 + e1' - 1)%Z with (52 + e1')%Z in Hlo' by lia.
    rewrite bpow_add in Hlo'.
    pose proof (inbetween_loc_bounds _ _ Hl1') as Bl.
    assert (bpow 52 <= X' / bpow e1').
    { apply Rmult_le_reg_r with (bpow e1'); [exact P1'|].
      unfold Rdiv. rewrite Rmult_assoc, Rinv_l by lra. lra. }
    assert (IZR (2 ^ 52) < IZR (m1' + 1))
      by (rewrite plus_IZR, <- bpow_IZR by lia; lra).
    apply lt_IZR in H0. lia. }
  assert (Hm2 : IZR m2 <= IZR (2 ^ 53)) by (apply IZR_le; lia).
  assert (Hm2' : 0 <= IZR m2') by (apply IZR_le; lia).
  assert (Hm2pos : 0 <= IZR m2) by (apply IZR_le; lia).
  (* the values before the overflow test are ordered *)
  assert (HV : IZR m2 * bpow e1 <= IZR m2' * bpow e1').
  { destruct (Z.eq_dec e1 e1') as [Heq|Hne].
    - rewrite <- Heq. apply Rmult_le_compat_r; [lra|]. apply IZR_le, K2, Heq.
    - assert (Hlt : (e1 < e1')%Z) by lia.
      assert (IZR (2 ^ 52) <= IZR m2') by (apply IZR_le, K3, Hlt).
      assert (bpow (e1 + 1) <= bpow e1') by (apply bpow_le; lia).
      rewrite bpow_succ in H0.
      replace (IZR (2 ^ 53)) with (2 * IZR (2 ^ 52)) in Hm2
        by (rewrite <- mult_IZR; reflexivity).
      assert (0 < IZR (2 ^ 52)) by (apply IZR_lt; lia).
      nra. }
  destruct (overflows m2 e1) eqn:O, (overflows m2' e1') eqn:O'.
  - lra.
  - exfalso. unfold overflows in O, O'.
    apply andb_true_iff in O as [Opos Oexp].
    apply Z.ltb_lt in Opos, Oexp.
    destruct (Z.eq_dec e1 e1') as [Heq|Hne].
    + specialize (K2 Heq).
      replace (0 <? m2')%Z with true in O' by (symmetry; apply Z.ltb_lt; lia).
      cbn [andb] in O'. apply Z.ltb_ge in O'.
      destruct (Z.eqb_spec m2 (2 ^ 53)%Z), (Z.eqb_spec m2' (2 ^ 53)%Z); lia.
    + specialize (K3 ltac:(lia)).
      replace (0 <? m2')%Z with true in O' by (symmetry; apply Z.ltb_lt; lia).
      cbn [andb] in O'. apply Z.ltb_ge in O'.
      destruct (Z.eqb_spec m2 (2 ^ 53)%Z), (Z.eqb_spec m2' (2 ^ 53)%Z); lia.
  - apply no_overflow_bound; [lia|exact O].
  - exact HV.
Qed.

(** ** The operations *)

Lemma Zdigits2_log2 m : (0 < m)%Z -> Zdigits2 m = (Z.log2 m + 1)%Z.
Proof.
  intros Hm. pose proof (Zdigits2_bounds m Hm) as [H1 H2].
  pose proof (Zdigits2_pos m Hm).
  symmetry. rewrite (Z.log2_unique m (Zdigits2 m - 1)); [lia|lia|].
  replace (Z.succ (Zdigits2 m - 1)) with (Zdigits2 m) by lia. lia.
Qed.

Lemma Zdigits2_mul_pow2 m k :
  (0 < m)%Z -> (0 <= k)%Z -> Zdigits2 (m * 2 ^ k) = (Zdigits2 m + k)%Z.
Proof.
  intros Hm Hk.
  assert (0 < 2 ^ k)%Z by (apply Z.pow_pos_nonneg; lia).
  rewrite !Zdigits2_log2 by nia.
  rewrite Z.log2_mul_pow2 by lia. lia.
Qed.

Lemma iter_xO mx d : Z.pos (Pos.iter xO mx d) = (Z.pos mx * 2 ^ Z.pos d)%Z.
Proof.
  induction d as [|d IH] using Pos.peano_ind.
  - cbn [Pos.iter]. change (2 ^ 1)%Z with 2%Z. lia.
  - rewrite Pos.iter_succ, Pos2Z.inj_succ, Z.pow_succ_r by lia.
    change (Z.pos (Pos.iter xO mx d)~0) with (2 * Z.pos (Pos.iter xO mx d))%Z.
    rewrite IH. ring.
Qed.

Lemma IZR_mul_pow2 m k e :
  (0 <= k)%Z -> IZR (m * 2 ^ k) * bpow (e - k) = IZR m * bpow e.
Proof.
  intros Hk. rewrite mult_IZR, <- bpow_IZR by exact Hk.
  replace e with ((e - k) + k)%Z at 2 by lia. rewrite bpow_add. ring.
Qed.

Lemma shl_align_spec mx ex ex' :
  let mz := fst (shl_align mx ex ex') in
  let ez := snd (shl_align mx ex ex') in
  ez = Z.min ex ex' /\
  IZR (Z.pos mz) * bpow ez = IZR (Z.pos mx) * bpow ex /\
  (Zdigits2 (Z.pos mz) + ez = Zdigits2 (Z.pos mx) + ex)%Z.
Proof.
  unfold shl_align. destruct (ex' - ex)%Z as [|p|p] eqn:E; cbn [fst snd].
  - repeat split; lia.
  - repeat split; lia.
  - rewrite iter_xO. replace ex' with (ex - Z.pos p)%Z by lia.
    split; [lia|]. split.
    + apply IZR_mul_pow2. lia.
    + rewrite Zdigits2_mul_pow2 by lia. lia.
Qed.

Lemma binary_round_mono mx ex mx' ex' :
  IZR (Z.pos mx) * bpow ex <= IZR (Z.pos mx') * bpow ex' ->
  nonneg (binary_round 53 1024 false mx ex) /\
  nonneg (binary_round 53 1024 false mx' ex') /\
  B2R (binary_round 53 1024 false mx ex) <= B2R (binary_round 53 1024 false mx' ex').
Proof.
  intros H. unfold binary_round.
  pose proof (shl_align_spec mx ex (fexp 53 1024 (Z.pos (digits2_pos mx) + ex))) as S.
  pose proof (shl_align_spec mx' ex' (fexp 53 1024 (Z.pos (digits2_pos mx') + ex'))) as S'.
  destruct (shl_align mx ex _) as [mz ez], (shl_align mx' ex' _) as [mz' ez'].
  cbn [fst snd] in S, S'. destruct S as (S1 & S2 & S3), S' as (S1' & S2' & S3').
  change (Z.pos (digits2_pos mx)) with (Zdigits2 (Z.pos mx)) in *.
  change (Z.pos (digits2_pos mx')) with (Zdigits2 (Z.pos mx')) in *.
  apply (round_mono (Z.pos mz) ez loc_Exact 0 (Z.pos mz') ez' loc_Exact 0).
  - split; [lia|split; [reflexivity|rewrite S3; lia]].
  - split; [lia|split; [reflexivity|rewrite S3'; lia]].
  - rewrite !Rplus_0_r, S2, S2'. exact H.
Qed.

(** Addition of two positive floats rounds their exact sum. *)
Lemma SFadd_finite mx ex my ey :
  exists mz ez,
    SFadd 53 1024 (S754_finite false mx ex) (S754_finite false my ey) =
    binary_round 53 1024 false mz ez /\
    IZR (Z.pos mz) * bpow ez = IZR (Z.pos mx) * bpow ex + IZR (Z.pos my) * bpow ey.
Proof.
  cbn [SFadd cond_Zopp].
  pose proof (shl_align_spec mx ex (Z.min ex ey)) as (S1 & S2 & _).
  pose proof (shl_align_spec my ey (Z.min ex ey)) as (T1 & T2 & _).
  destruct (shl_align mx ex (Z.min ex ey)) as [ax ez1].
  destruct (shl_align my ey (Z.min ex ey)) as [ay ez2].
  cbn [fst snd] in *.
  exists (ax + ay)%positive, (Z.min ex ey). split; [reflexivity|].
  rewrite Pos2Z.inj_add, plus_IZR, Rmult_plus_distr_r.
  rewrite S1 in S2. rewrite T1 in T2.
  replace (Z.min ex (Z.min ex ey)) with (Z.min ex ey) in S2 by lia.
  replace (Z.min ey (Z.min ex ey)) with (Z.min ex ey) in T2 by lia.
  rewrite S2, T2. reflexivity.
Qed.

Lemma SFadd_mono_r mx ex my ey my' ey' :
  IZR (Z.pos my) * bpow ey <= IZR (Z.pos my') * bpow ey' ->
  let a := S754_finite false mx ex in
  nonneg (SFadd 53 1024 a (S754_finite false my ey)) /\
  nonneg (SFadd 53 1024 a (S754_finite false my' ey')) /\
  B2R (SFadd 53 1024 a (S754_finite false my ey)) <=
  B2R (SFadd 53 1024 a (S754_finite false my' ey')).
Proof.
  intros H a. unfold a.
  destruct (SFadd_finite mx ex my ey) as (mz & ez & -> & V).
  destruct (SFadd_finite mx ex my' ey') as (mz' & ez' & -> & V').
  apply binary_round_mono. rewrite V, V'. lra.
Qed.

Lemma new_location_spec nb k :
  (0 <= k < nb)%Z -> inbetween_loc (IZR k / IZR nb) (new_location nb k).
Proof.
  intros [Hk Hnb].
  assert (Pn : 0 < IZR nb) by (apply IZR_lt; lia).
  assert (Pk : 0 <= IZR k) by (apply IZR_le; lia).
  assert (Hlt : forall a b : Z, (a < b)%Z -> IZR a / IZR nb < IZR b / IZR nb).
  { intros a b Hab. apply Rmult_lt_compat_r; [apply Rinv_0_lt_compat, Pn|apply IZR_lt, Hab]. }
  assert (Hone : IZR nb / IZR nb = 1) by (field; lra).
  assert (Hhalf : forall a : Z, IZR (2 * a) / IZR nb = 2 * (IZR a / IZR nb))
    by (intros a; rewrite mult_IZR; field; lra).
  unfold new_location.
  destruct (Z.even nb) eqn:Ev; unfold new_location_even, new_location_odd;
    (destruct (Z.eqb_spec k 0%Z) as [->|Hk0]; [cbn; unfold Rdiv; ring|]).
  - assert (0 < IZR k / IZR nb) by (apply Rdiv_lt_0_compat; [apply IZR_lt; lia|exact Pn]).
    pose proof (Hlt k nb Hnb) as Hk1. rewrite Hone in Hk1.
    destruct (Z.compare_spec (2 * k)%Z nb) as [E|L|G]; cbn [inbetween_loc].
    + assert (IZR k <> 0) by (apply not_0_IZR, Hk0).
      rewrite <- E, mult_IZR. field. exact H0.
    + apply Hlt in L. rewrite Hhalf, Hone in L. lra.
    + apply Hlt in G. rewrite Hhalf, Hone in G. lra.
  - assert (0 < IZR k / IZR nb) by (apply Rdiv_lt_0_compat; [apply IZR_lt; lia|exact Pn]).
    pose proof (Hlt k nb Hnb) as Hk1. rewrite Hone in Hk1.
    assert (Hodd : (2 * k <> nb)%Z).
    { intros E. rewrite <- E, Z.even_mul in Ev. discriminate. }
    destruct (Z.compare_spec (2 * k + 1)%Z nb) as [E|L|G]; cbn [inbetween_loc].
    + assert (L : (2 * k < nb)%Z) by lia.
      apply Hlt in L. rewrite Hhalf, Hone in L. lra.
    + assert (L' : (2 * k < nb)%Z) by lia.
      apply Hlt in L'. rewrite Hhalf, Hone in L'. lra.
    + assert (G' : (nb < 2 * k)%Z) by lia.
      apply Hlt in G'. rewrite Hhalf, Hone in G'. lra.
Qed.

(** Division of two positive floats rounds their exact quotient. *)
Lemma SFdiv_finite mx ex my ey :
  exists mz ez lz d,
    SFdiv 53 1024 (S754_finite false mx ex) (S754_finite false my ey) =
    binary_round_aux 53 1024 false mz ez lz /\
    valid_input mz ez lz d /\
    (IZR mz + d) * bpow ez = (IZR (Z.pos mx) * bpow ex) / (IZR (Z.pos my) * bpow ey).
Proof.
  cbn [SFdiv xorb]. unfold SFdiv_core_binary.
  set (d1 := Zdigits2 (Z.pos mx)). set (d2 := Zdigits2 (Z.pos my)).
  set (e' := Z.min (fexp 53 1024 (d1 + ex - (d2 + ey))) (ex - ey)).
  set (s := (ex - ey - e')%Z).
  assert (Hs : (0 <= s)%Z) by (unfold s, e'; lia).
  set (m' := match s with
             | 0%Z => Z.pos mx
             | Z.pos _ => Z.shiftl (Z.pos mx) s
             | Z.neg _ => 0%Z
             end).
  assert (Hm' : m' = (Z.pos mx * 2 ^ s)%Z).
  { unfold m'. destruct s as [|p|p] eqn:Es; [cbn; lia| |lia].
    apply Z.shiftl_mul_pow2. lia. }
  pose proof (Z_div_mod m' (Z.pos my) ltac:(lia)) as Hdiv.
  destruct (Z.div_eucl m' (Z.pos my)) as [q r]. destruct Hdiv as [Hqr Hr].
  assert (P2 : (0 < 2 ^ s)%Z) by (apply Z.pow_pos_nonneg; lia).
  assert (Hq : (0 <= q)%Z) by nia.
  exists q, e', (new_location (Z.pos my) r), (IZR r / IZR (Z.pos my)).
  split; [reflexivity|].
  assert (Py : 0 < IZR (Z.pos my)) by (apply IZR_lt; lia).
  pose proof (bpow_gt_0 ey) as Pey. pose proof (bpow_gt_0 e') as Pe'.
  split; [split; [exact Hq|split; [apply new_location_spec, Hr|]]|].
  - (* the quotient has enough digits for the location to be meaningful *)
    rewrite fexp64_eq.
    destruct (Z_le_gt_dec e' (-1074)%Z) as [Hle|Hgt]; [lia|].
    assert (He' : (e' <= d1 + ex - (d2 + ey) - 53)%Z)
      by (unfold e' in *; rewrite fexp64_eq in *; lia).
    pose proof (Zdigits2_bounds (Z.pos mx) ltac:(lia)) as [B1 _]. fold d1 in B1.
    pose proof (Zdigits2_bounds (Z.pos my) ltac:(lia)) as [_ B2]. fold d2 in B2.
    pose proof (Zdigits2_pos (Z.pos mx) ltac:(lia)) as D1. fold d1 in D1.
    pose proof (Zdigits2_pos (Z.pos my) ltac:(lia)) as D2. fold d2 in D2.
    assert (Hbig : (2 ^ 52 * Z.pos my <= m')%Z).
    { rewrite Hm'.
      assert (2 ^ (52 + d2) <= 2 ^ (d1 - 1 + s))%Z
        by (apply Z.pow_le_mono_r; unfold s; lia).
      rewrite !Z.pow_add_r in H by lia.
      assert (0 < 2 ^ 52)%Z by lia.
      assert (0 < 2 ^ (d1 - 1))%Z by (apply Z.pow_pos_nonneg; lia).
      nia. }
    assert (Hq52 : (2 ^ 52 <= q)%Z) by nia.
    pose proof (Zdigits2_bounds q ltac:(lia)) as [_ Bq].
    assert (Hdq : (52 < Zdigits2 q)%Z).
    { apply (Z.pow_lt_mono_r_iff 2); [lia| |lia].
      pose proof (Zdigits2_pos q ltac:(lia)). lia. }
    lia.
  - (* the value *)
    assert (Hval : IZR q + IZR r / IZR (Z.pos my) = IZR m' / IZR (Z.pos my)).
    { rewrite Hqr, plus_IZR, mult_IZR. field. lra. }
    rewrite Hval, Hm', mult_IZR, <- bpow_IZR by exact Hs.
    assert (Hex : bpow ex = bpow s * bpow ey * bpow e')
      by (rewrite <- !bpow_add; f_equal; unfold s; lia).
    rewrite Hex. field. lra.
Qed.

Lemma SFdiv_mono_l mx ex mx' ex' my ey :
  IZR (Z.pos mx) * bpow ex <= IZR (Z.pos mx') * bpow ex' ->
  let c := S754_finite false my ey in
  nonneg (SFdiv 53 1024 (S754_finite false mx ex) c) /\
  nonneg (SFdiv 53 1024 (S754_finite false mx' ex') c) /\
  B2R (SFdiv 53 1024 (S754_finite false mx ex) c) <=
  B2R (SFdiv 53 1024 (S754_finite false mx' ex') c).
Proof.
  intros H c. unfold c.
  destruct (SFdiv_finite mx ex my ey) as (mz & ez & lz & d & -> & V & X).
  destruct (SFdiv_finite mx' ex' my ey) as (mz' & ez' & lz' & d' & -> & V' & X').
  apply (round_mono mz ez lz d mz' ez' lz' d' V V').
  rewrite X, X'.
  assert (0 < IZR (Z.pos my) * bpow ey).
  { apply Rmult_lt_0_compat; [apply IZR_lt; lia|apply bpow_gt_0]. }
  unfold Rdiv. apply Rmult_le_compat_r; [|exact H].
  apply Rlt_le, Rinv_0_lt_compat, H0.
Qed.

Lemma float64_of_int_mono n n' :
  (0 < n <= n')%Z ->
  nonneg (float64_of_int n) /\ nonneg (float64_of_int n') /\
  B2R (float64_of_int n) <= B2R (float64_of_int n').
Proof.
  intros [Hn Hle]. unfold float64_of_int, prec64, emax64.
  destruct n as [|p|p]; try lia. destruct n' as [|p'|p']; try lia.
  cbn [binary_normalize]. apply binary_round_mono.
  rewrite bpow_0, !Rmult_1_r. apply IZR_le, Hle.
Qed.

(** A float of the non-negative class whose value is positive and below
    2^1024 is finite. *)
Lemma nonneg_finite f :
  nonneg f -> 0 < B2R f < bpow 1024 -> exists m e, f = S754_finite false m e.
Proof.
  destruct f as [[]|[]| |[] m e]; cbn [nonneg B2R]; intros N B; try contradiction;
    try lra; eauto.
Qed.

Lemma div_pow2_floor m k :
  (0 <= k)%Z ->
  (0 <= Z.pos m / 2 ^ k)%Z /\
  IZR (Z.pos m / 2 ^ k) <= IZR (Z.pos m) * / IZR (2 ^ k) < IZR (Z.pos m / 2 ^ k) + 1.
Proof.
  intros Hk.
  assert (P : (0 < 2 ^ k)%Z) by (apply Z.pow_pos_nonneg; lia).
  pose proof (Z_div_mod_eq_full (Z.pos m) (2 ^ k)) as Hd.
  pose proof (Z.mod_pos_bound (Z.pos m) (2 ^ k) P) as Hr.
  split; [apply Z.div_pos; lia|].
  assert (PR : 0 < IZR (2 ^ k)) by (apply IZR_lt, P).
  set (q := (Z.pos m / 2 ^ k)%Z) in *. set (r := (Z.pos m mod 2 ^ k)%Z) in *.
  assert (Hm : IZR (Z.pos m) = IZR (2 ^ k) * IZR q + IZR r)
    by (rewrite Hd at 1; rewrite plus_IZR, mult_IZR; reflexivity).
  assert (0 <= IZR r) by (apply IZR_le; lia).
  assert (IZR r < IZR (2 ^ k)) by (apply IZR_lt; lia).
  set (y := / IZR (2 ^ k)).
  assert (Hy : IZR (2 ^ k) * y = 1) by (unfold y; field; lra).
  assert (Py : 0 < y) by (apply Rinv_0_lt_compat, PR).
  assert (0 <= IZR r * y) by nra.
  assert (IZR r * y < 1) by nra.
  rewrite Hm.
  replace ((IZR (2 ^ k) * IZR q + IZR r) * y)
    with (IZR q * (IZR (2 ^ k) * y) + IZR r * y) by ring.
  rewrite Hy. lra.
Qed.

Lemma shiftl_floor m e :
  (0 <= Z.shiftl (Z.pos m) e)%Z /\
  IZR (Z.shiftl (Z.pos m) e) <= IZR (Z.pos m) * bpow e < IZR (Z.shiftl (Z.pos m) e) + 1.
Proof.
  destruct (Z_le_gt_dec 0%Z e) as [He|He].
  - rewrite Z.shiftl_mul_pow2 by exact He.
    assert (0 < 2 ^ e)%Z by (apply Z.pow_pos_nonneg; lia).
    split; [nia|]. rewrite mult_IZR, <- bpow_IZR by exact He. lra.
  - rewrite Z.shiftl_div_pow2 by lia.
    replace (bpow e) with (/ IZR (2 ^ (- e))).
    + apply div_pow2_floor. lia.
    + rewrite <- bpow_IZR by lia. unfold bpow. rewrite powerRZ_neg'.
      rewrite Rinv_inv. reflexivity.
Qed.

(** Truncation to an integer is monotone on positive finite floats. *)
Lemma int_of_float64_mono m e m' e' :
  IZR (Z.pos m) * bpow e <= IZR (Z.pos m') * bpow e' ->
  (Z.shiftl (Z.pos m') e' <= maxInt64)%Z ->
  (int_of_float64 (S754_finite false m e) <= int_of_float64 (S754_finite false m' e'))%Z.
Proof.
  intros H Hmax.
  destruct (shiftl_floor m e) as [P [L U]]. destruct (shiftl_floor m' e') as [P' [L' U']].
  assert (Hle : (Z.shiftl (Z.pos m) e <= Z.shiftl (Z.pos m') e')%Z).
  { assert (IZR (Z.shiftl (Z.pos m) e) < IZR (Z.shiftl (Z.pos m') e' + 1))
      by (rewrite plus_IZR; lra).
    apply lt_IZR in H0. lia. }
  cbn [int_of_float64].
  assert (Hmin : (minInt64 <= 0)%Z) by (unfold minInt64; lia).
  replace (minInt64 <=? Z.shiftl (Z.pos m) e)%Z with true by (symmetry; apply Z.leb_le; lia).
  replace (minInt64 <=? Z.shiftl (Z.pos m') e')%Z with true by (symmetry; apply Z.leb_le; lia).
  replace (Z.shiftl (Z.pos m) e <=? maxInt64)%Z with true by (symmetry; apply Z.leb_le; lia).
  replace (Z.shiftl (Z.pos m') e' <=? maxInt64)%Z with true by (symmetry; apply Z.leb_le; lia).
  exact Hle.
Qed.

End FloatFacts.

(** ** float64: the units of a duration *)

Section DurationFacts.

Local Open Scope R_scope.

Lemma B2R_finite m e : B2R (S754_finite false m e) = IZR (Z.pos m) * bpow e.
Proof. cbn [B2R]. ring. Qed.

Lemma pos_finite_spec f :
  pos_finite f = true ->
  exists m e, f = S754_finite false m e /\ 0 < B2R f < bpow 1024.
Proof.
  destruct f as [?|?| |[] m e]; cbn [pos_finite]; try discriminate.
  intros H. apply Z.leb_le in H. exists m, e. split; [reflexivity|].
  rewrite B2R_finite.
  pose proof (Zdigits2_bounds_R (Z.pos m) ltac:(lia)) as [_ Hm].
  pose proof (bpow_gt_0 e) as Pe.
  assert (0 < IZR (Z.pos m)) by (apply IZR_lt; lia).
  assert (bpow (Zdigits2 (Z.pos m) + e) <= bpow 1024) by (apply bpow_le, H).
  rewrite bpow_add in H1. nra.
Qed.

(** A float of the non-negative class between two positive finite
    floats is positive and finite. *)
Lemma squeeze lo x hi :
  nonneg x -> pos_finite lo = true -> pos_finite hi = true ->
  B2R lo <= B2R x <= B2R hi ->
  exists m e, x = S754_finite false m e.
Proof.
  intros N Hlo Hhi [H1 H2].
  destruct (pos_finite_spec lo Hlo) as (? & ? & _ & B).
  destruct (pos_finite_spec hi Hhi) as (? & ? & _ & B').
  apply nonneg_finite; [exact N|lra].
Qed.

Lemma shiftl_mono m e m' e' :
  IZR (Z.pos m) * bpow e <= IZR (Z.pos m') * bpow e' ->
  (Z.shiftl (Z.pos m) e <= Z.shiftl (Z.pos m') e')%Z.
Proof.
  intros H.
  destruct (shiftl_floor m e) as [P [L U]]. destruct (shiftl_floor m' e') as [P' [L' U']].
  assert (IZR (Z.shiftl (Z.pos m) e) < IZR (Z.shiftl (Z.pos m') e' + 1))
    by (rewrite plus_IZR; lra).
  apply lt_IZR in H0. lia.
Qed.

Lemma int_of_float64_finite m e :
  (Z.shiftl (Z.pos m) e <= maxInt64)%Z ->
  int_of_float64 (S754_finite false m e) = Z.shiftl (Z.pos m) e.
Proof.
  intros H. destruct (shiftl_floor m e) as [P _]. cbn [int_of_float64].
  assert (Hmin : (minInt64 <= 0)%Z) by (unfold minInt64; lia).
  replace (minInt64 <=? Z.shiftl (Z.pos m) e)%Z with true by (symmetry; apply Z.leb_le; lia).
  replace (Z.shiftl (Z.pos m) e <=? maxInt64)%Z with true by (symmetry; apply Z.leb_le; lia).
  reflexivity.
Qed.

Lemma int_of_float64_in_range m e v :
  int_of_float64 (S754_finite false m e) = v -> (0 <= v)%Z ->
  (Z.shiftl (Z.pos m) e <= maxInt64)%Z.
Proof.
  cbn [int_of_float64]. intros H Hv.
  destruct (Z.leb_spec (Z.shiftl (Z.pos m) e) maxInt64) as [L|L]; [exact L|].
  rewrite andb_false_r in H. unfold minInt64 in H. lia.
Qed.

(** Between two floats with the same integer part, the integer part is
    that one. *)
Lemma int_of_float64_between lo x hi v :
  pos_finite lo = true -> pos_finite hi = true ->
  (exists m e, x = S754_finite false m e) ->
  B2R lo <= B2R x <= B2R hi ->
  int_of_float64 lo = v -> int_of_float64 hi = v -> (0 <= v)%Z ->
  int_of_float64 x = v.
Proof.
  intros Hlo Hhi (m & e & ->) [H1 H2] Vlo Vhi Hv.
  destruct (pos_finite_spec lo Hlo) as (ml & el & -> & _).
  destruct (pos_finite_spec hi Hhi) as (mh & eh & -> & _).
  rewrite !B2R_finite in *.
  pose proof (int_of_float64_in_range mh eh v Vhi Hv) as Rh.
  pose proof (shiftl_mono _ _ _ _ H1) as M1. pose proof (shiftl_mono _ _ _ _ H2) as M2.
  rewrite int_of_float64_finite in * by lia. lia.
Qed.

(** The check of a tier at its end points settles every remainder in
    between. *)
Lemma tier_ok_sound days unit nmax expected count nsec :
  tier_ok days unit nmax expected count = true ->
  (0 <= nsec <= nmax)%Z ->
  printed days (unitsOf unit count nsec) = expected.
Proof.
  intros H Hn. unfold tier_ok in H. cbv zeta in H.
  apply andb_true_iff in H as [H Phi]. apply andb_true_iff in H as [H Plo].
  apply andb_true_iff in H as [H P0]. apply andb_true_iff in H as [H Cdays].
  apply andb_true_iff in H as [H Cfc]. apply andb_true_iff in H as [H Fhi].
  apply andb_true_iff in H as [H Flo]. apply andb_true_iff in H as [H Fqmax].
  apply andb_true_iff in H as [H Fq1]. apply andb_true_iff in H as [H Fnmax].
  apply andb_true_iff in H as [H F1]. apply andb_true_iff in H as [H Fu].
  apply andb_true_iff in H as [H Hcount]. apply andb_true_iff in H as [Hexp Hnmax].
  apply Z.eqb_eq in Phi, Plo, P0. apply Z.leb_le in Hexp, Hnmax, Hcount.
  destruct (Z.eq_dec nsec 0%Z) as [->|Hnz]; [exact P0|].
  (* the remainder *)
  destruct (float64_of_int_mono 1 nsec ltac:(lia)) as (_ & Nn & L1).
  destruct (float64_of_int_mono nsec nmax ltac:(lia)) as (_ & _ & L2).
  destruct (squeeze _ _ _ Nn F1 Fnmax (conj L1 L2)) as (mn & en & En).
  destruct (pos_finite_spec _ Fu) as (mu & eu & Eu & _).
  destruct (pos_finite_spec _ F1) as (m1 & e1 & E1 & _).
  destruct (pos_finite_spec _ Fnmax) as (mx & ex & Ex & _).
  (* its quotient by the unit *)
  assert (Q : exists mq eq,
             float64_div (float64_of_int nsec) (float64_of_int unit) = S754_finite false mq eq /\
             B2R (float64_div (float64_of_int 1) (float64_of_int unit)) <=
             B2R (float64_div (float64_of_int nsec) (float64_of_int unit)) <=
             B2R (float64_div (float64_of_int nmax) (float64_of_int unit))).
  { rewrite En, Eu, E1, Ex in *. rewrite !B2R_finite in L1, L2.
    destruct (SFdiv_mono_l m1 e1 mn en mu eu L1) as (_ & Nq & Q1).
    destruct (SFdiv_mono_l mn en mx ex mu eu L2) as (_ & _ & Q2).
    destruct (squeeze _ _ _ Nq Fq1 Fqmax (conj Q1 Q2)) as (mq & eq & Eq).
    exists mq, eq. split; [exact Eq|]. split; [exact Q1|exact Q2]. }
  destruct Q as (mq & eq & Eq & Q1 & Q2).
  destruct (pos_finite_spec _ Fq1) as (mq1 & eq1 & Eq1 & _).
  destruct (pos_finite_spec _ Fqmax) as (mqx & eqx & Eqx & _).
  (* the sum with the whole units *)
  assert (S : (exists m e, unitsOf unit count nsec = S754_finite false m e) /\
              B2R (unitsOf unit count 1) <= B2R (unitsOf unit count nsec)
                <= B2R (unitsOf unit count nmax)).
  { unfold unitsOf. rewrite Eq, Eq1, Eqx in *. rewrite !B2R_finite in Q1, Q2.
    destruct (float64_of_int count) as [[]|?| |[] mc ec]; try discriminate.
    - cbn [float64_add SFadd]. split; [eauto|]. rewrite !B2R_finite. lra.
    - destruct (SFadd_mono_r mc ec mq1 eq1 mq eq Q1) as (_ & Nx & S1).
      destruct (SFadd_mono_r mc ec mq eq mqx eqx Q2) as (_ & _ & S2).
      split; [|split; [exact S1|exact S2]].
      apply (squeeze _ _ _ Nx Flo Fhi (conj S1 S2)). }
  destruct S as [Fx Bx].
  change (float64_add (float64_of_int count)
            (float64_div (float64_of_int 1) (float64_of_int unit)))
    with (unitsOf unit count 1) in *.
  change (float64_add (float64_of_int count)
            (float64_div (float64_of_int nmax) (float64_of_int unit)))
    with (unitsOf unit count nmax) in *.
  unfold printed in *. destruct days.
  - (* days: one more division, by 24 *)
    apply andb_true_iff in Cdays as [Cdays Fyhi].
    apply andb_true_iff in Cdays as [F24 Fylo].
    destruct Fx as (m & e & Ex').
    destruct (pos_finite_spec _ F24) as (m24 & e24 & E24 & _).
    destruct (pos_finite_spec _ Flo) as (mlo & elo & Elo & _).
    destruct (pos_finite_spec _ Fhi) as (mhi & ehi & Ehi & _).
    destruct Bx as [B1 B2]. rewrite Ex', Elo, Ehi, E24 in *. rewrite !B2R_finite in B1, B2.
    destruct (SFdiv_mono_l mlo elo m e m24 e24 B1) as (_ & Ny & Y1).
    destruct (SFdiv_mono_l m e mhi ehi m24 e24 B2) as (_ & _ & Y2).
    apply (int_of_float64_between _ _ _ expected Fylo Fyhi); auto.
    apply (squeeze _ _ _ Ny Fylo Fyhi (conj Y1 Y2)).
  - apply (int_of_float64_between _ _ _ expected Flo Fhi); auto.
Qed.

End DurationFacts.

(** ** The age formatter *)

Lemma zrange_In lo n x :
  lo <= x < lo + Z.of_nat n -> In x (zrange lo n).
Proof.
  intros H. unfold zrange. apply in_map_iff. exists (Z.to_nat (x - lo)).
  split; [lia|]. apply in_seq. lia.
Qed.

Lemma wrap64_small z : minInt64 <= z <= maxInt64 -> wrap64 z = z.
Proof.
  unfold wrap64, minInt64, maxInt64. intros H.
  rewrite Z.mod_small by lia. lia.
Qed.

Lemma div64_nonneg d u :
  0 <= d <= maxInt64 -> 0 < u -> div64 d u = d / u /\ rem64 d u = d mod u.
Proof.
  intros Hd Hu. unfold div64, rem64.
  rewrite Z.quot_div_nonneg, Z.rem_mod_nonneg by lia.
  split; [|reflexivity]. apply wrap64_small.
  pose proof (Z.div_pos d u ltac:(lia) Hu).
  pose proof (Z.div_le_upper_bound d u d Hu ltac:(nia)).
  unfold minInt64, maxInt64 in *. lia.
Qed.

Lemma Duration_Seconds_units d :
  0 <= d <= maxInt64 -> Duration_Seconds d = unitsOf Second (d / Second) (d mod Second).
Proof.
  intros Hd. unfold Duration_Seconds.
  destruct (div64_nonneg d Second Hd ltac:(reflexivity)) as [-> ->]. reflexivity.
Qed.

Lemma Duration_Minutes_units d :
  0 <= d <= maxInt64 -> Duration_Minutes d = unitsOf Minute (d / Minute) (d mod Minute).
Proof.
  intros Hd. unfold Duration_Minutes.
  destruct (div64_nonneg d Minute Hd ltac:(reflexivity)) as [-> ->]. reflexivity.
Qed.

Lemma Duration_Hours_units d :
  0 <= d <= maxInt64 -> Duration_Hours d = unitsOf Hour (d / Hour) (d mod Hour).
Proof.
  intros Hd. unfold Duration_Hours.
  destruct (div64_nonneg d Hour Hd ltac:(reflexivity)) as [-> ->]. reflexivity.
Qed.

(** The checks of the four tiers of formatAge, by evaluation, for every
    count of whole units that a duration below 4104 hours less one
    nanosecond can have.  In the last hour before 4104 hours the largest
    remainder is one hour less two nanoseconds. *)
Lemma seconds_ok :
  forallb (fun c => tier_ok false Second (Second - 1) c c) (zrange 0 60) = true.
Proof. vm_compute. reflexivity. Qed.

Lemma minutes_ok :
  forallb (fun c => tier_ok false Minute (Minute - 1) c c) (zrange 0 60) = true.
Proof. vm_compute. reflexivity. Qed.

Lemma hours_ok :
  forallb (fun c => tier_ok false Hour (Hour - 1) c c) (zrange 0 24) = true.
Proof. vm_compute. reflexivity. Qed.

Lemma days_ok :
  forallb (fun c => tier_ok true Hour (Hour - 1) (c / 24) c) (zrange 24 4079) = true.
Proof. vm_compute. reflexivity. Qed.

Lemma last_hour_ok : tier_ok true Hour (Hour - 2) 170 4103 = true.
Proof. vm_compute. reflexivity. Qed.

Lemma forallb_zrange (f : Z -> bool) lo n x :
  forallb f (zrange lo n) = true -> lo <= x < lo + Z.of_nat n -> f x = true.
Proof.
  intros H Hx. rewrite forallb_forall in H. apply H, zrange_In, Hx.
Qed.

(** C8, as amended.  For every duration from zero up to, and not
    including, 4104 hours less one nanosecond, formatAge prints the
    truncated count of whole seconds below a minute, of whole minutes
    below an hour, of whole hours below 24 hours and of whole days from
    then on, each followed by the letter of its unit, although it
    computes the count in float64. *)
Theorem formatAge_truncates_below_171_days (d : Duration) :
  0 <= d < 4104 * Hour - 1 -> formatAge d = formatAge_spec d.
Proof.
  intros Hd. unfold formatAge, formatAge_spec.
  assert (Hmax : 0 <= d <= maxInt64) by (unfold maxInt64, Hour, Minute, Second in *; lia).
  assert (US : Second = 1000000000) by reflexivity.
  assert (UM : Minute = 60000000000) by reflexivity.
  assert (UH : Hour = 3600000000000) by reflexivity.
  destruct (Z.ltb_spec d Minute) as [H1|H1].
  - rewrite Duration_Seconds_units by exact Hmax. do 2 f_equal.
    apply (tier_ok_sound false Second (Second - 1)).
    + apply (forallb_zrange _ 0 60 _ seconds_ok).
      pose proof (Z.div_pos d Second). 
      assert (d / Second < 60) by (apply Z.div_lt_upper_bound; lia). lia.
    + pose proof (Z.mod_pos_bound d Second). lia.
  - destruct (Z.ltb_spec d Hour) as [H2|H2].
    + rewrite Duration_Minutes_units by exact Hmax. do 2 f_equal.
      apply (tier_ok_sound false Minute (Minute - 1)).
      * apply (forallb_zrange _ 0 60 _ minutes_ok).
        pose proof (Z.div_pos d Minute).
        assert (d / Minute < 60) by (apply Z.div_lt_upper_bound; lia). lia.
      * pose proof (Z.mod_pos_bound d Minute). lia.
    + destruct (Z.ltb_spec d (24 * Hour)) as [H3|H3].
      * rewrite Duration_Hours_units by exact Hmax. do 2 f_equal.
        apply (tier_ok_sound false Hour (Hour - 1)).
        -- apply (forallb_zrange _ 0 24 _ hours_ok).
           pose proof (Z.div_pos d Hour).
           assert (d / Hour < 24) by (apply Z.div_lt_upper_bound; lia). lia.
        -- pose proof (Z.mod_pos_bound d Hour). lia.
      * rewrite Duration_Hours_units by exact Hmax. do 2 f_equal.
        change (int_of_float64 (float64_div (unitsOf Hour (d / Hour) (d mod Hour))
                                            (float64_of_int 24)))
          with (printed true (unitsOf Hour (d / Hour) (d mod Hour))).
        replace (d / (24 * Hour)) with (d / Hour / 24)
          by (rewrite Z.div_div by lia; f_equal; lia).
        assert (24 <= d / Hour) by (apply Z.div_le_lower_bound; lia).
        assert (d / Hour <= 4103).
        { assert (d / Hour < 4104) by (apply Z.div_lt_upper_bound; lia). lia. }
        pose proof (Z.mod_pos_bound d Hour ltac:(lia)) as Hr.
        destruct (Z.eq_dec (d / Hour) 4103) as [E|E].
        -- rewrite E. change (4103 / 24) with 170.
           apply (tier_ok_sound true Hour (Hour - 2)); [exact last_hour_ok|].
           pose proof (Z_div_mod_eq_full d Hour) as Hdm. rewrite E in Hdm. lia.
        -- apply (tier_ok_sound true Hour (Hour - 1)).
           ++ apply (forallb_zrange _ 24 4079 _ days_ok). lia.
           ++ lia.
Qed.

Lemma formatAge_truncates_below_171_days_witness :
  0 <= 45 * Second < 4104 * Hour - 1 /\
  formatAge (45 * Second) = "45s" /\
  formatAge (90 * Second) = "1m" /\
  formatAge (3700 * Second) = "1h" /\
  formatAge (90000 * Second) = "1d".
Proof.
  split; [vm_compute; split; [discriminate|reflexivity]|].
  split; [rewrite (formatAge_truncates_below_171_days (45 * Second)); [reflexivity|]
         |split; [|split]];
    try (vm_compute; reflexivity).
  vm_compute. split; [discriminate|reflexivity].
Defined.

(** C8 at one nanosecond less than 4104 hours (171 days): the whole-day
    count is 170, and formatAge prints 171.  Hours() adds 4103 and a
    fraction that is less than one by 2.8e-13, and the float64 sum is
    4104. *)
Lemma formatAge_rounds_up_before_171_days :
  let d := 4104 * Hour - 1 in
  0 <= d /\ 24 * Hour <= d /\
  d / (24 * Hour) = 170 /\
  Duration_Hours d = float64_of_int 4104 /\
  formatAge d = "171d" /\
  formatAge d <> itoa (d / (24 * Hour)) +:+ "d".
Proof.
  cbv zeta. repeat split; try (vm_compute; congruence).
Qed.

(** ** What the status code leaves in a resource *)

Lemma parseStatusStep_fields r c :
  let r' := parseStatusStep r c in
  Type_ r' = Type_ r /\ Name r' = Name r /\ Namespace r' = Namespace r /\
  Age r' = Age r /\ LastUpdate r' = LastUpdate r /\ Suspended r' = Suspended r /\
  Source r' = Source r /\ Path r' = Path r /\ Revision r' = Revision r /\
  URL r' = URL r /\ Chart r' = Chart r /\ Version r' = Version r /\
  Conditions r' = (Conditions r ++ [copyCondition c])%list.
Proof.
  cbv zeta. unfold parseStatusStep.
  destruct (String.eqb (mc_Type c) "Ready"); repeat split.
Qed.

Lemma parseStatus_fields conditions r :
  let r' := parseStatus conditions r in
  Type_ r' = Type_ r /\ Name r' = Name r /\ Namespace r' = Namespace r /\
  Age r' = Age r /\ LastUpdate r' = LastUpdate r /\ Suspended r' = Suspended r /\
  Source r' = Source r /\ Path r' = Path r /\ Revision r' = Revision r /\
  URL r' = URL r /\ Chart r' = Chart r /\ Version r' = Version r /\
  Conditions r' = (Conditions r ++ map copyCondition conditions)%list.
Proof.
  cbv zeta. unfold parseStatus. revert r.
  induction conditions as [|c l IH]; intros r; cbn [fold_left map].
  - rewrite app_nil_r. repeat split.
  - destruct (IH (parseStatusStep r c)) as (H1 & H2 & H3 & H4 & H5 & H6 & H7 & H8 & H9 &
                                            H10 & H11 & H12 & H13).
    destruct (parseStatusStep_fields r c) as (G1 & G2 & G3 & G4 & G5 & G6 & G7 & G8 & G9 &
                                              G10 & G11 & G12 & G13).
    cbv zeta in *.
    rewrite H1, H2, H3, H4, H5, H6, H7, H8, H9, H10, H11, H12, H13, G13, <- app_assoc.
    repeat split; assumption.
Qed.

Lemma last_cons_cons {A} (a b : A) l : last (a :: b :: l) = last (b :: l).
Proof. reflexivity. Qed.

(** The status loop leaves the verdict, the reason and the message of the
    last condition of type "Ready" it met. *)
Lemma readiness_parseStatus conditions r :
  let r' := parseStatus conditions r in
  (Ready r', Status r', Message r') =
  match readyCondition conditions with
  | Some c => (String.eqb (mc_Status c) ConditionTrue, mc_Reason c, mc_Message c)
  | None => (Ready r, Status r, Message r)
  end.
Proof.
  cbv zeta. unfold parseStatus, readyCondition. revert r.
  induction conditions as [|c l IH]; intros r; cbn [fold_left List.filter].
  - reflexivity.
  - rewrite IH. unfold parseStatusStep. unfold isReadyCondition at 2.
    destruct (String.eqb (mc_Type c) "Ready").
    + destruct (List.filter isReadyCondition l) as [|c' l'] eqn:E; [reflexivity|].
      rewrite last_cons_cons.
      destruct (last (c' :: l')) eqn:E'; [reflexivity|].
      apply last_None in E'. discriminate.
    + reflexivity.
Qed.

Lemma parseStatusLast_fields conditions r :
  let r' := parseStatusLast conditions r in
  Type_ r' = Type_ r /\ Name r' = Name r /\ Namespace r' = Namespace r /\
  Age r' = Age r /\ LastUpdate r' = LastUpdate r /\ Suspended r' = Suspended r /\
  Source r' = Source r /\ Path r' = Path r /\ Revision r' = Revision r /\
  URL r' = URL r /\ Chart r' = Chart r /\ Version r' = Version r /\
  Conditions r' = (Conditions r ++ map copyCondition conditions)%list /\
  (Ready r', Status r', Message r') =
  match last conditions with
  | Some c => (String.eqb (mc_Status c) ConditionTrue, mc_Status c, mc_Message c)
  | None => (Ready r, Status r, Message r)
  end.
Proof.
  cbv zeta. unfold parseStatusLast.
  assert (K : forall r0,
    let r1 := fold_left (fun r cond => appendCondition (copyCondition cond) r) conditions r0 in
    Type_ r1 = Type_ r0 /\ Name r1 = Name r0 /\ Namespace r1 = Namespace r0 /\
    Age r1 = Age r0 /\ LastUpdate r1 = LastUpdate r0 /\ Suspended r1 = Suspended r0 /\
    Source r1 = Source r0 /\ Path r1 = Path r0 /\ Revision r1 = Revision r0 /\
    URL r1 = URL r0 /\ Chart r1 = Chart r0 /\ Version r1 = Version r0 /\
    Conditions r1 = (Conditions r0 ++ map copyCondition conditions)%list /\
    Ready r1 = Ready r0 /\ Status r1 = Status r0 /\ Message r1 = Message r0).
  { induction conditions as [|c l IH]; intros r0; cbn [fold_left map].
    - rewrite app_nil_r. repeat split.
    - destruct (IH (appendCondition (copyCondition c) r0))
        as (H1 & H2 & H3 & H4 & H5 & H6 & H7 & H8 & H9 & H10 & H11 & H12 & H13 & H14 & H15 & H16).
      cbv zeta in *.
      rewrite H1, H2, H3, H4, H5, H6, H7, H8, H9, H10, H11, H12, H13, H14, H15, H16.
      cbn [appendCondition Conditions]. rewrite <- app_assoc. repeat split. }
  destruct (K r) as (H1 & H2 & H3 & H4 & H5 & H6 & H7 & H8 & H9 & H10 & H11 & H12 & H13 &
                     H14 & H15 & H16).
  cbv zeta in *.
  destruct (last conditions) as [c|]; cbn [setReadiness Type_ Name Namespace Age LastUpdate
    Suspended Source Path Revision URL Chart Version Conditions Ready Status Message];
    rewrite ?H14, ?H15, ?H16; repeat split; assumption.
Qed.

(** ** The resources of a served list *)

Section FetchedResources.

Variable St : Type.
Variable now : St -> Time * St.

Lemma newResource_runs type meta suspend source path url chart version w :
  exists age lastUpdate w',
    newResource St now type meta suspend source path url chart version w =
    (Done {| Type_ := type; Name := om_Name meta; Namespace := om_Namespace meta;
             Ready := false; Status := ""; Message := "";
             Age := age; LastUpdate := lastUpdate; Conditions := [];
             Suspended := suspend; Source := source; Path := path; Revision := "";
             URL := url; Chart := chart; Version := version |}, w') /\
    w_calls St w' = w_calls St w.
Proof.
  unfold newResource, time_Since, time_Now, mbind, M_bind, mret, M_ret.
  destruct (now (w_state St w)) as [t1 s1]. cbn [w_state].
  destruct (now s1) as [t2 s2]. eexists _, _, _. split; reflexivity.
Qed.

Lemma forEach_Forall2 {A} (f : A -> M St Resource) (P : A -> Resource -> Prop) items :
  (forall a w, exists r w', f a w = (Done r, w') /\ w_calls St w' = w_calls St w /\ P a r) ->
  forall w, exists rs w',
    forEach St f items w = (Done rs, w') /\ w_calls St w' = w_calls St w /\
    Forall2 P items rs.
Proof.
  intros Hf. induction items as [|a items IH]; intros w; cbn [forEach].
  - exists [], w. repeat split. constructor.
  - destruct (Hf a w) as (r & w1 & E1 & C1 & P1).
    destruct (IH w1) as (rs & w2 & E2 & C2 & P2).
    exists (r :: rs), w2. unfold mbind, M_bind. rewrite E1, E2.
    repeat split; [congruence | constructor; assumption].
Qed.

Ltac run_newResource :=
  unfold mbind, M_bind;
  match goal with
  | |- context [newResource St now ?ty ?m ?su ?so ?p ?u ?c ?v ?w] =>
      let E := fresh "E" in
      let C := fresh "C" in
      destruct (newResource_runs ty m su so p u c v w) as (? & ? & ? & E & C);
      rewrite E; eexists _, _; split; [reflexivity|]; split; [exact C|]
  end.

Ltac use_parseStatus :=
  match goal with
  | |- context [parseStatus ?cs ?r0] =>
      destruct (parseStatus_fields cs r0)
        as (H1 & H2 & H3 & H4 & H5 & H6 & H7 & H8 & H9 & H10 & H11 & H12 & H13);
      pose proof (readiness_parseStatus cs r0) as H14
  end;
  cbv zeta in *.

Ltac read_fields :=
  cbn [setRevision setSource Type_ Name Namespace Age LastUpdate Suspended Source Path
       Revision URL Chart Version Conditions Ready Status Message app] in *.

Lemma gitRepositoryResource_fields repo w :
  exists r w',
    gitRepositoryResource St now repo w = (Done r, w') /\
    w_calls St w' = w_calls St w /\ ofGitRepository repo r.
Proof.
  unfold gitRepositoryResource. run_newResource. unfold ofGitRepository.
  use_parseStatus.
  destruct (gr_Status_Artifact repo) as [a|]; read_fields; repeat split; assumption.
Qed.

Lemma kustomizationResource_fields ks w :
  exists r w',
    kustomizationResource St now ks w = (Done r, w') /\
    w_calls St w' = w_calls St w /\ ofKustomization ks r.
Proof.
  unfold kustomizationResource. run_newResource. unfold ofKustomization.
  destruct (String.eqb (ks_Spec_SourceRef_Kind ks) "GitRepository");
    use_parseStatus;
    destruct (String.eqb_spec (ks_Status_LastAppliedRevision ks) "") as [E0|E0];
    cbn [negb]; read_fields; rewrite ?E0; repeat split; assumption.
Qed.

Lemma helmReleaseResource_fields hr chart w :
  hr_Spec_Chart hr = Some chart ->
  exists r w',
    helmReleaseResource St now hr w = (Done r, w') /\
    w_calls St w' = w_calls St w /\ ofHelmRelease hr r.
Proof.
  intros Hchart.
  unfold helmReleaseResource, time_Since, time_Now, deref, mbind, M_bind, mret, M_ret.
  rewrite Hchart.
  destruct (now (w_state St w)) as [t1 s1]. cbn [w_state].
  destruct (now s1) as [t2 s2].
  eexists _, _. split; [reflexivity|]. split; [reflexivity|].
  unfold ofHelmRelease. rewrite Hchart.
  destruct (String.eqb (hct_Spec_SourceRef_Kind chart) "HelmRepository") eqn:Ek;
    use_parseStatus;
    destruct (String.eqb_spec (hr_Status_LastAppliedRevision hr) "") as [E0|E0];
    cbn [negb]; read_fields; rewrite ?E0;
    repeat match goal with |- _ /\ _ => split end;
    try assumption; try reflexivity;
    exists chart; rewrite Ek; repeat split; assumption.
Qed.

(** A release without a chart template stops the conversion: the chart
    is read through the nil pointer. *)
Lemma helmReleaseResource_nil hr w :
  hr_Spec_Chart hr = None ->
  exists w',
    helmReleaseResource St now hr w = (Panicked nilDereference, w') /\
    w_calls St w' = w_calls St w.
Proof.
  intros Hchart.
  unfold helmReleaseResource, time_Since, time_Now, deref, mbind, M_bind, mret, M_ret, panic.
  rewrite Hchart.
  destruct (now (w_state St w)) as [t1 s1]. cbn [w_state].
  destruct (now s1) as [t2 s2].
  eexists. split; reflexivity.
Qed.

Lemma forEach_helmReleases items : forall w,
  exists out w',
    forEach St (helmReleaseResource St now) items w = (out, w') /\
    w_calls St w' = w_calls St w /\
    ((Forall (fun hr => hr_Spec_Chart hr <> None) items /\
      exists rs, out = Done rs /\ Forall2 ofHelmRelease items rs) \/
     (Exists (fun hr => hr_Spec_Chart hr = None) items /\
      out = Panicked nilDereference)).
Proof.
  induction items as [|hr items IH]; intros w; cbn [forEach].
  - exists (Done []), w. repeat split. left. split; [constructor|].
    exists []. split; [reflexivity|constructor].
  - unfold mbind, M_bind.
    destruct (hr_Spec_Chart hr) as [chart|] eqn:Hchart.
    + destruct (helmReleaseResource_fields hr chart w Hchart) as (r & w1 & E1 & C1 & P1).
      rewrite E1.
      destruct (IH w1) as (out & w2 & E2 & C2 & [[Hall (rs & -> & P2)]|[Hex ->]]);
        rewrite E2.
      * eexists _, _. split; [reflexivity|]. split; [congruence|]. left.
        split; [constructor; [congruence|exact Hall]|].
        eexists. split; [reflexivity|constructor; assumption].
      * eexists _, _. split; [reflexivity|]. split; [congruence|]. right.
        split; [apply Exists_cons_tl; exact Hex|reflexivity].
    + destruct (helmReleaseResource_nil hr w Hchart) as (w1 & E1 & C1).
      rewrite E1. eexists _, _. split; [reflexivity|]. split; [exact C1|]. right.
      split; [apply Exists_cons_hd; exact Hchart|reflexivity].
Qed.

Lemma ListHelmReleases_served (k : K8sClient St) ctx ns s calls items s1 :
  api_List k HelmRelease_v2beta1 ctx (listOptions ns) s = (Returns items, s1) ->
  exists out w,
    ListHelmReleases St now (Some (mkClient (Some k))) ctx ns (mkWorld St s calls) = (out, w) /\
    ((Forall (fun hr => hr_Spec_Chart hr <> None) items /\
      exists rs, out = Done (inl rs) /\ Forall2 ofHelmRelease items rs) \/
     (Exists (fun hr => hr_Spec_Chart hr = None) items /\
      out = Panicked nilDereference)).
Proof.
  intros Hlist. unfold ListHelmReleases, mbind, M_bind.
  rewrite safeList_valid, Hlist. cbn [listResult fst snd].
  match goal with
  | |- context [forEach St ?f items ?w] =>
      destruct (forEach_helmReleases items w)
        as (out & w' & E & C & [[Hall (rs & -> & P)]|[Hex ->]]); rewrite E
  end.
  - eexists _, _. split; [reflexivity|]. left. split; [exact Hall|]. eauto.
  - eexists _, _. split; [reflexivity|]. right. split; [exact Hex|reflexivity].
Qed.

Lemma helmRepositoryResource_fields repo w :
  exists r w',
    helmRepositoryResource St now repo w = (Done r, w') /\
    w_calls St w' = w_calls St w /\ ofHelmRepository repo r.
Proof.
  unfold helmRepositoryResource. run_newResource. unfold ofHelmRepository.
  match goal with
  | |- context [parseStatusLast ?cs ?r0] =>
      destruct (parseStatusLast_fields cs r0)
        as (H1 & H2 & H3 & H4 & H5 & H6 & H7 & H8 & H9 & H10 & H11 & H12 & H13 & H14)
  end.
  cbv zeta in *. read_fields. repeat split; assumption.
Qed.

Ltac run_items Hfields :=
  match goal with
  | |- context [forEach St ?f ?l ?w] =>
      let E := fresh "E" in
      let C := fresh "C" in
      let F := fresh "F" in
      destruct (forEach_Forall2 f _ l (Hfields) w) as (? & ? & E & C & F);
      rewrite E; eexists _, _; split; [reflexivity | exact F]
  end.


(** X2. When the list call succeeds, ListKustomizations returns one
    resource for each Kustomization of the list, in order.  The source
    is the name of the source reference only when its kind is
    "GitRepository", and empty for any other kind; the revision is the
    last applied revision; readiness, status and message come from the
    last condition of type "Ready". *)
Theorem ListKustomizations_converts_each_object (k : K8sClient St) ctx ns s calls
    items s1 :
  api_List k Kustomization_v1 ctx (listOptions ns) s = (Returns items, s1) ->
  exists rs w,
    ListKustomizations St now (Some (mkClient (Some k))) ctx ns (mkWorld St s calls)
    = (Done (inl rs), w) /\
    Forall2 ofKustomization items rs.
Proof.
  intros Hlist. unfold ListKustomizations, mbind, M_bind.
  rewrite safeList_valid, Hlist. cbn [listResult fst snd].
  run_items kustomizationResource_fields.
Qed.

(** X3. When the list call succeeds and every HelmRelease of the list
    has a chart template, ListHelmReleases returns one resource for each
    of them, in order, with the chart and its version; the source is the
    name of the chart's source reference only when its kind is
    "HelmRepository"; the revision is the last applied revision;
    readiness, status and message come from the last condition of type
    "Ready".  When a release of the list has no chart template (it was
    made from a chart reference), ListHelmReleases panics on the nil
    pointer: the conversion runs after safeList has returned, outside its
    recovery. *)
Theorem ListHelmReleases_converts_each_object (k : K8sClient St) ctx ns s calls
    items s1 :
  api_List k HelmRelease_v2beta1 ctx (listOptions ns) s = (Returns items, s1) ->
  (Forall (fun hr => hr_Spec_Chart hr <> None) items ->
   exists rs w,
     ListHelmReleases St now (Some (mkClient (Some k))) ctx ns (mkWorld St s calls)
     = (Done (inl rs), w) /\
     Forall2 ofHelmRelease items rs) /\
  (Exists (fun hr => hr_Spec_Chart hr = None) items ->
   exists w,
     ListHelmReleases St now (Some (mkClient (Some k))) ctx ns (mkWorld St s calls)
     = (Panicked nilDereference, w)).
Proof.
  intros Hlist.
  destruct (ListHelmReleases_served k ctx ns s calls items s1 Hlist)
    as (out & w & E & [[Hall (rs & -> & P)]|[Hex ->]]).
  - split; [eauto|].
    intros Hex. exfalso. apply Forall_Exists_neg in Hall. exact (Hall Hex).
  - split; [|eauto].
    intros Hall. exfalso. apply Forall_Exists_neg in Hall. exact (Hall Hex).
Qed.

(** X4. ListHelmRepositories returns one resource for each
    HelmRepository, in order, of the v1beta2 list when that call
    succeeds, and of the v1 list when the v1beta2 call failed as "kind
    not installed" and the v1 call succeeds; the objects of either
    version are converted alike.  The status is the status value of the
    last condition of the list (not its reason), the message is its
    message, and the revision stays empty. *)
Theorem ListHelmRepositories_converts_each_object (k : K8sClient St) ctx0 ns s calls
    items :
  let ctx := Some ctx0 in
  let opts := listOptions ns in
  let r1 := api_List k HelmRepository_v1beta2 ctx opts s in
  let r2 := api_List k HelmRepository_v1 ctx opts (snd r1) in
  fst r1 = Returns items \/
  (exists e1, listResult (fst r1) = inr e1 /\ isCRDMissing e1 = true /\
              fst r2 = Returns items) ->
  exists rs w,
    ListHelmRepositories St now (Some (mkClient (Some k))) ctx ns (mkWorld St s calls)
    = (Done (inl rs), w) /\
    Forall2 ofHelmRepository items rs.
Proof.
  cbv zeta. intros Hlist. unfold ListHelmRepositories. cbn [Client_Client].
  unfold mbind, M_bind. rewrite safeList_valid.
  destruct Hlist as [H1|(e1 & H1 & Hmiss & H2)].
  - rewrite H1. cbn [listResult].
    run_items helmRepositoryResource_fields.
  - rewrite H1, Hmiss. rewrite safeList_valid, H2. cbn [listResult].
    run_items helmRepositoryResource_fields.
Qed.

(** X5. ListGitRepositories, ListHelmRepositories and
    ListKustomizations never panic, whatever the client (a nil pointer, a
    nil embedded interface, or a client whose List panics), the context,
    the namespace and the cluster: each of them returns.
    ListHelmReleases returns or panics on a nil pointer, and it panics
    exactly when the list call succeeds with a HelmRelease that has no
    chart template. *)
Theorem fetchers_panic_only_without_chart (c : option (Client St)) ctx ns (w : World St) :
  (exists res w', ListGitRepositories St now c ctx ns w = (Done res, w')) /\
  (exists res w', ListHelmRepositories St now c ctx ns w = (Done res, w')) /\
  (exists res w', ListKustomizations St now c ctx ns w = (Done res, w')) /\
  (exists out w',
     ListHelmReleases St now c ctx ns w = (out, w') /\
     ((exists res, out = Done res) \/ out = Panicked nilDereference) /\
     (out = Panicked nilDereference <->
      exists k items,
        c = Some (mkClient (Some k)) /\
        fst (api_List k HelmRelease_v2beta1 ctx (listOptions ns) (w_state St w))
          = Returns items /\
        Exists (fun hr => hr_Spec_Chart hr = None) items)).
Proof.
  destruct w as [s calls]. destruct c as [[[k|]]|].
  - repeat apply conj.
    + destruct (ListGitRepositories_valid St now k ctx ns s calls) as (out & w & E & _ & H).
      destruct (listResult _) as [items|e]; [destruct H as [rs ->]|subst out]; eauto.
    + destruct ctx as [ctx0|]; [|eexists _, _; reflexivity].
      destruct (ListHelmRepositories_valid St now k ctx0 ns s calls) as (out & w & E & H).
      cbv zeta in H.
      destruct (listResult _) as [items|e1]; [destruct H as [_ [rs ->]]; eauto|].
      destruct (isCRDMissing e1); [|destruct H as [_ ->]; eauto].
      destruct H as [_ H].
      destruct (listResult _) as [items|e2]; [destruct H as [rs ->]|subst out]; eauto.
    + destruct (ListKustomizations_valid St now k ctx ns s calls) as (out & w & E & _ & H).
      destruct (listResult _) as [items|e]; [destruct H as [rs ->]|subst out]; eauto.
    + cbn [w_state].
      destruct (api_List k HelmRelease_v2beta1 ctx (listOptions ns) s) as [[items|e|r] s1] eqn:El.
      * destruct (ListHelmReleases_served k ctx ns s calls items s1 El)
          as (out & w & E & [[Hall (rs & -> & P)]|[Hex ->]]);
          eexists _, w; (split; [exact E|]).
        -- split; [left; eauto|]. split; [discriminate|].
           intros (k' & items' & Hc & Hl & Hex). exfalso.
           injection Hc as <-. rewrite El in Hl. cbn [fst] in Hl. injection Hl as <-.
           apply Forall_Exists_neg in Hall. exact (Hall Hex).
        -- split; [now right|]. split; [|reflexivity].
           intros _. exists k, items. rewrite El. repeat split. exact Hex.
      * destruct (ListHelmReleases_valid St now k ctx ns s calls) as (out & w & E & _ & H).
        rewrite El in H. cbn [listResult fst] in H. subst out.
        eexists _, w. split; [exact E|]. split; [left; eauto|]. split; [discriminate|].
        intros (k' & items' & Hc & Hl & _). injection Hc as <-.
        rewrite El in Hl. discriminate.
      * destruct (ListHelmReleases_valid St now k ctx ns s calls) as (out & w & E & _ & H).
        rewrite El in H. cbn [listResult fst] in H. subst out.
        eexists _, w. split; [exact E|]. split; [left; eauto|]. split; [discriminate|].
        intros (k' & items' & Hc & Hl & _). injection Hc as <-.
        rewrite El in Hl. discriminate.
  - repeat apply conj; try (eexists _, _; reflexivity).
    eexists _, _. split; [reflexivity|]. split; [left; eauto|]. split; [discriminate|].
    intros (k' & items' & Hc & _). discriminate.
  - repeat apply conj; try (eexists _, _; reflexivity).
    eexists _, _. split; [reflexivity|]. split; [left; eauto|]. split; [discriminate|].
    intros (k' & items' & Hc & _). discriminate.
Qed.

(** X6. The namespace of a fetch: the empty name and the name "<nil>"
    ask for every namespace, any other name for that namespace alone.
    Every list call of the four fetchers carries that option and no
    other; the fallback call of ListHelmRepositories carries the same. *)
Theorem fetch_namespace_scope (k : K8sClient St) ctx0 ns s calls :
  let c := Some (mkClient (Some k)) in
  let ctx := Some ctx0 in
  let w0 := mkWorld St s calls in
  let opts := if String.eqb ns "" || String.eqb ns "<nil>" then []
              else [InNamespace ns] in
  w_calls St (snd (ListGitRepositories St now c ctx ns w0))
    = (calls ++ [CallList GitRepository_v1 ctx opts])%list /\
  w_calls St (snd (ListKustomizations St now c ctx ns w0))
    = (calls ++ [CallList Kustomization_v1 ctx opts])%list /\
  w_calls St (snd (ListHelmReleases St now c ctx ns w0))
    = (calls ++ [CallList HelmRelease_v2beta1 ctx opts])%list /\
  (w_calls St (snd (ListHelmRepositories St now c ctx ns w0))
     = (calls ++ [CallList HelmRepository_v1beta2 ctx opts])%list \/
   w_calls St (snd (ListHelmRepositories St now c ctx ns w0))
     = (calls ++ [CallList HelmRepository_v1beta2 ctx opts;
                  CallList HelmRepository_v1 ctx opts])%list).
Proof.
  cbv zeta.
  assert (Hopts : listOptions ns =
                  if String.eqb ns "" || String.eqb ns "<nil>" then [] else [InNamespace ns]).
  { unfold listOptions, len.
    destruct (String.eqb_spec ns "") as [->|Hne]; [reflexivity|].
    destruct (String.eqb ns "<nil>"); cbn [negb orb andb]; [rewrite andb_false_r; reflexivity|].
    destruct ns; [congruence|reflexivity]. }
  rewrite <- Hopts. repeat split.
  - destruct (ListGitRepositories_valid St now k (Some ctx0) ns s calls) as (out & w & E & C & _).
    rewrite E. exact C.
  - destruct (ListKustomizations_valid St now k (Some ctx0) ns s calls) as (out & w & E & C & _).
    rewrite E. exact C.
  - destruct (ListHelmReleases_valid St now k (Some ctx0) ns s calls) as (out & w & E & C & _).
    rewrite E. exact C.
  - destruct (ListHelmRepositories_valid St now k ctx0 ns s calls) as (out & w & E & H).
    cbv zeta in H. rewrite E. cbn [snd].
    destruct (listResult _) as [items|e1]; [left; apply H|].
    destruct (isCRDMissing e1); [right|left]; apply H.
Qed.

(** X7. A resource type other than the four supported names is refused
    before anything is asked of the client: SuspendResource,
    ResumeResource and ReconcileResource return the error "unsupported
    resource type: <type>", issue no call, leave the cluster as it is,
    and do not panic even on a nil client. *)
Theorem unsupported_type_refused (c : option (Client St)) ctx rt name ns (w : World St) :
  rt <> "GitRepository" -> rt <> "HelmRepository" ->
  rt <> "Kustomization" -> rt <> "HelmRelease" ->
  let refused := (Done (Some (Errorf ("unsupported resource type: " +:+ rt))), w) in
  SuspendResource St c ctx rt name ns w = refused /\
  ResumeResource St c ctx rt name ns w = refused /\
  ReconcileResource St now c ctx rt name ns w = refused.
Proof.
  intros H1 H2 H3 H4.
  assert (Hnone : objectFor rt = None).
  { unfold objectFor, ResourceTypeGitRepository, ResourceTypeHelmRepository,
      ResourceTypeKustomization, ResourceTypeHelmRelease.
    destruct (String.eqb_spec rt "GitRepository"); [contradiction|].
    destruct (String.eqb_spec rt "HelmRepository"); [contradiction|].
    destruct (String.eqb_spec rt "Kustomization"); [contradiction|].
    destruct (String.eqb_spec rt "HelmRelease"); [contradiction|reflexivity]. }
  cbv zeta. unfold SuspendResource, ResumeResource, updateSuspendStatus, ReconcileResource.
  rewrite Hnone. repeat split.
Qed.

End FetchedResources.


Lemma ListKustomizations_converts_each_object_witness :
  api_List fakeClient Kustomization_v1 (Some Background) (listOptions "flux-system")
    servingCluster = (Returns [sampleKustomization], servingCluster) /\
  exists rs w,
    ListKustomizations Fake fake_now sampleClient (Some Background) "flux-system"
      (startWorld servingCluster) = (Done (inl rs), w) /\
    Forall2 ofKustomization [sampleKustomization] rs.
Proof.
  split; [reflexivity|].
  apply (ListKustomizations_converts_each_object Fake fake_now fakeClient (Some Background)
           "flux-system" servingCluster [] [sampleKustomization] servingCluster).
  reflexivity.
Defined.

Lemma ListHelmReleases_converts_each_object_witness :
  (api_List fakeClient HelmRelease_v2beta1 (Some Background) (listOptions "")
     servingCluster = (Returns [sampleHelmRelease], servingCluster) /\
   exists rs w,
     ListHelmReleases Fake fake_now sampleClient (Some Background) ""
       (startWorld servingCluster) = (Done (inl rs), w) /\
     Forall2 ofHelmRelease [sampleHelmRelease] rs) /\
  (api_List fakeClient HelmRelease_v2beta1 (Some Background) (listOptions "")
     chartRefCluster = (Returns [sampleHelmRelease; chartRefRelease], chartRefCluster) /\
   exists w,
     ListHelmReleases Fake fake_now sampleClient (Some Background) ""
       (startWorld chartRefCluster) = (Panicked nilDereference, w)).
Proof.
  split; (split; [reflexivity|]).
  - apply (ListHelmReleases_converts_each_object Fake fake_now fakeClient (Some Background)
             "" servingCluster [] [sampleHelmRelease] servingCluster eq_refl).
    repeat constructor. discriminate.
  - apply (ListHelmReleases_converts_each_object Fake fake_now fakeClient (Some Background)
             "" chartRefCluster [] [sampleHelmRelease; chartRefRelease] chartRefCluster
             eq_refl).
    apply Exists_cons_tl, Exists_cons_hd. reflexivity.
Defined.

Lemma ListHelmRepositories_converts_each_object_witness :
  fst (api_List fakeClient HelmRepository_v1beta2 (Some Background) (listOptions "")
         sampleCluster) = Returns [failingHelmRepository] /\
  exists rs w,
    ListHelmRepositories Fake fake_now sampleClient (Some Background) ""
      (startWorld sampleCluster) = (Done (inl rs), w) /\
    Forall2 ofHelmRepository [failingHelmRepository] rs.
Proof.
  split; [reflexivity|].
  apply (ListHelmRepositories_converts_each_object Fake fake_now fakeClient Background
           "" sampleCluster [] [failingHelmRepository]).
  left. reflexivity.
Defined.

Lemma unsupported_type_refused_witness :
  let w := startWorld sampleCluster in
  "Bucket" <> "GitRepository" /\
  SuspendResource Fake None (Some Background) "Bucket" "artifacts" "flux-system" w
  = (Done (Some (Errorf "unsupported resource type: Bucket")), w).
Proof.
  cbv zeta. split; [discriminate|].
  apply (unsupported_type_refused Fake fake_now None (Some Background) "Bucket"
           "artifacts" "flux-system" (startWorld sampleCluster)); discriminate.
Defined.

(** ** Events *)

Lemma filterStep_filter cutoff items acc :
  fold_left (filterStep cutoff) items acc =
  (acc ++ List.filter (recentFluxEvent cutoff) items)%list.
Proof.
  revert acc. induction items as [|e items IH]; intros acc; cbn [fold_left List.filter].
  - rewrite app_nil_r. reflexivity.
  - rewrite IH. unfold filterStep, recentFluxEvent, Time_Before.
    destruct (Z.ltb_spec (ev_FirstTimestamp e) cutoff) as [H1|H1];
      destruct (Z.ltb_spec (ev_LastTimestamp e) cutoff) as [H2|H2];
      destruct (Z.leb_spec cutoff (ev_FirstTimestamp e)) as [H3|H3];
      destruct (Z.leb_spec cutoff (ev_LastTimestamp e)) as [H4|H4];
      try lia; cbn [andb orb];
      destruct (isFluxAPIVersion (ev_InvolvedObject_APIVersion e)); cbn [andb];
      rewrite <- ?app_assoc; reflexivity.
Qed.

Section EventFacts.

Variable St : Type.
Variable now : St -> Time * St.

(** X8. GetEvents reads the clock, then lists the events of the
    namespace, and returns, in the order of the list, exactly the events
    that are about an object of one of the five Flux API versions and
    whose first or last timestamp is not earlier than one hour before
    that clock reading; an event seen exactly one hour before is kept.
    It issues no call on the controller-runtime client. *)
Theorem GetEvents_keeps_recent_flux_events (cs : CoreV1Client St) ctx ns s calls items s2 :
  let t := fst (now s) in
  let s1 := snd (now s) in
  events_List cs ns ctx s1 = (Returns items, s2) ->
  GetEvents St now (Some cs) ctx ns (mkWorld St s calls) =
  (Done (inl (List.filter (recentFluxEvent (t - 3600000000000)) items)),
   mkWorld St s2 calls).
Proof.
  cbv zeta. intros Hlist.
  unfold GetEvents, mbind, M_bind, time_Now, Events_List, mret, M_ret. cbn [w_state w_calls].
  destruct (now s) as [t s1]. cbn [fst snd w_state w_calls] in *. rewrite Hlist.
  rewrite filterStep_filter. reflexivity.
Qed.

(** X9. GetEvents passes every failure of the list call on: an error
    comes back wrapped as "failed to list events: ...", also when it is a
    not-found error or says that the kind is not installed (the fetchers
    turn those into an empty list), and a panic of the call is not
    recovered. *)
Theorem GetEvents_passes_failures_on (cs : CoreV1Client St) ctx ns s calls :
  let s1 := snd (now s) in
  let w0 := mkWorld St s calls in
  (forall e s2, events_List cs ns ctx s1 = (Fails e, s2) ->
     exists err,
       GetEvents St now (Some cs) ctx ns w0 = (Done (inr err), mkWorld St s2 calls) /\
       Unwrap err = Some e /\ Error err = "failed to list events: " +:+ Error e) /\
  (forall r s2, events_List cs ns ctx s1 = (Panics r, s2) ->
     GetEvents St now (Some cs) ctx ns w0 = (Panicked r, mkWorld St s2 calls)).
Proof.
  cbv zeta.
  unfold GetEvents, mbind, M_bind, time_Now, Events_List, mret, M_ret. cbn [w_state w_calls].
  destruct (now s) as [t s1]. cbn [fst snd w_state w_calls] in *.
  split; intros x s2 Hlist; rewrite Hlist; [|reflexivity].
  eexists. split; [reflexivity|]. split; reflexivity.
Qed.

End EventFacts.

Lemma GetEvents_keeps_recent_flux_events_witness :
  events_List sampleCoreV1 "flux-system" (Some Background) (snd (fake_now sampleCluster))
    = (Returns sampleEvents, snd (fake_now sampleCluster)) /\
  fst (GetEvents Fake fake_now (Some sampleCoreV1) (Some Background) "flux-system"
         (startWorld sampleCluster))
    = Done (inl [ eventAbout "apps.1" "kustomize.toolkit.fluxcd.io/v1" "Kustomization"
                    1699999400000000000 1699999400000000000;
                  eventAbout "fleet.1" "source.toolkit.fluxcd.io/v1" "GitRepository"
                    1699913600000000000 1699999940000000000 ]).
Proof.
  split; [reflexivity|]. unfold startWorld.
  rewrite (GetEvents_keeps_recent_flux_events Fake fake_now sampleCoreV1 (Some Background)
             "flux-system" sampleCluster [] sampleEvents (snd (fake_now sampleCluster)));
    reflexivity.
Defined.

(** ** From the cluster to the table *)

Lemma readyCondition_absent conditions :
  Forall (fun c => mc_Type c <> "Ready") conditions -> readyCondition conditions = None.
Proof.
  intros H. unfold readyCondition. rewrite filter_ready_none; [reflexivity|].
  intros x Hx. rewrite Forall_forall in H. specialize (H x (proj2 (list_elem_of_In _ _) Hx)).
  unfold isReadyCondition. apply String.eqb_neq. exact H.
Qed.

Lemma row_of_unreported (v : ResourceView) (r : Resource) :
  (Ready r, Status r, Message r) = (false, "", "") ->
  createTableRow v r !! 1%nat = Some "False" /\
  createTableRow v r !! 2%nat = Some (if Suspended r then "Suspended" else "Unknown") /\
  createTableRow v r !! 4%nat = Some "".
Proof.
  intros H. injection H as Hr Hs Hm.
  unfold createTableRow, statusCell. rewrite Hr, Hs, Hm.
  destruct (String.eqb (resourceType v) ResourceTypeGitRepository);
    destruct (String.eqb (resourceType v) ResourceTypeHelmRepository);
    destruct (String.eqb (resourceType v) ResourceTypeKustomization);
    destruct (String.eqb (resourceType v) ResourceTypeHelmRelease);
    destruct (Suspended r); repeat split.
Qed.

Lemma append_empty_r (s : string) : s +:+ "" = s.
Proof. induction s as [|a s IH]; [reflexivity|]. rewrite append_cons, IH. reflexivity. Qed.

Section FetchedRows.

Variable St : Type.
Variable now : St -> Time * St.

(** X10. An object on which no controller has reported readiness yet
    (no condition of type "Ready"; for a HelmRepository, no condition at
    all) is shown, whatever the view, as not ready ("False"), with the
    status "Unknown", or "Suspended" when it is suspended, and an empty
    message.  For a HelmRelease this is so when it has a chart template;
    one without is not converted at all. *)
Theorem unreported_object_shown_as_Unknown (v : ResourceView) (w : World St) :
  (forall repo, Forall (fun c => mc_Type c <> "Ready") (gr_Status_Conditions repo) ->
     exists r w', gitRepositoryResource St now repo w = (Done r, w') /\
       createTableRow v r !! 1%nat = Some "False" /\
       createTableRow v r !! 2%nat =
         Some (if gr_Spec_Suspend repo then "Suspended" else "Unknown") /\
       createTableRow v r !! 4%nat = Some "") /\
  (forall ks, Forall (fun c => mc_Type c <> "Ready") (ks_Status_Conditions ks) ->
     exists r w', kustomizationResource St now ks w = (Done r, w') /\
       createTableRow v r !! 1%nat = Some "False" /\
       createTableRow v r !! 2%nat =
         Some (if ks_Spec_Suspend ks then "Suspended" else "Unknown") /\
       createTableRow v r !! 4%nat = Some "") /\
  (forall hr, hr_Spec_Chart hr <> None ->
     Forall (fun c => mc_Type c <> "Ready") (hr_Status_Conditions hr) ->
     exists r w', helmReleaseResource St now hr w = (Done r, w') /\
       createTableRow v r !! 1%nat = Some "False" /\
       createTableRow v r !! 2%nat =
         Some (if hr_Spec_Suspend hr then "Suspended" else "Unknown") /\
       createTableRow v r !! 4%nat = Some "") /\
  (forall repo, hrepo_Status_Conditions repo = [] ->
     exists r w', helmRepositoryResource St now repo w = (Done r, w') /\
       createTableRow v r !! 1%nat = Some "False" /\
       createTableRow v r !! 2%nat =
         Some (if hrepo_Spec_Suspend repo then "Suspended" else "Unknown") /\
       createTableRow v r !! 4%nat = Some "").
Proof.
  repeat split.
  - intros repo Hc.
    destruct (gitRepositoryResource_fields St now repo w) as (r & w' & E & _ & F).
    exists r, w'. split; [exact E|].
    destruct F as (_ & _ & _ & <- & _ & _ & _ & _ & _ & _ & _ & F).
    rewrite (readyCondition_absent _ Hc) in F. apply row_of_unreported, F.
  - intros ks Hc.
    destruct (kustomizationResource_fields St now ks w) as (r & w' & E & _ & F).
    exists r, w'. split; [exact E|].
    destruct F as (_ & _ & _ & <- & _ & _ & _ & _ & _ & _ & _ & F).
    rewrite (readyCondition_absent _ Hc) in F. apply row_of_unreported, F.
  - intros hr Hchart Hc.
    destruct (hr_Spec_Chart hr) as [chart|] eqn:Echart; [|congruence].
    destruct (helmReleaseResource_fields St now hr chart w Echart) as (r & w' & E & _ & F).
    exists r, w'. split; [exact E|].
    destruct F as (_ & _ & _ & <- & _ & _ & _ & _ & _ & F).
    rewrite (readyCondition_absent _ Hc) in F. apply row_of_unreported, F.
  - intros repo Hc.
    destruct (helmRepositoryResource_fields St now repo w) as (r & w' & E & _ & F).
    exists r, w'. split; [exact E|].
    destruct F as (_ & _ & _ & <- & _ & _ & _ & _ & _ & _ & _ & F).
    rewrite Hc in F. apply row_of_unreported, F.
Qed.

(** X11. In a view of Kustomizations, the last cell of the row of a
    fetched Kustomization is the name of its source, only when the
    source is a GitRepository, followed by a slash and the path, only
    when the path is not empty: a Kustomization fed from a source of
    another kind shows no source name. *)
Theorem Kustomization_source_cell (v : ResourceView) (ks : Kustomization) (w : World St) :
  resourceType v = "Kustomization" ->
  exists r w',
    kustomizationResource St now ks w = (Done r, w') /\
    createTableRow v r !! 5%nat =
      Some ((if String.eqb (ks_Spec_SourceRef_Kind ks) "GitRepository"
             then ks_Spec_SourceRef_Name ks else "")
            +:+ (if String.eqb (ks_Spec_Path ks) "" then ""
                 else "/" +:+ ks_Spec_Path ks)).
Proof.
  intros Hty.
  destruct (kustomizationResource_fields St now ks w) as (r & w' & E & _ & F).
  exists r, w'. split; [exact E|].
  destruct F as (_ & _ & _ & _ & Hp & Hs & _).
  unfold createTableRow. rewrite Hty, Hp, Hs.
  change (String.eqb "Kustomization" ResourceTypeGitRepository) with false.
  change (String.eqb "Kustomization" ResourceTypeHelmRepository) with false.
  change (String.eqb "Kustomization" ResourceTypeKustomization) with true.
  cbn [orb]. destruct (String.eqb (ks_Spec_Path ks) ""); cbn [negb];
    [rewrite append_empty_r|]; reflexivity.
Qed.

End FetchedRows.

Lemma Kustomization_source_cell_witness :
  exists v,
    SetResourceType "Kustomization" (NewResourceView (mkConfig 30 15 true)) = Done v /\
    resourceType v = "Kustomization" /\
    exists r w',
      kustomizationResource Fake fake_now sampleKustomization (startWorld servingCluster)
        = (Done r, w') /\
      createTableRow v r !! 5%nat = Some "flux-system/./apps/production".
Proof.
  eexists. split; [reflexivity|]. split; [reflexivity|].
  match goal with
  | |- exists r w', _ /\ createTableRow ?v r !! _ = _ =>
      destruct (Kustomization_source_cell Fake fake_now v
                  sampleKustomization (startWorld servingCluster) eq_refl)
        as (r & w' & E & H)
  end.
  exists r, w'. split; [exact E|exact H].
Defined.

(** ** The view and its setters *)

Lemma flex_keeps_columns (w : Z) (cols : list Column) :
  (if w >? 0 then
     let '(totalFixedWidth, flexColumns) := fold_left countColumn cols (0, 0) in
     if flexColumns >? 0 then
       if div64 (sub64 (sub64 w totalFixedWidth) 10) flexColumns >? 20
       then fold_left (flexStep (div64 (sub64 (sub64 w totalFixedWidth) 10) flexColumns))
              cols cols
       else cols
     else cols
   else cols) = cols.
Proof.
  destruct (w >? 0); [|reflexivity].
  destruct (fold_left countColumn cols (0, 0)) as [t f].
  destruct (f >? 0); [|reflexivity].
  destruct (_ >? 20); [|reflexivity].
  apply flexStep_keeps_slice.
Qed.

(** updateTableColumns hands to the table the five columns of every
    type and, for the four known types, a sixth. *)
Lemma columnsFor_columns cfg rt w :
  columnsFor cfg rt w =
  ([ mkColumn "Name" (UI_ColumnsName cfg); mkColumn "Ready" 8;
     mkColumn "Status" (UI_ColumnsStatus cfg); mkColumn "Age" 10;
     mkColumn "Message" 35 ] ++
   (if String.eqb rt "GitRepository" then [mkColumn "URL" 40]
    else if String.eqb rt "HelmRepository" then [mkColumn "URL" 40]
    else if String.eqb rt "Kustomization" then [mkColumn "Source/Path" 30]
    else if String.eqb rt "HelmRelease" then [mkColumn "Chart" 25]
    else []))%list.
Proof.
  unfold columnsFor, updateTableColumns, table_SetColumns, table_UpdateViewport.
  cbn [config resourceType width table tbl_rows tbl_cursor tbl_height forallb andThen
       withTable tbl_columns].
  cbv zeta. rewrite flex_keeps_columns.
  unfold ResourceTypeGitRepository, ResourceTypeHelmRepository, ResourceTypeKustomization,
    ResourceTypeHelmRelease.
  destruct (String.eqb rt "GitRepository"); [reflexivity|].
  destruct (String.eqb rt "HelmRepository"); [reflexivity|].
  destruct (String.eqb rt "Kustomization"); [reflexivity|].
  destruct (String.eqb rt "HelmRelease"); reflexivity.
Qed.

Lemma updateTableColumns_columns (v : ResourceView) :
  updateTableColumns v =
  andThen (table_SetColumns (columnsFor (config v) (resourceType v) (width v)) (table v))
          (fun t => Done (withTable t v)).
Proof. reflexivity. Qed.

Lemma length_columnsFor cfg rt w :
  length (columnsFor cfg rt w) = if knownType rt then 6%nat else 5%nat.
Proof.
  rewrite columnsFor_columns. unfold knownType.
  destruct (String.eqb rt "GitRepository"); [reflexivity|].
  destruct (String.eqb rt "HelmRepository"); [reflexivity|].
  destruct (String.eqb rt "Kustomization"); [reflexivity|].
  destruct (String.eqb rt "HelmRelease"); reflexivity.
Qed.

Lemma length_createTableRow (v : ResourceView) (r : Resource) :
  length (createTableRow v r) = if knownType (resourceType v) then 6%nat else 5%nat.
Proof.
  unfold createTableRow, knownType, ResourceTypeGitRepository, ResourceTypeHelmRepository,
    ResourceTypeKustomization, ResourceTypeHelmRelease.
  destruct (String.eqb (resourceType v) "GitRepository"); [reflexivity|].
  destruct (String.eqb (resourceType v) "HelmRepository"); [reflexivity|].
  destruct (String.eqb (resourceType v) "Kustomization"); [reflexivity|].
  destruct (String.eqb (resourceType v) "HelmRelease"); reflexivity.
Qed.

(** A row depends on the configuration and on the resource type of the
    view only. *)
Lemma createTableRow_ext (v v' : ResourceView) (r : Resource) :
  config v' = config v -> resourceType v' = resourceType v ->
  createTableRow v' r = createTableRow v r.
Proof. intros Hc Ht. unfold createTableRow. rewrite Hc, Ht. reflexivity. Qed.

(** The rows built for a type fit the columns of that type, and those of
    any of the four known types. *)
Lemma built_rows_fit cfg w (v : ResourceView) rt rs :
  knownType rt = true \/ rt = resourceType v ->
  forallb (fits (columnsFor cfg rt w)) (map (createTableRow v) rs) = true.
Proof.
  intros Hrt. apply forallb_forall. intros row Hin.
  apply in_map_iff in Hin as (r & <- & _).
  unfold fits. apply Nat.leb_le. rewrite length_columnsFor, length_createTableRow.
  destruct Hrt as [-> | ->]; [destruct (knownType (resourceType v)); lia|lia].
Qed.

Lemma rowsInStep_fit_held (v : ResourceView) :
  rowsInStep v -> forallb (fits (tbl_columns (table v))) (tbl_rows (table v)) = true.
Proof.
  intros [Hrows Hcells]. apply forallb_forall. intros row Hin.
  unfold fits. apply Nat.leb_le. rewrite Forall_forall in Hcells.
  rewrite (Hcells row (proj2 (list_elem_of_In _ _) Hin)). lia.
Qed.

Lemma rowsInStep_fit (v : ResourceView) rt w :
  rowsInStep v -> knownType rt = true \/ rt = resourceType v ->
  forallb (fits (columnsFor (config v) rt w)) (tbl_rows (table v)) = true.
Proof.
  intros [Hrows Hcells] Hrt. rewrite Hrows. apply built_rows_fit. exact Hrt.
Qed.

(** What each setter returns when the rows that the table holds fit the
    columns it is given. *)
Lemma SetResources_runs (v : ResourceView) rs :
  forallb (fits (columnsFor (config v) (resourceType v) (width v))) (tbl_rows (table v))
    = true ->
  SetResources rs v =
  Done (mkResourceView (config v)
          (mkTable (columnsFor (config v) (resourceType v) (width v))
                   (map (createTableRow v) rs) (tbl_cursor (table v)) (tbl_height (table v)))
          rs (resourceType v) (width v) (height v)).
Proof.
  intros Hfit. unfold SetResources. rewrite updateTableColumns_columns.
  cbn [config resourceType width table].
  unfold table_SetColumns, table_UpdateViewport. cbn [tbl_columns tbl_rows].
  rewrite Hfit. cbn [andThen].
  unfold updateTable, table_SetRows, table_UpdateViewport, withTable.
  cbn [config resourceType width height table resources tbl_columns tbl_rows tbl_cursor
       tbl_height].
  rewrite (map_ext _ (createTableRow v)) by (intros r; apply createTableRow_ext; reflexivity).
  rewrite built_rows_fit by (right; reflexivity). reflexivity.
Qed.

Lemma SetResourceType_runs (v : ResourceView) rt :
  forallb (fits (columnsFor (config v) rt (width v))) (tbl_rows (table v)) = true ->
  let v1 := mkResourceView (config v) (table v) (resources v) rt (width v) (height v) in
  SetResourceType rt v =
  Done (mkResourceView (config v)
          (mkTable (columnsFor (config v) rt (width v))
                   (map (createTableRow v1) (resources v))
                   (tbl_cursor (table v)) (tbl_height (table v)))
          (resources v) rt (width v) (height v)).
Proof.
  intros Hfit v1. unfold SetResourceType. rewrite updateTableColumns_columns.
  cbn [config resourceType width table].
  unfold table_SetColumns, table_UpdateViewport. cbn [tbl_columns tbl_rows].
  rewrite Hfit. cbn [andThen].
  unfold updateTable, table_SetRows, table_UpdateViewport, withTable.
  cbn [config resourceType width height table resources tbl_columns tbl_rows tbl_cursor
       tbl_height].
  rewrite (map_ext _ (createTableRow v1)) by (intros r; apply createTableRow_ext; reflexivity).
  rewrite built_rows_fit by (right; reflexivity). reflexivity.
Qed.

Lemma SetSize_runs (v : ResourceView) w h :
  forallb (fits (tbl_columns (table v))) (tbl_rows (table v)) = true ->
  forallb (fits (columnsFor (config v) (resourceType v) w)) (tbl_rows (table v)) = true ->
  SetSize w h v =
  Done (mkResourceView (config v)
          (mkTable (columnsFor (config v) (resourceType v) w) (tbl_rows (table v))
                   (tbl_cursor (table v)) (sub64 h 2))
          (resources v) (resourceType v) w h).
Proof.
  intros Hnow Hfit. unfold SetSize, table_SetHeight, table_UpdateViewport.
  cbn [tbl_columns tbl_rows table]. rewrite Hnow. cbn [andThen].
  rewrite updateTableColumns_columns. unfold withTable.
  cbn [config resourceType width height table resources].
  unfold table_SetColumns, table_UpdateViewport. cbn [tbl_columns tbl_rows tbl_cursor tbl_height].
  rewrite Hfit. reflexivity.
Qed.

(** Each setter keeps the rows in step, when it keeps to the known types. *)
Lemma applyOp_rowsInStep (v : ResourceView) (op : ViewOp) :
  rowsInStep v -> knownType (resourceType v) = true -> knownOp op = true ->
  exists v', applyOp v op = Done v' /\ rowsInStep v' /\ knownType (resourceType v') = true.
Proof.
  intros Hv Hk Hop. destruct op as [rs|rt|w h]; cbn [applyOp knownOp] in *.
  - pose proof (rowsInStep_fit v (resourceType v) (width v) Hv (or_intror eq_refl)) as Hfit.
    rewrite (SetResources_runs v rs Hfit). eexists. split; [reflexivity|].
    split; [|exact Hk]. split.
    + cbn [table tbl_rows resources]. apply map_ext. intros r.
      symmetry. apply createTableRow_ext; reflexivity.
    + cbn [table tbl_rows tbl_columns]. apply Forall_forall. intros row Hin.
      apply list_elem_of_In, in_map_iff in Hin as (r & <- & _).
      rewrite length_columnsFor, length_createTableRow. reflexivity.
  - pose proof (rowsInStep_fit v rt (width v) Hv (or_introl Hop)) as Hfit.
    rewrite (SetResourceType_runs v rt Hfit). eexists. split; [reflexivity|].
    split; [|exact Hop]. split.
    + cbn [table tbl_rows resources]. apply map_ext. intros r.
      apply createTableRow_ext; reflexivity.
    + cbn [table tbl_rows tbl_columns]. apply Forall_forall. intros row Hin.
      apply list_elem_of_In, in_map_iff in Hin as (r & <- & _).
      rewrite length_columnsFor, length_createTableRow. reflexivity.
  - pose proof (rowsInStep_fit_held v Hv) as Hnow.
    pose proof (rowsInStep_fit v (resourceType v) w Hv (or_intror eq_refl)) as Hfit.
    rewrite (SetSize_runs v w h Hnow Hfit). eexists. split; [reflexivity|].
    split; [|exact Hk]. destruct Hv as [Hrows Hcells]. split.
    + cbn [table tbl_rows resources]. rewrite Hrows. apply map_ext. intros r.
      symmetry. apply createTableRow_ext; reflexivity.
    + cbn [table tbl_rows tbl_columns]. rewrite Hrows. apply Forall_forall. intros row Hin.
      apply list_elem_of_In, in_map_iff in Hin as (r & <- & _).
      rewrite length_columnsFor, length_createTableRow. reflexivity.
Qed.

Lemma runOps_rowsInStep (ops : list ViewOp) : forall v,
  rowsInStep v -> knownType (resourceType v) = true -> forallb knownOp ops = true ->
  exists v', runOps ops v = Done v' /\ rowsInStep v' /\ knownType (resourceType v') = true.
Proof.
  unfold runOps.
  induction ops as [|op ops IH]; intros v Hv Hk Hops; cbn [fold_left forallb] in *.
  - exists v. auto.
  - apply andb_true_iff in Hops as [Hop Hops].
    destruct (applyOp_rowsInStep v op Hv Hk Hop) as (v1 & E & Hv1 & Hk1).
    cbn [andThen]. rewrite E. apply IH; assumption.
Qed.

(** X12. From a new view, every sequence of SetResources,
    SetResourceType and SetSize that keeps to the four known resource
    types returns, and in the view it leaves the table holds one row for
    each resource of the view, in order, built for the resource type of
    the view, every row with exactly as many cells as the table has
    columns. *)
Theorem view_rows_in_step (cfg : Config) (ops : list ViewOp) :
  forallb knownOp ops = true ->
  exists v, runOps ops (NewResourceView cfg) = Done v /\ rowsInStep v.
Proof.
  intros Hops.
  destruct (runOps_rowsInStep ops (NewResourceView cfg)) as (v & E & Hv & _);
    [split; [reflexivity|constructor] | reflexivity | exact Hops | eauto].
Qed.

Lemma view_rows_in_step_witness :
  exists v,
    runOps [ OpSetResources [sampleResource]; OpSetSize 120 40;
             OpSetResourceType "Kustomization"; OpSetResources [accentedResource] ]
      (NewResourceView (mkConfig 30 15 true)) = Done v /\
    rowsInStep v /\
    tbl_rows (table v) =
      [ ["flux-system/apps"; "False"; "äbcdefgh…"; "1d"; ""; "GitRepository/flux-system/./apps"] ].
Proof.
  destruct (view_rows_in_step (mkConfig 30 15 true)
              [ OpSetResources [sampleResource]; OpSetSize 120 40;
                OpSetResourceType "Kustomization"; OpSetResources [accentedResource] ]
              eq_refl) as (v & E & Hv).
  exists v. split; [exact E|]. split; [exact Hv|].
  vm_compute in E. injection E as <-. reflexivity.
Defined.

(** Outside the four types the setters are not safe: on a view that
    shows a resource, SetResourceType with any other type panics.  The
    table gets five columns while it still holds the row of six cells
    built for the former type, and the widget renders its rows as soon as
    it is given columns. *)
Lemma SetResourceType_unknown_panics (cfg : Config) (r : Resource) :
  runOps [OpSetResources [r]; OpSetResourceType "Bucket"] (NewResourceView cfg)
  = Panicked indexOutOfRange.
Proof.
  unfold runOps. cbn [fold_left andThen applyOp].
  rewrite SetResources_runs by reflexivity. cbn [andThen].
  unfold SetResourceType. rewrite updateTableColumns_columns.
  unfold table_SetColumns, table_UpdateViewport.
  cbn [config resourceType width table tbl_columns tbl_rows map forallb].
  unfold fits. rewrite length_columnsFor, length_createTableRow. reflexivity.
Qed.

Ltac rows_fit v Hv :=
  cbn [config resourceType width height table resources tbl_columns tbl_rows tbl_cursor
       tbl_height];
  first
    [ apply built_rows_fit; first [right; reflexivity | left; assumption]
    | apply (rowsInStep_fit_held v Hv)
    | apply (rowsInStep_fit v _ _ Hv); first [right; reflexivity | left; assumption]
    | apply forallb_forall; intros ? ?Hin; apply in_map_iff in Hin as (? & <- & _);
      unfold fits; apply Nat.leb_le; rewrite length_columnsFor, length_createTableRow;
      cbn [resourceType];
      repeat match goal with
             | H : knownType _ = true |- _ => rewrite H
             end;
      repeat match goal with
             | |- context [knownType ?rt] => destruct (knownType rt)
             end; lia ].

Ltac run_setter v Hv :=
  first
    [ rewrite SetResources_runs by rows_fit v Hv
    | rewrite SetResourceType_runs by rows_fit v Hv
    | rewrite SetSize_runs by rows_fit v Hv ];
  cbn [andThen config resourceType width height table resources tbl_columns tbl_rows
       tbl_cursor tbl_height].

(** X13. On a view whose rows are in step, and between the four known
    resource types, what is displayed after a sequence of setters is
    settled by the last call of each setter: none of the calls panics, a
    later SetResources, SetResourceType or SetSize overrides an earlier
    call of the same setter, and calls of different setters may be
    exchanged.  No stale row or column survives. *)
Theorem setters_compose v rs rs' rt rt' w h w' h' :
  rowsInStep v -> knownType rt = true -> knownType rt' = true ->
  let same (o o' : outcome ResourceView) :=
    exists d, displayed o = Some d /\ displayed o' = Some d in
  same (andThen (SetResources rs v) (SetResources rs')) (SetResources rs' v) /\
  same (andThen (SetResourceType rt v) (SetResourceType rt')) (SetResourceType rt' v) /\
  same (andThen (SetSize w h v) (SetSize w' h')) (SetSize w' h' v) /\
  same (andThen (SetResourceType rt v) (SetResources rs))
       (andThen (SetResources rs v) (SetResourceType rt)) /\
  same (andThen (SetResources rs v) (SetSize w h))
       (andThen (SetSize w h v) (SetResources rs)) /\
  same (andThen (SetResourceType rt v) (SetSize w h))
       (andThen (SetSize w h v) (SetResourceType rt)).
Proof.
  intros Hv Hrt Hrt'. cbv zeta.
  repeat apply conj; repeat run_setter v Hv;
    eexists; (split; [reflexivity|]); reflexivity.
Qed.

Lemma setters_compose_witness :
  rowsInStep sampleView /\
  displayed (andThen (SetResourceType "HelmRelease" sampleView) (SetSize 120 40)) =
  displayed (andThen (SetSize 120 40 sampleView) (SetResourceType "HelmRelease")) /\
  match andThen (SetResourceType "HelmRelease" sampleView) (SetSize 120 40) with
  | Done v =>
      map Title (tbl_columns (table v)) = ["Name"; "Ready"; "Status"; "Age"; "Message"; "Chart"] /\
      tbl_rows (table v) =
        [ ["flux-system/fleet"; "True"; "Succeeded"; "1d"; "stored artifact"; ""] ]
  | Panicked _ => False
  end.
Proof.
  assert (Hv : rowsInStep sampleView) by (split; [reflexivity|repeat constructor]).
  split; [exact Hv|].
  destruct (setters_compose sampleView [] [] "HelmRelease" "HelmRelease" 120 40 120 40
              Hv eq_refl eq_refl) as (_ & _ & _ & _ & _ & d & H1 & H2).
  split; [rewrite H1, H2; reflexivity|].
  vm_compute. split; reflexivity.
Defined.

Lemma length_slice_to (s : string) (n : nat) :
  (n <= String.length s)%nat -> String.length (slice_to s n) = n.
Proof.
  unfold slice_to. revert s. induction n as [|n IH]; intros s H.
  - destruct s; reflexivity.
  - destruct s as [|a s]; cbn [String.length] in H; [lia|].
    cbn [String.substring String.length]. rewrite IH by lia. reflexivity.
Qed.

Lemma length_app (s t : string) :
  String.length (s +:+ t) = (String.length s + String.length t)%nat.
Proof.
  induction s as [|a s IH]; [reflexivity|].
  rewrite append_cons. cbn [String.length]. rewrite IH. reflexivity.
Qed.

(** X14. The truncated cells fit: the status cell of a row never has
    more than 12 bytes and the message cell never more than 35.  A
    message of at most 35 bytes is shown whole; a longer one is cut to
    its first 32 bytes followed by the three bytes of the ellipsis, 35
    bytes in all. *)
Theorem truncated_cells_fit (v : ResourceView) (r : Resource) :
  (String.length (statusCell r) <= 12)%nat /\
  exists message,
    createTableRow v r !! 4%nat = Some message /\
    (String.length message <= 35)%nat /\
    ((String.length (Message r) <= 35)%nat -> message = Message r) /\
    ((35 < String.length (Message r))%nat ->
     message = String.substring 0 32 (Message r) +:+ ellipsis /\
     String.length message = 35%nat).
Proof.
  split.
  - unfold statusCell, len.
    generalize (if Suspended r then "Suspended"
                else if String.eqb (Status r) "" then "Unknown" else Status r).
    intros label.
    destruct (Z.gtb_spec (Z.of_nat (String.length label)) 12) as [H|H]; [|lia].
    rewrite length_app, length_slice_to by lia. cbn. lia.
  - exists (if len (Message r) >? 35 then slice_to (Message r) 32 +:+ ellipsis
            else Message r).
    split.
    + unfold createTableRow.
      destruct (String.eqb (resourceType v) ResourceTypeGitRepository);
        destruct (String.eqb (resourceType v) ResourceTypeHelmRepository);
        destruct (String.eqb (resourceType v) ResourceTypeKustomization);
        destruct (String.eqb (resourceType v) ResourceTypeHelmRelease); reflexivity.
    + unfold len.
      destruct (Z.gtb_spec (Z.of_nat (String.length (Message r))) 35) as [H|H].
      * rewrite length_app, length_slice_to by lia. cbn. repeat split; try lia.
      * repeat split; try lia.
Qed.

(** ** Key handling *)

Section KeyFacts.

Variable Cmd : Type.
Variable table_Update : Msg -> table_Model -> table_Model * option Cmd.
Variable table_GotoTop : table_Model -> table_Model.
Variable table_GotoBottom : table_Model -> table_Model.
Variable KeyMsg_String : KeyMsg -> string.

Ltac run_Update :=
  unfold Update, forward, gotoTop, gotoBottom, gotoMiddle;
  repeat match goal with
         | |- context [match key_Type ?k with _ => _ end] => destruct (key_Type k)
         | |- context [let '(_, _) := ?p in _] => destruct p
         | |- context [if ?b then _ else _] => destruct b
         end.

(** X15. Whatever the message, and whatever the table widget does with
    it, Update changes nothing of the view but its table: the resources,
    the resource type, the configuration and the size stay.  With no
    resource to show, the keys that jump to the top, the middle or the
    bottom (Home, End, g, G, H, M, L) leave the whole view as it is and
    return no command. *)
Theorem Update_changes_only_the_table (msg : Msg) (v : ResourceView) :
  let update := Update Cmd table_Update table_GotoTop table_GotoBottom KeyMsg_String in
  let v' := fst (update msg v) in
  (config v' = config v /\ resources v' = resources v /\
   resourceType v' = resourceType v /\ width v' = width v /\ height v' = height v) /\
  (resources v = [] ->
   forall k, msg = MsgKey k ->
     key_Type k = KeyHome \/ key_Type k = KeyEnd \/
     ((key_Type k = KeyRunes \/ exists code, key_Type k = KeyOther code) /\
      In (KeyMsg_String k) ["g"; "G"; "H"; "M"; "L"]) ->
     update msg v = (v, None)).
Proof.
  cbv zeta. split.
  - destruct msg as [k|]; [|repeat split]. run_Update; repeat split.
  - intros Hnil k -> Hkey.
    unfold Update, gotoTop, gotoBottom, gotoMiddle. rewrite Hnil.
    cbn [length Z.of_nat Z.ltb Z.compare].
    destruct Hkey as [->|[->|[Hty Hs]]]; try reflexivity.
    destruct Hty as [Hty|[code Hty]]; rewrite Hty;
      cbn [In] in Hs; destruct Hs as [<-|[<-|[<-|[<-|[<-|[]]]]]]; reflexivity.
Qed.

(** X16. The letter keys are other names of the navigation keys: on a
    key that is not one of the named key types, j, k, ctrl+d and ctrl+u
    do what Down, Up, PgDown and PgUp do, g and H do what Home does, and
    G and L what End does. *)
Theorem letter_keys_are_aliases (k : KeyMsg) (v : ResourceView) :
  key_Type k = KeyRunes \/ (exists code, key_Type k = KeyOther code) ->
  let update := Update Cmd table_Update table_GotoTop table_GotoBottom KeyMsg_String in
  let alias (name : string) (t : KeyType) :=
    KeyMsg_String k = name -> update (MsgKey k) v = update (keyOfType t) v in
  alias "j" KeyDown /\ alias "k" KeyUp /\
  alias "ctrl+d" KeyPgDown /\ alias "ctrl+u" KeyPgUp /\
  alias "g" KeyHome /\ alias "H" KeyHome /\
  alias "G" KeyEnd /\ alias "L" KeyEnd.
Proof.
  intros Hty. cbv zeta. unfold Update, keyOfType. cbn [key_Type].
  destruct Hty as [Hty|[code Hty]]; rewrite Hty;
    repeat split; intros ->; reflexivity.
Qed.

End KeyFacts.

Lemma letter_keys_are_aliases_witness :
  let update := Update unit sampleTableUpdate (sampleGoto 0) (sampleGoto 1) key_Runes in
  let j := mkKeyMsg KeyRunes "j" false false in
  key_Type j = KeyRunes /\
  update (MsgKey j) sampleView = update (keyOfType KeyDown) sampleView /\
  tbl_cursor (table (fst (update (MsgKey j) sampleView))) = 1.
Proof.
  cbv zeta. split; [reflexivity|]. split; [|reflexivity].
  destruct (letter_keys_are_aliases unit sampleTableUpdate (sampleGoto 0) (sampleGoto 1)
              key_Runes (mkKeyMsg KeyRunes "j" false false) sampleView
              (or_introl eq_refl)) as [Hj _].
  apply Hj. reflexivity.
Defined.

(** ** The age formatter, over every non-negative duration *)

Section ExactFloats.

Local Open Scope R_scope.

Lemma inbetween_loc_integer (z : Z) l : inbetween_loc (IZR z) l -> z = 0%Z /\ l = loc_Exact.
Proof.
  destruct l as [|[]]; cbn [inbetween_loc]; intros H.
  - split; [apply eq_IZR; exact H|reflexivity].
  - exfalso. assert (H0 : 0 < IZR z) by lra. assert (H1 : IZR z < 1) by lra.
    apply lt_IZR in H0, H1. lia.
  - exfalso. assert (H0 : 0 < IZR z) by lra. assert (H1 : IZR z < 1) by lra.
    apply lt_IZR in H0, H1. lia.
  - exfalso. assert (H0 : 0 < IZR z) by lra. assert (H1 : IZR z < 1) by lra.
    apply lt_IZR in H0, H1. lia.
Qed.

(** [binary_round] is [binary_round_aux] on an aligned mantissa. *)
Lemma binary_round_as_aux mx ex :
  exists mz ez,
    binary_round 53 1024 false mx ex = binary_round_aux 53 1024 false (Z.pos mz) ez loc_Exact /\
    valid_input (Z.pos mz) ez loc_Exact 0 /\
    IZR (Z.pos mz) * bpow ez = IZR (Z.pos mx) * bpow ex /\
    ez = Z.min ex (fexp 53 1024 (Zdigits2 (Z.pos mx) + ex)) /\
    (Zdigits2 (Z.pos mz) + ez = Zdigits2 (Z.pos mx) + ex)%Z.
Proof.
  unfold binary_round.
  pose proof (shl_align_spec mx ex (fexp 53 1024 (Z.pos (digits2_pos mx) + ex))) as S.
  destruct (shl_align mx ex _) as [mz ez].
  cbn [fst snd] in S. destruct S as (S1 & S2 & S3).
  change (Z.pos (digits2_pos mx)) with (Zdigits2 (Z.pos mx)) in *.
  exists mz, ez. split; [reflexivity|].
  split; [split; [lia|split; [reflexivity|rewrite S3; lia]]|].
  split; [exact S2|]. split; [exact S1|exact S3].
Qed.

(** The conversion of an integer below 2^53 is exact. *)
Lemma float64_of_int_exact n :
  (0 < n < 2 ^ 53)%Z ->
  nonneg (float64_of_int n) /\ B2R (float64_of_int n) = IZR n.
Proof.
  intros [Hpos Hlt]. destruct n as [|p|p]; try lia.
  unfold float64_of_int, prec64, emax64. cbn [binary_normalize].
  destruct (binary_round_as_aux p 0) as (mz & ez & -> & V & Hval & Hez & Hdig).
  pose proof (Zdigits2_le_53 (Z.pos p) ltac:(lia)) as Hd.
  pose proof (Zdigits2_pos (Z.pos p) ltac:(lia)) as Hd0.
  rewrite fexp64_eq in Hez.
  destruct (round_facts _ _ _ _ V) as (m1 & l1 & E & Hm1 & Hl1 & _ & _).
  cbv zeta in *. rewrite Hdig in *. rewrite fexp64_eq in *.
  assert (Hfe : Z.max (Zdigits2 (Z.pos p) + 0 - 53) (-1074) = ez) by lia.
  rewrite Hfe in E, Hl1.
  pose proof (bpow_gt_0 ez) as Pe.
  replace ((IZR (Z.pos mz) + 0) * bpow ez / bpow ez - IZR m1)
    with (IZR (Z.pos mz - m1)) in Hl1 by (rewrite minus_IZR; field; lra).
  apply inbetween_loc_integer in Hl1 as [Hm Hl]. subst l1.
  assert (m1 = Z.pos mz) by lia. subst m1.
  cbn [round_nearest_even] in E. rewrite E.
  destruct (finish64_spec (Z.pos mz) ez ltac:(lia) ltac:(lia)) as [N F].
  split; [exact N|]. rewrite F.
  replace (overflows (Z.pos mz) ez) with false.
  - rewrite Hval, bpow_0. ring.
  - unfold overflows. symmetry. apply andb_false_iff. right.
    apply Z.ltb_ge. destruct (Z.pos mz =? 2 ^ 53)%Z; lia.
Qed.

(** Rounding an exact value that is an integer below 2^53 gives that
    integer. *)
Lemma round_exact m e l d n :
  valid_input m e l d -> (0 < n < 2 ^ 53)%Z -> (IZR m + d) * bpow e = IZR n ->
  nonneg (binary_round_aux 53 1024 false m e l) /\
  B2R (binary_round_aux 53 1024 false m e l) = IZR n.
Proof.
  intros V Hn Hval.
  destruct (float64_of_int_exact n Hn) as [_ Hex].
  destruct n as [|p|p]; try lia.
  unfold float64_of_int, prec64, emax64 in Hex. cbn [binary_normalize] in Hex.
  destruct (binary_round_as_aux p 0) as (mz & ez & E & V' & Hval' & _ & _).
  rewrite E in Hex. rewrite bpow_0, Rmult_1_r in Hval'.
  destruct (round_mono m e l d (Z.pos mz) ez loc_Exact 0 V V') as (N1 & _ & L1);
    [rewrite Hval, Rplus_0_r, Hval'; lra|].
  destruct (round_mono (Z.pos mz) ez loc_Exact 0 m e l d V' V) as (_ & _ & L2);
    [rewrite Hval, Rplus_0_r, Hval'; lra|].
  split; [exact N1|]. lra.
Qed.

Lemma binary_round_exact mx ex n :
  (0 < n < 2 ^ 53)%Z -> IZR (Z.pos mx) * bpow ex = IZR n ->
  B2R (binary_round 53 1024 false mx ex) = IZR n.
Proof.
  intros Hn Hval.
  destruct (binary_round_as_aux mx ex) as (mz & ez & -> & V & Hval' & _ & _).
  apply (round_exact _ _ _ 0 n V Hn). rewrite Rplus_0_r, Hval'. exact Hval.
Qed.

End ExactFloats.

Section AgeBounds.

Local Open Scope R_scope.

Lemma bpow_1024_big n : (0 < n < 2 ^ 53)%Z -> IZR n < bpow 1024.
Proof.
  intros [H0 H1]. apply Rlt_trans with (bpow 53).
  - rewrite bpow_IZR by lia. apply IZR_lt, H1.
  - apply bpow_lt. lia.
Qed.

Lemma float64_of_int_finite n :
  (0 < n < 2 ^ 53)%Z ->
  exists m e, float64_of_int n = S754_finite false m e /\
              IZR (Z.pos m) * bpow e = IZR n.
Proof.
  intros Hn. destruct (float64_of_int_exact n Hn) as [N E].
  destruct (nonneg_finite _ N) as (m & e & Ef).
  - rewrite E. split; [apply IZR_lt; lia|apply bpow_1024_big, Hn].
  - exists m, e. split; [exact Ef|]. rewrite Ef, B2R_finite in E. exact E.
Qed.

(** A quotient of two positive floats whose exact value is an integer
    below 2^53 is that integer. *)
Lemma float64_div_exact mx ex my ey n :
  (0 < n < 2 ^ 53)%Z ->
  IZR (Z.pos mx) * bpow ex = IZR n * (IZR (Z.pos my) * bpow ey) ->
  B2R (SFdiv 53 1024 (S754_finite false mx ex) (S754_finite false my ey)) = IZR n.
Proof.
  intros Hn Hval.
  destruct (SFdiv_finite mx ex my ey) as (mz & ez & lz & d & -> & V & X).
  apply (round_exact mz ez lz d n V Hn). rewrite X, Hval.
  assert (0 < IZR (Z.pos my)) by (apply IZR_lt; lia).
  pose proof (bpow_gt_0 ey).
  field. split; lra.
Qed.

Lemma smallest_fraction_ok :
  pos_finite (float64_div (float64_of_int 1) (float64_of_int Hour)) = true.
Proof. vm_compute. reflexivity. Qed.

(** The fraction of an hour that Hours() adds is a positive float, at
    most one. *)
Lemma hours_fraction r :
  (0 < r < Hour)%Z ->
  exists mq eq,
    float64_div (float64_of_int r) (float64_of_int Hour) = S754_finite false mq eq /\
    0 < IZR (Z.pos mq) * bpow eq <= 1.
Proof.
  intros Hr.
  assert (HH : (Hour = 3600000000000)%Z) by reflexivity.
  destruct (float64_of_int_finite r ltac:(lia)) as (mr & er & Er & Vr).
  destruct (float64_of_int_finite Hour ltac:(lia)) as (mu & eu & Eu & Vu).
  destruct (float64_of_int_finite 1 ltac:(lia)) as (m1 & e1 & E1 & V1).
  pose proof smallest_fraction_ok as Hq1.
  apply pos_finite_spec in Hq1 as (mq1 & eq1 & Eq1 & Bq1 & _).
  unfold float64_div, prec64, emax64 in *. rewrite Er, Eu, E1 in *.
  destruct (SFdiv_mono_l m1 e1 mr er mu eu) as (_ & Nq & Q1);
    [rewrite V1, Vr; apply IZR_le; lia|].
  destruct (SFdiv_mono_l mr er mu eu mu eu) as (_ & _ & Q2);
    [rewrite Vr, Vu; apply IZR_le; lia|].
  cbv zeta in *.
  rewrite (float64_div_exact mu eu mu eu 1) in Q2 by (try lia; rewrite Rmult_1_l; reflexivity).
  destruct (nonneg_finite _ Nq) as (mq & eq & Eq).
  - split; [lra|]. pose proof (bpow_1024_big 1 ltac:(lia)). lra.
  - exists mq, eq. split; [exact Eq|]. rewrite Eq, B2R_finite in *. lra.
Qed.

(** Hours() of [h] whole hours and a remainder lies between [h] and
    [h + 1]. *)
Lemma hours_bounds h r :
  (0 < h)%Z -> (h + 1 < 2 ^ 53)%Z -> (0 <= r < Hour)%Z ->
  exists m e,
    unitsOf Hour h r = S754_finite false m e /\
    IZR h <= IZR (Z.pos m) * bpow e <= IZR h + 1.
Proof.
  intros Hh Hh1 Hr. unfold unitsOf.
  destruct (float64_of_int_finite h ltac:(lia)) as (mh & eh & Eh & Vh).
  destruct (Z.eq_dec r 0%Z) as [->|Hnz].
  - rewrite Eh. exists mh, eh. split; [reflexivity|]. lra.
  - destruct (hours_fraction r ltac:(lia)) as (mq & eq & Eq & Bq).
    rewrite Eh, Eq. unfold float64_add, prec64, emax64.
    destruct (SFadd_finite mh eh mq eq) as (mz & ez & -> & Vz).
    destruct h as [|ph|ph]; try lia.
    assert (Hlo : IZR (Z.pos ph) * bpow 0 <= IZR (Z.pos mz) * bpow ez)
      by (rewrite bpow_0, Vz; lra).
    assert (Hhi : IZR (Z.pos mz) * bpow ez <= IZR (Z.pos (ph + 1)) * bpow 0)
      by (rewrite bpow_0, Vz, Pos2Z.inj_add, plus_IZR; lra).
    destruct (binary_round_mono _ _ _ _ Hlo) as (_ & Nz & L1).
    destruct (binary_round_mono _ _ _ _ Hhi) as (_ & _ & L2).
    rewrite (binary_round_exact ph 0 (Z.pos ph)) in L1 by (try lia; rewrite bpow_0; ring).
    rewrite (binary_round_exact (ph + 1) 0 (Z.pos ph + 1)) in L2
      by (try lia; rewrite bpow_0, Pos2Z.inj_add; ring).
    rewrite plus_IZR in L2.
    destruct (nonneg_finite _ Nz) as (m & e & Ez).
    + split; [assert (0 < IZR (Z.pos ph)) by (apply IZR_lt; lia); lra|].
      pose proof (bpow_1024_big (Z.pos ph + 1) ltac:(lia)) as B.
      rewrite plus_IZR in B. lra.
    + exists m, e. split; [exact Ez|]. rewrite Ez, B2R_finite in *. lra.
Qed.

(** A float between [24 k] and [24 k + 24], divided by 24, lies between
    [k] and [k + 1]. *)
Lemma days_bounds m e k :
  (0 < k)%Z -> (24 * k + 24 < 2 ^ 53)%Z ->
  IZR (24 * k) <= IZR (Z.pos m) * bpow e <= IZR (24 * k + 24) ->
  exists my ey,
    float64_div (S754_finite false m e) (float64_of_int 24) = S754_finite false my ey /\
    IZR k <= IZR (Z.pos my) * bpow ey <= IZR k + 1.
Proof.
  intros Hk Hk1 [B1 B2].
  destruct (float64_of_int_finite 24 ltac:(lia)) as (m24 & e24 & E24 & V24).
  destruct (float64_of_int_finite (24 * k) ltac:(lia)) as (ml & el & El & Vl).
  destruct (float64_of_int_finite (24 * k + 24) ltac:(lia)) as (mh & eh & Eh & Vh).
  unfold float64_div, prec64, emax64. rewrite E24.
  destruct (SFdiv_mono_l ml el m e m24 e24) as (_ & Ny & Y1); [rewrite Vl; exact B1|].
  destruct (SFdiv_mono_l m e mh eh m24 e24) as (_ & _ & Y2); [rewrite Vh; exact B2|].
  cbv zeta in *.
  rewrite (float64_div_exact ml el m24 e24 k) in Y1
    by (try lia; rewrite Vl, V24, mult_IZR; ring).
  rewrite (float64_div_exact mh eh m24 e24 (k + 1)) in Y2
    by (try lia; rewrite Vh, V24, !plus_IZR, mult_IZR; ring).
  rewrite plus_IZR in Y2.
  destruct (nonneg_finite _ Ny) as (my & ey & Ey).
  - split; [assert (0 < IZR k) by (apply IZR_lt; lia); lra|].
    pose proof (bpow_1024_big (k + 1) ltac:(lia)) as B. rewrite plus_IZR in B. lra.
  - exists my, ey. split; [exact Ey|]. rewrite Ey, B2R_finite in *. lra.
Qed.

(** The integer part of a float between [k] and [k + 1]. *)
Lemma int_of_float64_within m e k :
  (0 <= k)%Z -> (k + 1 <= maxInt64)%Z ->
  IZR k <= IZR (Z.pos m) * bpow e <= IZR k + 1 ->
  int_of_float64 (S754_finite false m e) = k \/
  int_of_float64 (S754_finite false m e) = (k + 1)%Z.
Proof.
  intros Hk Hmax [B1 B2].
  destruct (shiftl_floor m e) as (P & L & U).
  assert (H1 : IZR (Z.shiftl (Z.pos m) e) < IZR (k + 2)) by (rewrite plus_IZR; lra).
  assert (H2 : IZR (k - 1) < IZR (Z.shiftl (Z.pos m) e)) by (rewrite minus_IZR; lra).
  apply lt_IZR in H1, H2.
  rewrite int_of_float64_finite by lia. lia.
Qed.

End AgeBounds.

(** X17. For every duration from zero to the largest one, formatAge
    prints the count of whole seconds, minutes, hours or days that have
    elapsed, with the letter of the unit, or, from one day on, at most
    one day more than that: the float64 arithmetic never makes it print
    less than the elapsed count, and never more than one day too much. *)
Theorem formatAge_at_most_one_day_over (d : Duration) :
  0 <= d <= maxInt64 ->
  formatAge d = formatAge_spec d \/
  (24 * Hour <= d /\ formatAge d = itoa (d / (24 * Hour) + 1) +:+ "d").
Proof.
  intros Hmax. unfold formatAge, formatAge_spec.
  assert (US : Second = 1000000000) by reflexivity.
  assert (UM : Minute = 60000000000) by reflexivity.
  assert (UH : Hour = 3600000000000) by reflexivity.
  destruct (Z.ltb_spec d Minute) as [H1|H1].
  - left. rewrite Duration_Seconds_units by exact Hmax. do 2 f_equal.
    apply (tier_ok_sound false Second (Second - 1)).
    + apply (forallb_zrange _ 0 60 _ seconds_ok).
      pose proof (Z.div_pos d Second).
      assert (d / Second < 60) by (apply Z.div_lt_upper_bound; lia). lia.
    + pose proof (Z.mod_pos_bound d Second). lia.
  - destruct (Z.ltb_spec d Hour) as [H2|H2].
    + left. rewrite Duration_Minutes_units by exact Hmax. do 2 f_equal.
      apply (tier_ok_sound false Minute (Minute - 1)).
      * apply (forallb_zrange _ 0 60 _ minutes_ok).
        pose proof (Z.div_pos d Minute).
        assert (d / Minute < 60) by (apply Z.div_lt_upper_bound; lia). lia.
      * pose proof (Z.mod_pos_bound d Minute). lia.
    + destruct (Z.ltb_spec d (24 * Hour)) as [H3|H3].
      * left. rewrite Duration_Hours_units by exact Hmax. do 2 f_equal.
        apply (tier_ok_sound false Hour (Hour - 1)).
        -- apply (forallb_zrange _ 0 24 _ hours_ok).
           pose proof (Z.div_pos d Hour).
           assert (d / Hour < 24) by (apply Z.div_lt_upper_bound; lia). lia.
        -- pose proof (Z.mod_pos_bound d Hour). lia.
      * rewrite Duration_Hours_units by exact Hmax.
        set (h := d / Hour). set (r := d mod Hour). set (k := d / (24 * Hour)).
        assert (Hk : k = h / 24)
          by (unfold k, h; rewrite Z.div_div by lia; f_equal; lia).
        assert (Hh : 24 <= h) by (apply Z.div_le_lower_bound; lia).
        assert (Hh' : h < 2562048)
          by (apply Z.div_lt_upper_bound; unfold maxInt64 in *; lia).
        pose proof (Z.mod_pos_bound d Hour ltac:(lia)) as Hr. fold r in Hr.
        pose proof (Z_div_mod_eq_full h 24) as Hdm.
        pose proof (Z.mod_pos_bound h 24 ltac:(lia)) as Hm24.
        rewrite <- Hk in Hdm.
        destruct (hours_bounds h r ltac:(lia) ltac:(lia) Hr) as (m & e & Ex & Bx).
        rewrite Ex.
        destruct (days_bounds m e k ltac:(lia) ltac:(lia)) as (my & ey & Ey & By).
        { destruct Bx as [B1 B2]. split.
          - eapply Rle_trans; [|exact B1]. apply IZR_le. lia.
          - eapply Rle_trans; [exact B2|]. rewrite <- (plus_IZR h 1). apply IZR_le. lia. }
        rewrite Ey.
        destruct (int_of_float64_within my ey k ltac:(lia) ltac:(unfold maxInt64; lia) By)
          as [->| ->]; [left; reflexivity|right; split; [exact H3|reflexivity]].
Qed.

Lemma formatAge_at_most_one_day_over_witness :
  0 <= 400 * 24 * Hour <= maxInt64 /\
  (formatAge (400 * 24 * Hour) = formatAge_spec (400 * 24 * Hour) \/
   (24 * Hour <= 400 * 24 * Hour /\
    formatAge (400 * 24 * Hour) = itoa (400 * 24 * Hour / (24 * Hour) + 1) +:+ "d")).
Proof.
  assert (H : 0 <= 400 * 24 * Hour <= maxInt64) by (vm_compute; split; discriminate).
  split; [exact H|]. exact (formatAge_at_most_one_day_over (400 * 24 * Hour) H).
Defined.

(** ** The error classifier, reduced *)

Lemma occursIn_longer (sub pre s : string) :
  occursIn (pre +:+ sub) s -> occursIn sub s.
Proof.
  intros (a & b & ->). exists (a +:+ pre), b.
  rewrite !append_assoc_string. reflexivity.
Qed.

(** X18. Classifying an error takes two tests on its text, not three,
    and no test for an empty text: an error is "kind not installed"
    exactly when it is a not-found error or its text contains "no matches
    for kind" or "could not find the requested resource".  The third
    phrase of the code, "the server could not find the requested
    resource", contains the second one and never decides. *)
Theorem classifier_needs_two_phrases (err : error) :
  isCRDMissing err =
  IsNotFound err
  || Contains (Error err) "no matches for kind"
  || Contains (Error err) "could not find the requested resource".
Proof.
  unfold isCRDMissing, IgnoreNotFound.
  destruct (IsNotFound err); [reflexivity|]. cbn [orb].
  destruct (String.eqb_spec (Error err) "") as [->|Hne]; [reflexivity|]. cbn [negb andb].
  destruct (Contains (Error err) "no matches for kind"); [reflexivity|]. cbn [orb].
  destruct (Contains (Error err) "could not find the requested resource") eqn:E2;
    [reflexivity|]. cbn [orb].
  destruct (Contains (Error err) "the server could not find the requested resource") eqn:E3;
    [|reflexivity].
  apply Contains_iff in E3.
  apply (occursIn_longer "could not find the requested resource" "the server ") in E3.
  apply Contains_iff in E3. congruence.
Qed.

(** ** Suspending, then resuming *)

Section SuspendResume.

Variable St : Type.
Variable now : St -> Time * St.

(** X19. Suspending a resource that is not suspended and then resuming
    it, on a server that keeps what is written and gives it a new
    resource version at each update, issues get, update, get, update, and
    the second update writes back the object as the first get fetched it,
    under the resource version that the first update gave it: the cycle
    changes nothing but the flag, and restores it. *)
Theorem suspend_then_resume_restores (k : K8sClient St) ctx rt g name ns s calls
    (obj : Object g) rv s1 s2 s3 s4 :
  (rt = "GitRepository" /\ g = GitRepository_v1) \/
  (rt = "HelmRepository" /\ g = HelmRepository_v1beta2) \/
  (rt = "Kustomization" /\ g = Kustomization_v1) \/
  (rt = "HelmRelease" /\ g = HelmRelease_v2beta1) ->
  let key := {| key_Namespace := ns; key_Name := name |} in
  let c := Some (mkClient (Some k)) in
  getSuspend g obj = false ->
  api_Get k g ctx key s = (Returns obj, s1) ->
  api_Update k g ctx (setSuspend g true obj) s1 = (Returns tt, s2) ->
  api_Get k g ctx key s2 = (Returns (stored g rv (setSuspend g true obj)), s3) ->
  api_Update k g ctx (stored g rv obj) s3 = (Returns tt, s4) ->
  exists w1,
    SuspendResource St c ctx rt name ns (mkWorld St s calls) = (Done None, w1) /\
    ResumeResource St c ctx rt name ns w1 =
    (Done None,
     mkWorld St s4 (calls ++ [ CallGet g ctx key; CallUpdate g ctx (setSuspend g true obj);
                               CallGet g ctx key; CallUpdate g ctx (stored g rv obj) ])).
Proof.
  intros Hkind key c Hoff G1 U1 G2 U2. subst c.
  pose proof (objectFor_of_kind rt g Hkind) as Hg.
  assert (Hback : setSuspend g false (stored g rv (setSuspend g true obj)) = stored g rv obj).
  { clear -Hoff. destruct g; destruct obj as [[] ?]; cbn in *; subst; reflexivity. }
  unfold SuspendResource, ResumeResource, updateSuspendStatus. rewrite Hg.
  unfold mbind, M_bind. fold key.
  rewrite Client_Get_valid, G1. cbn [fst snd].
  rewrite Client_Update_valid, U1. cbn [fst snd].
  eexists. split; [reflexivity|].
  rewrite Client_Get_valid, G2. cbn [fst snd].
  rewrite Hback, Client_Update_valid, U2. cbn [fst snd].
  rewrite <- !app_assoc. reflexivity.
Qed.

End SuspendResume.

Lemma suspend_then_resume_restores_witness :
  let key := mkNamespacedName "flux-system" "apps" in
  let ctx := Some Background in
  let c := Some (mkClient (Some versioningClient)) in
  ks_Spec_Suspend sampleKustomization = false /\
  om_ResourceVersion (ks_ObjectMeta sampleKustomization) = "12" /\
  exists w1 w2 obj1 obj2,
    SuspendResource Fake c ctx "Kustomization" "apps" "flux-system"
      (startWorld servingCluster) = (Done None, w1) /\
    fst (fake_Get Kustomization_v1 ctx key (w_state Fake w1)) = Returns obj1 /\
    ks_Spec_Suspend obj1 = true /\ om_ResourceVersion (ks_ObjectMeta obj1) = "12.1" /\
    ResumeResource Fake c ctx "Kustomization" "apps" "flux-system" w1 = (Done None, w2) /\
    fst (fake_Get Kustomization_v1 ctx key (w_state Fake w2)) = Returns obj2 /\
    obj2 = stored Kustomization_v1 "12.1.1" sampleKustomization.
Proof.
  cbv zeta. split; [reflexivity|]. split; [reflexivity|].
  pose (s2 := snd (versioning_Update Kustomization_v1 (Some Background)
                     (setSuspend Kustomization_v1 true sampleKustomization) servingCluster)).
  pose (s4 := snd (versioning_Update Kustomization_v1 (Some Background)
                     (stored Kustomization_v1 "12.1" sampleKustomization) s2)).
  destruct (suspend_then_resume_restores Fake versioningClient (Some Background)
              "Kustomization" Kustomization_v1 "apps" "flux-system" servingCluster []
              sampleKustomization "12.1" servingCluster s2 s2 s4
              (or_intror (or_intror (or_introl (conj eq_refl eq_refl))))
              eq_refl eq_refl eq_refl eq_refl eq_refl)
    as (w1 & E1 & E2).
  exists w1. eexists. eexists. eexists.
  split; [exact E1|].
  unfold startWorld in *. cbn in E1. injection E1 as <-.
  split; [reflexivity|]. split; [reflexivity|]. split; [reflexivity|].
  split; [exact E2|]. split; reflexivity.
Defined.

(** ** Suspended objects in the table *)

Lemma row_of_suspended (v : ResourceView) (r : Resource) :
  Suspended r = true -> createTableRow v r !! 2%nat = Some "Suspended".
Proof.
  intros H. unfold createTableRow, statusCell. rewrite H.
  destruct (String.eqb (resourceType v) ResourceTypeGitRepository);
    destruct (String.eqb (resourceType v) ResourceTypeHelmRepository);
    destruct (String.eqb (resourceType v) ResourceTypeKustomization);
    destruct (String.eqb (resourceType v) ResourceTypeHelmRelease);
    destruct (String.eqb (Status r) ""); reflexivity.
Qed.

Section SuspendedRows.

Variable St : Type.
Variable now : St -> Time * St.

(** X20. A fetched object whose spec says suspend is shown with the
    status "Suspended", uncut, whatever its conditions say and whatever
    the view: the reason of its Ready condition is not shown.  For a
    HelmRelease this is so when it has a chart template; one without is
    not converted at all. *)
Theorem suspended_object_shown_as_Suspended (v : ResourceView) (w : World St) :
  (forall repo, gr_Spec_Suspend repo = true ->
     exists r w', gitRepositoryResource St now repo w = (Done r, w') /\
                  createTableRow v r !! 2%nat = Some "Suspended") /\
  (forall repo, hrepo_Spec_Suspend repo = true ->
     exists r w', helmRepositoryResource St now repo w = (Done r, w') /\
                  createTableRow v r !! 2%nat = Some "Suspended") /\
  (forall ks, ks_Spec_Suspend ks = true ->
     exists r w', kustomizationResource St now ks w = (Done r, w') /\
                  createTableRow v r !! 2%nat = Some "Suspended") /\
  (forall hr, hr_Spec_Chart hr <> None -> hr_Spec_Suspend hr = true ->
     exists r w', helmReleaseResource St now hr w = (Done r, w') /\
                  createTableRow v r !! 2%nat = Some "Suspended").
Proof.
  repeat split.
  - intros repo Hs.
    destruct (gitRepositoryResource_fields St now repo w) as (r & w' & E & _ & F).
    exists r, w'. split; [exact E|]. apply row_of_suspended.
    destruct F as (_ & _ & _ & -> & _). exact Hs.
  - intros repo Hs.
    destruct (helmRepositoryResource_fields St now repo w) as (r & w' & E & _ & F).
    exists r, w'. split; [exact E|]. apply row_of_suspended.
    destruct F as (_ & _ & _ & -> & _). exact Hs.
  - intros ks Hs.
    destruct (kustomizationResource_fields St now ks w) as (r & w' & E & _ & F).
    exists r, w'. split; [exact E|]. apply row_of_suspended.
    destruct F as (_ & _ & _ & -> & _). exact Hs.
  - intros hr Hchart Hs.
    destruct (hr_Spec_Chart hr) as [chart|] eqn:Echart; [|congruence].
    destruct (helmReleaseResource_fields St now hr chart w Echart) as (r & w' & E & _ & F).
    exists r, w'. split; [exact E|]. apply row_of_suspended.
    destruct F as (_ & _ & _ & -> & _). exact Hs.
Qed.

End SuspendedRows.
